(** * Worker stress analysis: session fusion and alerting pipeline

    A shallow embedding of the Python backend
    ([fusion_engine/classifier.py], [fusion_engine/fusion.py],
    [utils/session_manager.py], [utils/alert_manager.py], [config.py], and
    of [websocket_handler.py] the events that run no model) together with
    the properties its specification states about it and further
    properties of the code.

    Conventions of the embedding:
    - a Python [dict] read with [.get(key, default)] is a record whose
      fields are [option]s, the default being applied where the code
      applies it; a [dict] used as a map is a [gmap];
    - exceptions are values of [exn]; code that may raise returns a
      [Result], and code that also mutates [self] lives in the monad [M],
      which keeps the mutations made before the exception, as Python does;
    - [time.time()] and [uuid.uuid4()] read an explicit [World];
    - Python floats are used through the interface [PyFloat].  Its instance
      on [Q] reads every float as the exact rational it denotes (no NaN, no
      infinity, no rounding); its instance on [spec_float] is IEEE-754
      binary64 with round-to-nearest-even, as CPython computes.  The
      classifier, the fusion and the alert manager are written over the
      interface, so that what is proved of them holds in both; the session
      manager computes on exact rationals, and so do the readings of the
      clock. *)

From Stdlib Require Import ZArith QArith Qround Qabs SpecFloat Lia Lqa.
From stdpp Require Import gmap strings list pretty.

Open Scope string_scope.

(** ** Exceptions and results *)

Inductive exn :=
| ZeroDivisionError
| KeyError (key : string)
| IndexError.

Inductive Result (A : Type) :=
| Ok (a : A)
| Raise (e : exn).
Arguments Ok {A} a.
Arguments Raise {A} e.

#[export] Instance Result_ret : MRet Result := fun A a => Ok a.
#[export] Instance Result_bind : MBind Result :=
  fun A B f m => match m with Ok a => f a | Raise e => Raise e end.

Definition is_Ok {A} (r : Result A) : bool :=
  match r with Ok _ => true | Raise _ => false end.

(** ** Python floats *)

Class PyFloat (F : Type) := {
  lit : Z -> positive -> F;      (* the decimal literal n/d, e.g. 0.33 = lit 33 100 *)
  fadd : F -> F -> F;
  fsub : F -> F -> F;
  fmul : F -> F -> F;
  fquot : F -> F -> F;           (* a / b for b != 0 *)
  fabs : F -> F;
  flt : F -> F -> bool;
  fle : F -> F -> bool;
  feq : F -> F -> bool
}.

(** [a / b] raises [ZeroDivisionError] on a zero divisor. *)
Definition truediv `{PyFloat F} (a b : F) : Result F :=
  if feq b (lit 0 1) then Raise ZeroDivisionError else Ok (fquot a b).

(** [a / b] for a float [a] and an int [b], and for two ints: the int is
    converted, exactly for the lengths met here, and only a zero [b]
    raises. *)
Definition truediv_int `{PyFloat F} (a : F) (b : Z) : Result F :=
  if decide (b = 0)%Z then Raise ZeroDivisionError else Ok (fquot a (lit b 1)).
Definition int_truediv `{PyFloat F} (a b : Z) : Result F :=
  if decide (b = 0)%Z then Raise ZeroDivisionError
  else Ok (fquot (lit a 1) (lit b 1)).

(** [float(x)] of a float. *)
Definition float `{PyFloat F} (x : F) : F := x.

Definition Qlt_bool (x y : Q) : bool := (Qnum x * QDen y <? Qnum y * QDen x)%Z.

#[export] Instance Q_float : PyFloat Q := {
  lit n d := n # d;
  fadd := Qplus;
  fsub := Qminus;
  fmul := Qmult;
  fquot := Qdiv;
  fabs := Qabs;
  flt := Qlt_bool;
  fle := Qle_bool;
  feq := Qeq_bool
}.

Module binary64.
Definition prec : Z := 53.
Definition emax : Z := 1024.
Definition of_Z (z : Z) : spec_float := binary_normalize prec emax z 0 false.
(** A decimal literal denotes the double nearest to it: both [n] and [d]
    below are exact, and the division rounds once. *)
Definition of_decimal (n : Z) (d : positive) : spec_float :=
  SFdiv prec emax (of_Z n) (of_Z (Zpos d)).
End binary64.

#[export] Instance binary64_float : PyFloat spec_float := {
  lit := binary64.of_decimal;
  fadd := SFadd binary64.prec binary64.emax;
  fsub := SFsub binary64.prec binary64.emax;
  fmul := SFmul binary64.prec binary64.emax;
  fquot := SFdiv binary64.prec binary64.emax;
  fabs := SFabs;
  flt := SFltb;
  fle := SFleb;
  feq := SFeqb
}.

(** ** config.py *)

Module config.
Section Thresholds.
Context `{PyFloat F}.
Definition AUDIO_WEIGHT : F := lit 5 10.
Definition VIDEO_WEIGHT : F := lit 5 10.
Definition STRESS_LOW_THRESHOLD : F := lit 33 100.
Definition STRESS_HIGH_THRESHOLD : F := lit 66 100.
Definition ALERT_HIGH_STRESS_THRESHOLD : F := lit 7 10.
Definition ALERT_SPIKE_THRESHOLD : F := lit 3 10.
End Thresholds.
Definition ALERT_HIGH_STRESS_DURATION : Z := 180.
Definition ALERT_SPIKE_WINDOW : Z := 30.
Definition SESSION_MAX_HISTORY : nat := 1000.
End config.

(** ** fusion_engine/classifier.py *)

Module classifier.
Section Classifier.
Context `{PyFloat F}.

Record StressClassifier := {
  low_threshold : F;
  high_threshold : F
}.

Definition __init__ : StressClassifier := {|
  low_threshold := config.STRESS_LOW_THRESHOLD;
  high_threshold := config.STRESS_HIGH_THRESHOLD
|}.

Record Classification := {
  level : string;
  score : F;
  color : string;
  description : string;
  recommendation : string
}.

Definition classify (self : StressClassifier) (stress_score : F) : Classification :=
  if flt stress_score (low_threshold self) then
    {| level := "Low"; score := float stress_score; color := "green";
       description := "Worker appears calm and relaxed";
       recommendation := "Maintain current work conditions" |}
  else if flt stress_score (high_threshold self) then
    {| level := "Medium"; score := float stress_score; color := "yellow";
       description := "Worker shows moderate stress indicators";
       recommendation := "Monitor closely for any changes" |}
  else
    {| level := "High"; score := float stress_score; color := "red";
       description := "Worker shows elevated stress levels";
       recommendation := "Suggest taking a break and assess workload" |}.
End Classifier.
Arguments StressClassifier F : clear implicits.
Arguments Classification F : clear implicits.
End classifier.

(** ** fusion_engine/fusion.py *)

Module fusion.
Section Fusion.
Context `{PyFloat F}.

(** The result of one modality, as the fusion reads it, and the echo of
    it in a fused result. *)
Record ModalityResult := {
  mr_stress_score : option F;
  mr_confidence : option F;
  mr_emotion : option string;
  mr_stress_level : option string
}.

Record FusedResult := {
  stress_score : option F;
  stress_level : option string;
  confidence : option F;
  modalities_used : option (list string);
  audio : option ModalityResult;
  video : option ModalityResult;
  fusion_method : option string;
  modality_agreement : option string;
  weights : option (F * F);          (* {'audio': _, 'video': _} *)
  error : option string
}.

Definition _classify_stress_level (stress_score : F) : string :=
  if flt stress_score config.STRESS_LOW_THRESHOLD then "Low"
  else if flt stress_score config.STRESS_HIGH_THRESHOLD then "Medium"
  else "High".

Definition _dual_modality_fusion (audio_result video_result : ModalityResult)
  : Result FusedResult :=
  let audio_stress := default (lit 5 10) (mr_stress_score audio_result) in
  let audio_conf := default (lit 5 10) (mr_confidence audio_result) in
  let video_stress := default (lit 5 10) (mr_stress_score video_result) in
  let video_conf := default (lit 5 10) (mr_confidence video_result) in
  let total_conf := fadd audio_conf video_conf in
  '(dynamic_audio_weight, dynamic_video_weight) ←
    (if flt (lit 0 1) total_conf then
       dynamic_audio_weight ← truediv audio_conf total_conf;
       dynamic_video_weight ← truediv video_conf total_conf;
       mret (dynamic_audio_weight, dynamic_video_weight)
     else
       mret (lit 5 10, lit 5 10));
  let fused_stress :=
    fadd (fmul dynamic_audio_weight audio_stress)
         (fmul dynamic_video_weight video_stress) in
  fused_confidence ← truediv (fadd audio_conf video_conf) (lit 2 1);
  let fused_level := _classify_stress_level fused_stress in
  let agreement :=
    if flt (fabs (fsub audio_stress video_stress)) (lit 1 10) then "high"
    else if flt (fabs (fsub audio_stress video_stress)) (lit 3 10) then "medium"
    else "low" in
  let audio_emotion := default "neutral" (mr_emotion audio_result) in
  let video_emotion := default "neutral" (mr_emotion video_result) in
  mret {|
    stress_score := Some (float fused_stress);
    stress_level := Some fused_level;
    confidence := Some (float fused_confidence);
    modalities_used := Some ["audio"; "video"];
    audio := Some {|
      mr_stress_score := Some (float audio_stress);
      mr_emotion := Some audio_emotion;
      mr_confidence := Some (float audio_conf);
      mr_stress_level := Some (default "Medium" (mr_stress_level audio_result)) |};
    video := Some {|
      mr_stress_score := Some (float video_stress);
      mr_emotion := Some video_emotion;
      mr_confidence := Some (float video_conf);
      mr_stress_level := Some (default "Medium" (mr_stress_level video_result)) |};
    fusion_method := Some "confidence_weighted_average";
    modality_agreement := Some agreement;
    weights := Some (float dynamic_audio_weight, float dynamic_video_weight);
    error := None
  |}.

Definition _single_modality_result (result : ModalityResult) (modality : string)
  : FusedResult :=
  let stress_score := default (lit 5 10) (mr_stress_score result) in
  let confidence := default (lit 5 10) (mr_confidence result) in
  let emotion := default "neutral" (mr_emotion result) in
  let stress_level := default "Medium" (mr_stress_level result) in
  let echo := {|
    mr_stress_score := Some (float stress_score);
    mr_emotion := Some emotion;
    mr_confidence := Some (float confidence);
    mr_stress_level := Some stress_level |} in
  {|
    stress_score := Some (float stress_score);
    stress_level := Some stress_level;
    confidence := Some (float confidence);
    modalities_used := Some [modality];
    audio := if decide (modality = "audio") then Some echo else None;
    video := if decide (modality = "video") then Some echo else None;
    fusion_method := Some "single_modality";
    modality_agreement := Some "N/A";
    weights := None;
    error := None
  |}.

Definition _get_default_result : FusedResult := {|
  stress_score := Some (lit 5 10);
  stress_level := Some "Medium";
  confidence := Some (lit 0 1);
  modalities_used := Some [];
  audio := None;
  video := None;
  fusion_method := Some "none";
  modality_agreement := Some "N/A";
  weights := None;
  error := Some "No modality data available"
|}.

Definition fuse_stress_scores (audio_result video_result : option ModalityResult)
  : Result FusedResult :=
  match audio_result, video_result with
  | None, None => mret _get_default_result
  | None, Some video_result => mret (_single_modality_result video_result "video")
  | Some audio_result, None => mret (_single_modality_result audio_result "audio")
  | Some audio_result, Some video_result =>
      _dual_modality_fusion audio_result video_result
  end.
End Fusion.
Arguments ModalityResult F : clear implicits.
Arguments FusedResult F : clear implicits.
End fusion.

(** ** The world: clock and identifier source; the monad of methods *)

Record World := {
  clock : nat -> Q;          (* the successive readings of time.time() *)
  ticks : nat;               (* readings made so far *)
  entropy : nat -> string;   (* the successive values of str(uuid.uuid4()) *)
  draws : nat                (* identifiers drawn so far *)
}.

Definition M (Self A : Type) : Type := World * Self -> Result A * (World * Self).

#[export] Instance M_ret {Self} : MRet (M Self) := fun A a ws => (Ok a, ws).
#[export] Instance M_bind {Self} : MBind (M Self) :=
  fun A B f m ws =>
    match m ws with
    | (Ok a, ws') => f a ws'
    | (Raise e, ws') => (Raise e, ws')
    end.

Definition get_self {Self} : M Self Self := fun ws => (Ok (snd ws), ws).
Definition put_self {Self} (self : Self) : M Self unit := fun ws => (Ok tt, (fst ws, self)).
Definition lift {Self A} (r : Result A) : M Self A := fun ws => (r, ws).

Definition time_time {Self} : M Self Q :=
  fun ws =>
    let w := fst ws in
    (Ok (clock w (ticks w)),
     ({| clock := clock w; ticks := S (ticks w);
         entropy := entropy w; draws := draws w |}, snd ws)).

Definition uuid4_str {Self} : M Self string :=
  fun ws =>
    let w := fst ws in
    (Ok (entropy w (draws w)),
     ({| clock := clock w; ticks := ticks w;
         entropy := entropy w; draws := S (draws w) |}, snd ws)).

(** [d[key]] *)
Definition getitem {V} (d : gmap string V) (key : string) : Result V :=
  match d !! key with
  | Some v => Ok v
  | None => Raise (KeyError key)
  end.

(** ** collections.deque with a maximal length *)

Module deque.
Record t (A : Type) := { items : list A; maxlen : nat }.
Arguments items {A} _.
Arguments maxlen {A} _.

Definition new {A} (maxlen : nat) : t A := {| items := []; maxlen := maxlen |}.

(** [append]: add on the right; a deque that is then too long loses its
    leftmost item. *)
Definition append {A} (d : t A) (x : A) : t A :=
  let l := (items d ++ [x])%list in
  {| items := if decide (maxlen d < length l) then drop 1 l else l;
     maxlen := maxlen d |}.
End deque.

(** ** Arithmetic of the managers, on exact rationals *)

Local Open Scope Q_scope.

Definition Qsum (l : list Q) : Q := foldl Qplus 0 l.

(** [max] and [min] of a non-empty sequence [x :: l]: the first of the
    largest (smallest) items. *)
Definition py_max (x : Q) (l : list Q) : Q :=
  foldl (fun m y => if Qlt_bool m y then y else m) x l.
Definition py_min (x : Q) (l : list Q) : Q :=
  foldl (fun m y => if Qlt_bool y m then y else m) x l.

(** The nearest integer, a tie going to the even one. *)
Definition round_half_even (y : Q) : Z :=
  let f := Qfloor y in
  let r := y - inject_Z f in
  if Qlt_bool r 0.5 then f
  else if Qlt_bool 0.5 r then (f + 1)%Z
  else if Z.even f then f else (f + 1)%Z.

(** [round(x, ndigits)]: the nearest multiple of 10^-ndigits, a tie going
    to the even one. *)
Definition py_round (x : Q) (ndigits : nat) : Q :=
  let scale := inject_Z (10 ^ Z.of_nat ndigits) in
  inject_Z (round_half_even (x * scale)) / scale.

(** [f'{x:.2f}'] *)
Definition format_2f (x : Q) : string :=
  let n := round_half_even (Qabs x * 100) in
  let frac := (n mod 100)%Z in
  (if Qlt_bool x 0 then "-" else "") +:+ pretty (n / 100)%Z +:+ "." +:+
  (if decide (frac < 10)%Z then "0" else "") +:+ pretty frac.

(** [int(x)]: truncation toward zero. *)
Definition py_int (x : Q) : Z := Z.quot (Qnum x) (QDen x).

(** [x // y] and [x % y] for a positive [y]. *)
Definition py_floordiv (x y : Q) : Q := inject_Z (Qfloor (x / y)).
Definition py_mod (x y : Q) : Q := x - y * inject_Z (Qfloor (x / y)).

(** ** Builtins whose result depends on the float model *)

Class PyBuiltins (F : Type) := {
  py_sum : list F -> F;             (* sum(l), for a list of floats *)
  py_format_2f : F -> string        (* f'{x:.2f}' *)
}.

#[export] Instance Q_builtins : PyBuiltins Q := {
  py_sum := Qsum;
  py_format_2f := format_2f
}.

(** On binary64, [sum] adds from the left starting from the int 0, every
    addition rounding (CPython up to 3.11; later versions add a
    compensation term, which another instance would model), and
    [f'{x:.2f}'] prints the decimal with two digits nearest to the value
    of the double, a tie going to the even one. *)
Definition binary64_sum (l : list spec_float) : spec_float :=
  foldl (SFadd binary64.prec binary64.emax) (binary64.of_Z 0) l.

Definition binary64_format_2f (x : spec_float) : string :=
  match x with
  | S754_nan => "nan"
  | S754_infinity s => if s then "-inf" else "inf"
  | S754_zero s => if s then "-0.00" else "0.00"
  | S754_finite s m e =>
      let value := inject_Z (Zpos m) * (2 # 1) ^ e in
      format_2f (if s then - value else value)
  end.

#[export] Instance binary64_builtins : PyBuiltins spec_float := {
  py_sum := binary64_sum;
  py_format_2f := binary64_format_2f
}.

Local Close Scope Q_scope.

(** ** utils/session_manager.py *)

Module session_manager.
Local Open Scope Q_scope.

Record HistoryEntry := {
  timestamp : Q;
  stress_score : Q;
  stress_level : string;
  emotion : string;
  modalities : list string
}.

Record Session := {
  session_id : string;
  worker_id : string;
  start_time : Q;
  stress_history : deque.t HistoryEntry;
  emotion_counts : gmap string nat;
  total_updates : nat;
  current_stress : Q;
  current_emotion : string;
  status : string;
  end_time : option Q
}.

Record SessionManager := {
  sessions : gmap string Session;
  max_history : nat
}.

Record Analytics := {
  average_stress : Q;
  peak_stress : Q;
  min_stress : Q;
  stress_variance : Q;
  emotion_distribution : gmap string Q;
  high_stress_percentage : Q;
  data_points : option nat
}.

Record SessionInfo := {
  info_session_id : string;
  info_worker_id : string;
  info_duration : Q;
  info_duration_formatted : string;
  info_status : string;
  info_current_stress : Q;
  info_current_emotion : string;
  info_total_updates : nat;
  info_analytics : Analytics
}.

Record TimelinePoint := {
  tp_timestamp : Q;
  tp_stress_score : Q;
  tp_stress_level : string;
  tp_emotion : string
}.

Definition __init__ : SessionManager :=
  {| sessions := ∅; max_history := config.SESSION_MAX_HISTORY |}.

Definition set_sessions (self : SessionManager) (d : gmap string Session) : SessionManager :=
  {| sessions := d; max_history := max_history self |}.

Definition create_session (worker_id : option string) : M SessionManager string :=
  self ← get_self;
  session_id ← uuid4_str;
  now ← time_time;
  put_self (set_sessions self (<[session_id := {|
    session_id := session_id;
    worker_id :=
      match worker_id with
      | Some w => if decide (w = "") then "worker_" +:+ String.substring 0 8 session_id else w
      | None => "worker_" +:+ String.substring 0 8 session_id
      end;
    start_time := now;
    stress_history := deque.new (max_history self);
    emotion_counts := ∅;
    total_updates := 0;
    current_stress := 0.5;
    current_emotion := "neutral";
    status := "active";
    end_time := None
  |}]> (sessions self)));;
  mret session_id.

Definition _format_duration (seconds : Q) : string :=
  let hours := py_int (py_floordiv seconds 3600) in
  let minutes := py_int (py_floordiv (py_mod seconds 3600) 60) in
  let secs := py_int (py_mod seconds 60) in
  if decide (0 < hours)%Z then
    pretty hours +:+ "h " +:+ pretty minutes +:+ "m " +:+ pretty secs +:+ "s"
  else if decide (0 < minutes)%Z then
    pretty minutes +:+ "m " +:+ pretty secs +:+ "s"
  else
    pretty secs +:+ "s".

(** [sum(session['emotion_counts'].values())] *)
Definition total_emotions (counts : gmap string nat) : nat :=
  map_fold (fun _ count acc => (count + acc)%nat) 0%nat counts.

Definition _calculate_analytics (session : Session) : Result Analytics :=
  let history := deque.items (stress_history session) in
  match stress_score <$> history with
  | [] =>
      mret {|
        average_stress := 0.5; peak_stress := 0.5; min_stress := 0.5;
        stress_variance := 0.0; emotion_distribution := ∅;
        high_stress_percentage := 0.0; data_points := None |}
  | first :: rest =>
      let stress_scores := first :: rest in
      let len := inject_Z (Z.of_nat (length stress_scores)) in
      avg_stress ← truediv (Qsum stress_scores) len;
      let peak_stress := py_max first rest in
      let min_stress := py_min first rest in
      variance ← truediv (Qsum ((fun x => (x - avg_stress) ^ 2) <$> stress_scores)) len;
      let high_stress_count :=
        length (filter (fun score => Qle_bool config.STRESS_HIGH_THRESHOLD score = true)
                       stress_scores) in
      ratio ← truediv (inject_Z (Z.of_nat high_stress_count)) len;
      let high_stress_pct := ratio * 100 in
      let total := total_emotions (emotion_counts session) in
      (* the comprehension divides once per emotion: with no emotion there
         is no division, with one or more a zero total raises at the first *)
      emotion_dist ←
        (if decide (emotion_counts session = ∅) then mret ∅
         else if decide (total = 0%nat) then Raise ZeroDivisionError
         else mret ((fun count : nat =>
                       inject_Z (Z.of_nat count) / inject_Z (Z.of_nat total) * 100)
                    <$> emotion_counts session));
      mret {|
        average_stress := py_round avg_stress 3;
        peak_stress := py_round peak_stress 3;
        min_stress := py_round min_stress 3;
        stress_variance := py_round variance 3;
        emotion_distribution := emotion_dist;
        high_stress_percentage := py_round high_stress_pct 1;
        data_points := Some (length history) |}
  end.

Definition get_session_info (session_id : string) : M SessionManager (option SessionInfo) :=
  self ← get_self;
  match sessions self !! session_id with
  | None => mret None
  | Some session =>
      now ← time_time;
      let duration := now - start_time session in
      analytics ← lift (_calculate_analytics session);
      mret (Some {|
        info_session_id := session_manager.session_id session;
        info_worker_id := worker_id session;
        info_duration := duration;
        info_duration_formatted := _format_duration duration;
        info_status := status session;
        info_current_stress := current_stress session;
        info_current_emotion := current_emotion session;
        info_total_updates := total_updates session;
        info_analytics := analytics |})
  end.

(** [{}.get('emotion', 'neutral')] reads this dict when the fused result
    has no echo of a modality. *)
Definition empty_dict : fusion.ModalityResult Q := {|
  fusion.mr_stress_score := None; fusion.mr_confidence := None;
  fusion.mr_emotion := None; fusion.mr_stress_level := None |}.

Definition update_session (session_id : string) (fused_result : fusion.FusedResult Q)
  : M SessionManager (option SessionInfo) :=
  self ← get_self;
  session_id ←
    (if decide (is_Some (sessions self !! session_id)) then mret session_id
     else create_session None);
  self ← get_self;
  session ← lift (getitem (sessions self) session_id);
  let stress_score := default 0.5 (fusion.stress_score fused_result) in
  let stress_level := default "Medium" (fusion.stress_level fused_result) in
  let audio_emotion :=
    default "neutral" (fusion.mr_emotion (default empty_dict (fusion.audio fused_result))) in
  let video_emotion :=
    default "neutral" (fusion.mr_emotion (default empty_dict (fusion.video fused_result))) in
  let primary_emotion := audio_emotion in
  now ← time_time;
  put_self (set_sessions self (<[session_id := {|
    session_id := session_manager.session_id session;
    worker_id := worker_id session;
    start_time := start_time session;
    stress_history :=
      deque.append (stress_history session) {|
        timestamp := now;
        stress_score := stress_score;
        stress_level := stress_level;
        emotion := primary_emotion;
        modalities := default [] (fusion.modalities_used fused_result) |};
    emotion_counts :=
      match emotion_counts session !! primary_emotion with
      | Some count => <[primary_emotion := (count + 1)%nat]> (emotion_counts session)
      | None => <[primary_emotion := 1%nat]> (emotion_counts session)
      end;
    total_updates := (total_updates session + 1)%nat;
    current_stress := stress_score;
    current_emotion := primary_emotion;
    status :=
      if Qle_bool config.ALERT_HIGH_STRESS_THRESHOLD stress_score then "at_risk"
      else "normal";
    end_time := end_time session
  |}]> (sessions self)));;
  get_session_info session_id.

(** [history[-limit:]] *)
Definition last_slice {A} (limit : Z) (history : list A) : list A :=
  let start := (- limit)%Z in
  if decide (start < 0)%Z
  then drop (Z.to_nat (Z.max (Z.of_nat (length history) + start) 0)) history
  else drop (Z.to_nat start) history.

Definition get_stress_timeline (session_id : string) (limit : Z)
  : M SessionManager (list TimelinePoint) :=
  self ← get_self;
  match sessions self !! session_id with
  | None => mret []
  | Some session =>
      let history := deque.items (stress_history session) in
      let recent :=
        if decide (limit < Z.of_nat (length history))%Z then last_slice limit history
        else history in
      mret ((fun entry => {|
               tp_timestamp := timestamp entry;
               tp_stress_score := stress_score entry;
               tp_stress_level := stress_level entry;
               tp_emotion := emotion entry |}) <$> recent)
  end.

Definition end_session (session_id : string) : M SessionManager unit :=
  self ← get_self;
  match sessions self !! session_id with
  | None => mret tt
  | Some session =>
      now ← time_time;
      put_self (set_sessions self (<[session_id := {|
        session_id := session_manager.session_id session;
        worker_id := worker_id session;
        start_time := start_time session;
        stress_history := stress_history session;
        emotion_counts := emotion_counts session;
        total_updates := total_updates session;
        current_stress := current_stress session;
        current_emotion := current_emotion session;
        status := "ended";
        end_time := Some now
      |}]> (sessions self)))
  end.

Definition delete_session (session_id : string) : M SessionManager unit :=
  self ← get_self;
  match sessions self !! session_id with
  | None => mret tt
  | Some _ => put_self (set_sessions self (delete session_id (sessions self)))
  end.
End session_manager.

(** ** utils/alert_manager.py *)

Module alert_manager.
Local Open Scope Q_scope.

Record Alert := {
  type : string;
  severity : string;
  title : string;
  message : string;
  alert_timestamp : Q;               (* 'timestamp' *)
  recommendations : list string;
  priority : string
}.

(** [alert_key in alerts] *)
Definition contains (alerts : list (string * Q)) (alert_key : string) : bool :=
  bool_decide (alert_key ∈ alerts.*1).

(** [f'spike_{int(timestamp)}'] *)
Definition spike_key (timestamp : Q) : string := "spike_" +:+ pretty (py_int timestamp).

(** [keys[:limit]] *)
Definition first_slice {A} (limit : Z) (keys : list A) : list A :=
  if decide (limit < 0)%Z
  then take (Z.to_nat (Z.max (Z.of_nat (length keys) + limit) 0)) keys
  else take (Z.to_nat limit) keys.

Section AlertManager.
Context `{PyFloat F} `{PyBuiltins F}.

(** A sample of a window.  The score is a float, and every operation on
    scores is one of the float model; the timestamp, a reading of the
    clock, is the rational it denotes. *)
Record HistoryEntry := {
  score : F;
  timestamp : Q
}.

(** [active_alerts[session_id]] is a dict from alert key to the time it
    fired; it is kept as the list of its items, in insertion order. *)
Record AlertManager := {
  high_stress_threshold : F;
  high_stress_duration : Z;
  spike_threshold : F;
  spike_window : Z;
  session_history : gmap string (deque.t HistoryEntry);
  active_alerts : gmap string (list (string * Q))
}.

Definition __init__ : AlertManager := {|
  high_stress_threshold := config.ALERT_HIGH_STRESS_THRESHOLD;
  high_stress_duration := config.ALERT_HIGH_STRESS_DURATION;
  spike_threshold := config.ALERT_SPIKE_THRESHOLD;
  spike_window := config.ALERT_SPIKE_WINDOW;
  session_history := ∅;
  active_alerts := ∅
|}.

Definition set_session_history (self : AlertManager)
  (d : gmap string (deque.t HistoryEntry)) : AlertManager := {|
  high_stress_threshold := high_stress_threshold self;
  high_stress_duration := high_stress_duration self;
  spike_threshold := spike_threshold self;
  spike_window := spike_window self;
  session_history := d;
  active_alerts := active_alerts self
|}.

Definition set_active_alerts (self : AlertManager)
  (d : gmap string (list (string * Q))) : AlertManager := {|
  high_stress_threshold := high_stress_threshold self;
  high_stress_duration := high_stress_duration self;
  spike_threshold := spike_threshold self;
  spike_window := spike_window self;
  session_history := session_history self;
  active_alerts := d
|}.

(** [self.active_alerts[session_id][alert_key] = value], for a key the
    dict of the session does not hold yet. *)
Definition setitem_alert (session_id alert_key : string) (value : Q)
  : M AlertManager unit :=
  self ← get_self;
  alerts ← lift (getitem (active_alerts self) session_id);
  put_self (set_active_alerts self
    (<[session_id := (alerts ++ [(alert_key, value)])%list]> (active_alerts self))).

Definition _check_sustained_high_stress (session_id : string) (current_time : Q)
  : M AlertManager (option Alert) :=
  self ← get_self;
  history ← lift (getitem (session_history self) session_id);
  let cutoff_time := current_time - inject_Z (high_stress_duration self) in
  let recent_high :=
    filter (fun entry => Qle_bool cutoff_time (timestamp entry) &&
                         fle (high_stress_threshold self) (score entry) = true)
           (deque.items history) in
  let total_recent :=
    filter (fun entry => Qle_bool cutoff_time (timestamp entry) = true)
           (deque.items history) in
  if decide (0 < length total_recent)%nat then
    high_ratio ← lift (int_truediv (Z.of_nat (length recent_high))
                                   (Z.of_nat (length total_recent)));
    if fle (lit 8 10) high_ratio then
      let alert_key := "sustained_high_stress" in
      alerts ← lift (getitem (active_alerts self) session_id);
      if contains alerts alert_key then mret None
      else
        setitem_alert session_id alert_key current_time;;
        mret (Some {|
          type := "sustained_high_stress";
          severity := "high";
          title := "Prolonged High Stress Detected";
          message := "Worker has shown high stress levels for over " +:+
                     pretty (high_stress_duration self `div` 60)%Z +:+ " minutes";
          alert_timestamp := current_time;
          recommendations := [
            "Suggest taking a 5-10 minute break";
            "Practice deep breathing exercises";
            "Consider reassigning tasks if workload is overwhelming";
            "Notify supervisor for support" ];
          priority := "urgent" |})
    else mret None
  else mret None.

Definition _check_stress_spike (session_id : string) : M AlertManager (option Alert) :=
  self ← get_self;
  history ← lift (getitem (session_history self) session_id);
  let history := deque.items history in
  if decide (length history < 2)%nat then mret None
  else
    newest ← lift (match last history with Some e => Ok e | None => Raise IndexError end);
    let current := score newest in
    let window_size := (5 `min` (length history - 1))%nat in
    let previous_scores :=
      score <$> take window_size (drop (length history - window_size - 1) history) in
    previous_avg ← lift (truediv_int (py_sum previous_scores)
                                     (Z.of_nat (length previous_scores)));
    let spike := fsub current previous_avg in
    if fle (spike_threshold self) spike then
      let alert_key := spike_key (timestamp newest) in
      alerts ← lift (getitem (active_alerts self) session_id);
      if contains alerts alert_key then mret None
      else
        setitem_alert session_id alert_key (timestamp newest);;
        mret (Some {|
          type := "sudden_stress_spike";
          severity := "medium";
          title := "Sudden Stress Increase Detected";
          message := "Stress level increased by " +:+ py_format_2f spike +:+
                     " in a short period";
          alert_timestamp := timestamp newest;
          recommendations := [
            "Check if a specific event triggered the stress";
            "Offer immediate support or intervention";
            "Monitor closely for the next few minutes" ];
          priority := "high" |})
    else mret None.

Definition check_alerts (session_id : string) (stress_score : F) (timestamp : option Q)
  : M AlertManager (list Alert) :=
  timestamp ← match timestamp with Some t => mret t | None => time_time end;
  self ← get_self;
  (if decide (is_Some (session_history self !! session_id)) then mret tt
   else put_self (set_active_alerts
          (set_session_history self
             (<[session_id := deque.new 1000]> (session_history self)))
          (<[session_id := []]> (active_alerts self))));;
  self ← get_self;
  history ← lift (getitem (session_history self) session_id);
  put_self (set_session_history self
    (<[session_id := deque.append history
         {| score := stress_score; timestamp := timestamp |}]>
       (session_history self)));;
  sustained_alert ← _check_sustained_high_stress session_id timestamp;
  let alerts := option_list sustained_alert in
  spike_alert ← _check_stress_spike session_id;
  let alerts := (alerts ++ option_list spike_alert)%list in
  mret alerts.

Definition clear_session (session_id : string) : M AlertManager unit :=
  self ← get_self;
  put_self (set_session_history self (delete session_id (session_history self)));;
  self ← get_self;
  put_self (set_active_alerts self (delete session_id (active_alerts self))).

Definition get_alert_history (session_id : string) (limit : Z)
  : M AlertManager (list string) :=
  self ← get_self;
  match active_alerts self !! session_id with
  | None => mret []
  | Some alerts => mret (first_slice limit alerts.*1)
  end.
End AlertManager.
Arguments HistoryEntry F : clear implicits.
Arguments AlertManager F : clear implicits.
End alert_manager.

(** ** fusion_engine/classifier.py: the trend of a history *)

Module stress_trend.
Section Trend.
Context `{PyFloat F} `{PyBuiltins F}.

Record Trend := {
  trend : string;
  direction : string;
  change : F;
  recent_average : option F
}.

Definition get_stress_trend (stress_history : list F) (window : Z) : Result Trend :=
  if decide (length stress_history < 2)%nat then
    mret {| trend := "insufficient_data"; direction := "neutral"; change := lit 0 1;
            recent_average := None |}
  else
    let recent :=
      session_manager.last_slice (window `min` Z.of_nat (length stress_history))%Z
                                 stress_history in
    let first_half := take (length recent / 2) recent in
    let second_half := drop (length recent / 2) recent in
    avg_first ← truediv_int (py_sum first_half) (Z.of_nat (length first_half));
    avg_second ← truediv_int (py_sum second_half) (Z.of_nat (length second_half));
    let change := fsub avg_second avg_first in
    mret (if flt (fabs change) (lit 5 100) then
            {| trend := "stable"; direction := "neutral"; change := float change;
               recent_average := Some (float avg_second) |}
          else if flt (lit 0 1) change then
            {| trend := "increasing"; direction := "up"; change := float change;
               recent_average := Some (float avg_second) |}
          else
            {| trend := "decreasing"; direction := "down"; change := float change;
               recent_average := Some (float avg_second) |}).
End Trend.
Arguments Trend F : clear implicits.
End stress_trend.

(** ** websocket_handler.py: the events that need no model inference *)

Module websocket_handler.

(** What [emit] sends.  The message of an [error] event is the given
    prefix followed by [str(e)] of the exception caught. *)
Inductive Event :=
| session_created (session_id message : string)
| stress_update (fused_result : fusion.FusedResult Q)
| session_update (session_info : option session_manager.SessionInfo)
| alert (alert : alert_manager.Alert)
| session_info (session_info : session_manager.SessionInfo)
| timeline_data (timeline : list session_manager.TimelinePoint)
| error (prefix : string) (e : option exn).

(** The handler with its two managers, and the events emitted so far. *)
Record WebSocketHandler := {
  session_manager : session_manager.SessionManager;
  alert_manager : alert_manager.AlertManager Q;
  emitted : list Event
}.

Definition __init__ : WebSocketHandler := {|
  session_manager := session_manager.__init__;
  alert_manager := alert_manager.__init__;
  emitted := []
|}.

Definition emit (event : Event) : M WebSocketHandler unit :=
  self ← get_self;
  put_self {| session_manager := session_manager self;
              alert_manager := alert_manager self;
              emitted := (emitted self ++ [event])%list |}.

(** A method of [self.session_manager], run on the handler. *)
Definition on_session_manager {A} (m : M session_manager.SessionManager A)
  : M WebSocketHandler A :=
  fun ws =>
    let r := m (ws.1, session_manager ws.2) in
    (r.1, (r.2.1, {| session_manager := r.2.2;
                     alert_manager := alert_manager ws.2;
                     emitted := emitted ws.2 |})).

(** A method of [self.alert_manager], run on the handler. *)
Definition on_alert_manager {A} (m : M (alert_manager.AlertManager Q) A)
  : M WebSocketHandler A :=
  fun ws =>
    let r := m (ws.1, alert_manager ws.2) in
    (r.1, (r.2.1, {| session_manager := session_manager ws.2;
                     alert_manager := r.2.2;
                     emitted := emitted ws.2 |})).

(** [try: body except Exception as e: handler(e)] *)
Definition try_except {Self A} (body : M Self A) (handler : exn -> M Self A) : M Self A :=
  fun ws =>
    match body ws with
    | (Ok a, ws') => (Ok a, ws')
    | (Raise e, ws') => handler e ws'
    end.

Definition handle_connect : M WebSocketHandler string :=
  session_id ← on_session_manager (session_manager.create_session None);
  emit (session_created session_id "Connected to Worker Stress Analysis System");;
  mret session_id.

(** [if session_id:] holds for a non-empty string. *)
Definition handle_disconnect (session_id : option string) : M WebSocketHandler unit :=
  match session_id with
  | Some session_id =>
      if decide (session_id = "") then mret tt
      else on_session_manager (session_manager.end_session session_id)
  | None => mret tt
  end.

(** The data of a fusion request that carries a session id. *)
Record FusionRequest := {
  session_id : string;
  audio_result : option (fusion.ModalityResult Q);
  video_result : option (fusion.ModalityResult Q)
}.

Fixpoint emit_alerts (alerts : list alert_manager.Alert) : M WebSocketHandler unit :=
  match alerts with
  | [] => mret tt
  | a :: alerts => emit (alert a);; emit_alerts alerts
  end.

Definition handle_fusion_request (data : FusionRequest) : M WebSocketHandler unit :=
  try_except
    (let session_id := session_id data in
     let audio_result := audio_result data in
     let video_result := video_result data in
     fused_result ← lift (fusion.fuse_stress_scores audio_result video_result);
     info ← on_session_manager
       (session_manager.update_session session_id fused_result);
     alerts ← on_alert_manager
       (alert_manager.check_alerts session_id
          (default 0.5%Q (fusion.stress_score fused_result)) None);
     emit (stress_update fused_result);;
     emit (session_update info);;
     emit_alerts alerts)
    (fun e => emit (error "Fusion error: " (Some e))).

Definition handle_get_session_info (session_id : string) : M WebSocketHandler unit :=
  info ← on_session_manager (session_manager.get_session_info session_id);
  match info with
  | Some info => emit (session_info info)
  | None => emit (error "Session not found" None)
  end.

Definition handle_get_timeline (session_id : string) (limit : Z) : M WebSocketHandler unit :=
  timeline ← on_session_manager (session_manager.get_stress_timeline session_id limit);
  emit (timeline_data timeline).
End websocket_handler.

(** * Properties *)

(** ** Vocabulary of the statements *)

(** Severity rank of a stress level. *)
Definition severity (l : string) : nat :=
  if decide (l = "Low") then 0
  else if decide (l = "Medium") then 1
  else 2.

(** The level the classifier of [config.py] gives a score. *)
Definition level_of (s : Q) : string :=
  classifier.level (classifier.classify classifier.__init__ s).

(** Scenario 2: audio (score 0.2, confidence 0.8) with video (score 0.8,
    confidence 0.2). *)
Definition audio2 `{PyFloat F} : fusion.ModalityResult F := {|
  fusion.mr_stress_score := Some (lit 2 10);
  fusion.mr_confidence := Some (lit 8 10);
  fusion.mr_emotion := None;
  fusion.mr_stress_level := None |}.

Definition video2 `{PyFloat F} : fusion.ModalityResult F := {|
  fusion.mr_stress_score := Some (lit 8 10);
  fusion.mr_confidence := Some (lit 2 10);
  fusion.mr_emotion := None;
  fusion.mr_stress_level := None |}.

(** A modality result whose only field is a confidence of zero. *)
Definition zero_confidence : fusion.ModalityResult Q := {|
  fusion.mr_stress_score := None;
  fusion.mr_confidence := Some 0%Q;
  fusion.mr_emotion := None;
  fusion.mr_stress_level := None |}.

(** The double nearest to 0.32000000000000006, one unit in the last place
    above the double of the literal 0.32. *)
Definition double_0_32000000000000006 : spec_float :=
  S754_finite false 5764607523034236 (-54).

(** The confidence the fusion works with: the field, or 0.5 without it. *)
Definition conf_of `{PyFloat F} (r : fusion.ModalityResult F) : F :=
  default (lit 5 10) (fusion.mr_confidence r).

(** The world after one more reading of the clock. *)
Definition tick (w : World) : World :=
  {| clock := clock w; ticks := S (ticks w); entropy := entropy w; draws := draws w |}.

(** The world after one more identifier was drawn. *)
Definition draw (w : World) : World :=
  {| clock := clock w; ticks := ticks w; entropy := entropy w; draws := S (draws w) |}.

(** The emotion an update counts: the audio emotion of the fused result. *)
Definition primary_emotion_of (fused : fusion.FusedResult Q) : string :=
  default "neutral" (fusion.mr_emotion
    (default session_manager.empty_dict (fusion.audio fused))).

(** The history entry an update appends at time [now]. *)
Definition entry_of (fused : fusion.FusedResult Q) (now : Q)
  : session_manager.HistoryEntry := {|
  session_manager.timestamp := now;
  session_manager.stress_score := default 0.5%Q (fusion.stress_score fused);
  session_manager.stress_level := default "Medium" (fusion.stress_level fused);
  session_manager.emotion := primary_emotion_of fused;
  session_manager.modalities := default [] (fusion.modalities_used fused) |}.

(** The status an update sets. *)
Definition status_of (fused : fusion.FusedResult Q) : string :=
  if Qle_bool config.ALERT_HIGH_STRESS_THRESHOLD
       (default 0.5%Q (fusion.stress_score fused))
  then "at_risk" else "normal".

(** The emotion counts after one more occurrence of [emotion]. *)
Definition count_emotion (emotion : string) (counts : gmap string nat) : gmap string nat :=
  <[emotion := default 1%nat ((fun count => (count + 1)%nat) <$> counts !! emotion)]> counts.

(** The session an update at time [now] leaves. *)
Definition updated (session : session_manager.Session) (fused : fusion.FusedResult Q)
  (now : Q) : session_manager.Session := {|
  session_manager.session_id := session_manager.session_id session;
  session_manager.worker_id := session_manager.worker_id session;
  session_manager.start_time := session_manager.start_time session;
  session_manager.stress_history :=
    deque.append (session_manager.stress_history session) (entry_of fused now);
  session_manager.emotion_counts :=
    count_emotion (primary_emotion_of fused) (session_manager.emotion_counts session);
  session_manager.total_updates := (session_manager.total_updates session + 1)%nat;
  session_manager.current_stress := default 0.5%Q (fusion.stress_score fused);
  session_manager.current_emotion := primary_emotion_of fused;
  session_manager.status := status_of fused;
  session_manager.end_time := session_manager.end_time session |}.

(** The session [create_session] stores under the identifier [id] at time
    [now], in a manager whose histories hold [n] entries. *)
Definition fresh_session (id : string) (now : Q) (n : nat) : session_manager.Session := {|
  session_manager.session_id := id;
  session_manager.worker_id := "worker_" +:+ String.substring 0 8 id;
  session_manager.start_time := now;
  session_manager.stress_history := deque.new n;
  session_manager.emotion_counts := ∅;
  session_manager.total_updates := 0;
  session_manager.current_stress := 0.5%Q;
  session_manager.current_emotion := "neutral";
  session_manager.status := "active";
  session_manager.end_time := None |}.

(** The session [end_session] leaves at time [now]. *)
Definition ended (session : session_manager.Session) (now : Q) : session_manager.Session := {|
  session_manager.session_id := session_manager.session_id session;
  session_manager.worker_id := session_manager.worker_id session;
  session_manager.start_time := session_manager.start_time session;
  session_manager.stress_history := session_manager.stress_history session;
  session_manager.emotion_counts := session_manager.emotion_counts session;
  session_manager.total_updates := session_manager.total_updates session;
  session_manager.current_stress := session_manager.current_stress session;
  session_manager.current_emotion := session_manager.current_emotion session;
  session_manager.status := "ended";
  session_manager.end_time := Some now |}.

(** The answer of [get_session_info] for a session, at time [now], once
    its analytics are computed. *)
Definition info_of (session : session_manager.Session) (now : Q)
  (analytics : session_manager.Analytics) : session_manager.SessionInfo := {|
  session_manager.info_session_id := session_manager.session_id session;
  session_manager.info_worker_id := session_manager.worker_id session;
  session_manager.info_duration := (now - session_manager.start_time session)%Q;
  session_manager.info_duration_formatted :=
    session_manager._format_duration (now - session_manager.start_time session)%Q;
  session_manager.info_status := session_manager.status session;
  session_manager.info_current_stress := session_manager.current_stress session;
  session_manager.info_current_emotion := session_manager.current_emotion session;
  session_manager.info_total_updates := session_manager.total_updates session;
  session_manager.info_analytics := analytics |}.

(** A world for the examples: the clock reads 0, 1, 2, ... and the
    identifiers are session-0, session-1, ... *)
Definition sample_world : World := {|
  clock := fun n => inject_Z (Z.of_nat n);
  ticks := 0;
  entropy := fun n => "session-" +:+ pretty n;
  draws := 0 |}.

(** A world in which uuid4 draws an identifier a client already holds. *)
Definition colliding_world : World := {|
  clock := fun n => inject_Z (Z.of_nat n);
  ticks := 0;
  entropy := fun _ => "9b2e6c1a-4f0d-4c3b-8a7e-5d1f2a3b4c5d";
  draws := 0 |}.

(** The fused result of an angry audio result alone, with the given score. *)
Definition angry_audio (score : Q) : fusion.FusedResult Q :=
  fusion._single_modality_result {|
    fusion.mr_stress_score := Some score;
    fusion.mr_confidence := Some 0.9%Q;
    fusion.mr_emotion := Some "angry";
    fusion.mr_stress_level := Some (fusion._classify_stress_level score) |} "audio".

(** A manager whose histories hold two entries, with one empty session. *)
Definition small_manager : session_manager.SessionManager := {|
  session_manager.sessions := {["a" := fresh_session "a" 0%Q 2]};
  session_manager.max_history := 2 |}.

(** A run of updates of one session; the answers are dropped. *)
Fixpoint update_many (session_id : string) (fs : list (fusion.FusedResult Q))
  (ws : World * session_manager.SessionManager) : World * session_manager.SessionManager :=
  match fs with
  | [] => ws
  | fused :: fs => update_many session_id fs (session_manager.update_session session_id fused ws).2
  end.

(** The entries a run of updates appends: each update reads the clock
    twice, first for its entry, then for the duration it reports. *)
Fixpoint entries_of (w : World) (fs : list (fusion.FusedResult Q))
  : list session_manager.HistoryEntry :=
  match fs with
  | [] => []
  | fused :: fs => entry_of fused (clock w (ticks w)) :: entries_of (tick (tick w)) fs
  end.

(** The last [n] items of a list. *)
Definition last_n {A} (n : nat) (l : list A) : list A := drop (length l - n) l.

(** The key of the sustained-high-stress alert. *)
Definition SUSTAINED : string := "sustained_high_stress".

(** The key under which an alert was recorded as fired. *)
Definition key_of (a : alert_manager.Alert) : string :=
  if bool_decide (alert_manager.type a = "sustained_high_stress") then SUSTAINED
  else alert_manager.spike_key (alert_manager.alert_timestamp a).

(** The sustained-high-stress alerts among some alerts. *)
Definition sustained_among (alerts : list alert_manager.Alert) : list alert_manager.Alert :=
  filter (fun a => alert_manager.type a = "sustained_high_stress") alerts.

(** The spike alerts among some alerts whose newest sample has a timestamp
    of integer part [k]. *)
Definition spikes_among (k : Z) (alerts : list alert_manager.Alert)
  : list alert_manager.Alert :=
  filter (fun a => alert_manager.type a = "sudden_stress_spike" /\
                   py_int (alert_manager.alert_timestamp a) = k) alerts.

Section AlertVocabulary.
Context `{PyFloat F} `{PyBuiltins F}.

(** The condition of the sustained alert on a window at [current_time]:
    some entry is recent and at least 80% of the recent ones are high. *)
Definition sustained_due (self : alert_manager.AlertManager F)
  (history : list (alert_manager.HistoryEntry F)) (current_time : Q) : bool :=
  let cutoff_time := (current_time - inject_Z (alert_manager.high_stress_duration self))%Q in
  let recent_high :=
    filter (fun entry =>
              Qle_bool cutoff_time (alert_manager.timestamp entry) &&
              fle (alert_manager.high_stress_threshold self)
                  (alert_manager.score entry) = true) history in
  let total_recent :=
    filter (fun entry => Qle_bool cutoff_time (alert_manager.timestamp entry) = true)
           history in
  bool_decide (0 < length total_recent)%nat &&
  fle (lit 8 10) (fquot (lit (Z.of_nat (length recent_high)) 1)
                        (lit (Z.of_nat (length total_recent)) 1)).

Definition sustained_alert (self : alert_manager.AlertManager F) (current_time : Q)
  : alert_manager.Alert := {|
  alert_manager.type := "sustained_high_stress";
  alert_manager.severity := "high";
  alert_manager.title := "Prolonged High Stress Detected";
  alert_manager.message :=
    "Worker has shown high stress levels for over " +:+
    pretty (alert_manager.high_stress_duration self `div` 60)%Z +:+ " minutes";
  alert_manager.alert_timestamp := current_time;
  alert_manager.recommendations := [
    "Suggest taking a 5-10 minute break";
    "Practice deep breathing exercises";
    "Consider reassigning tasks if workload is overwhelming";
    "Notify supervisor for support" ];
  alert_manager.priority := "urgent" |}.

(** The spike of a window, as the code computes it: its newest score
    minus the mean of the up to five scores before it, in the arithmetic
    of the float model; none for a window of fewer than two entries. *)
Definition spike_of (history : list (alert_manager.HistoryEntry F)) : option F :=
  if decide (length history < 2)%nat then None
  else
    match last history with
    | Some newest =>
        let window_size := (5 `min` (length history - 1))%nat in
        let previous_scores :=
          alert_manager.score <$>
            take window_size (drop (length history - window_size - 1) history) in
        Some (fsub (alert_manager.score newest)
                   (fquot (py_sum previous_scores)
                          (lit (Z.of_nat (length previous_scores)) 1)))
    | None => None
    end.

(** The condition of the spike alert on a window. *)
Definition spike_due (self : alert_manager.AlertManager F)
  (history : list (alert_manager.HistoryEntry F)) : bool :=
  match spike_of history with
  | Some spike => fle (alert_manager.spike_threshold self) spike
  | None => false
  end.

Definition spike_alert (spike : F) (newest_timestamp : Q) : alert_manager.Alert := {|
  alert_manager.type := "sudden_stress_spike";
  alert_manager.severity := "medium";
  alert_manager.title := "Sudden Stress Increase Detected";
  alert_manager.message :=
    "Stress level increased by " +:+ py_format_2f spike +:+ " in a short period";
  alert_manager.alert_timestamp := newest_timestamp;
  alert_manager.recommendations := [
    "Check if a specific event triggered the stress";
    "Offer immediate support or intervention";
    "Monitor closely for the next few minutes" ];
  alert_manager.priority := "high" |}.

(** What the sustained check does to the fired keys [alerts] of a session
    whose window is [history]. *)
Definition sustained_step (self : alert_manager.AlertManager F)
  (history : list (alert_manager.HistoryEntry F)) (current_time : Q)
  (alerts : list (string * Q)) : option alert_manager.Alert * list (string * Q) :=
  if sustained_due self history current_time &&
     negb (alert_manager.contains alerts SUSTAINED)
  then (Some (sustained_alert self current_time),
        (alerts ++ [(SUSTAINED, current_time)])%list)
  else (None, alerts).

(** What the spike check does to the fired keys of a session. *)
Definition spike_step (self : alert_manager.AlertManager F)
  (history : list (alert_manager.HistoryEntry F)) (alerts : list (string * Q))
  : option alert_manager.Alert * list (string * Q) :=
  match spike_of history, last history with
  | Some spike, Some newest =>
      let key := alert_manager.spike_key (alert_manager.timestamp newest) in
      if fle (alert_manager.spike_threshold self) spike &&
         negb (alert_manager.contains alerts key)
      then (Some (spike_alert spike (alert_manager.timestamp newest)),
            (alerts ++ [(key, alert_manager.timestamp newest)])%list)
      else (None, alerts)
  | _, _ => (None, alerts)
  end.

(** What [check_alerts] does to one session: the window [history] and the
    fired keys [alerts] before the call, the alerts raised, and the window
    and the fired keys after it. *)
Definition check_step (self : alert_manager.AlertManager F)
  (history : deque.t (alert_manager.HistoryEntry F)) (alerts : list (string * Q))
  (stress_score : F) (timestamp : Q)
  : list alert_manager.Alert * deque.t (alert_manager.HistoryEntry F)
    * list (string * Q) :=
  let history := deque.append history
    {| alert_manager.score := stress_score; alert_manager.timestamp := timestamp |} in
  let sustained := sustained_step self (deque.items history) timestamp alerts in
  let spike := spike_step self (deque.items history) sustained.2 in
  ((option_list sustained.1 ++ option_list spike.1)%list, history, spike.2).

(** The calls a client makes to an alert manager. *)
Inductive call :=
| CheckAlerts (session_id : string) (stress_score : F) (timestamp : option Q)
| ClearSession (session_id : string)
| GetAlertHistory (session_id : string) (limit : Z).

(** A call, and the alerts it hands back: those of [check_alerts]. *)
Definition perform (c : call)
  : M (alert_manager.AlertManager F) (list alert_manager.Alert) :=
  match c with
  | CheckAlerts session_id stress_score timestamp =>
      alert_manager.check_alerts session_id stress_score timestamp
  | ClearSession session_id => alert_manager.clear_session session_id;; mret []
  | GetAlertHistory session_id limit =>
      alert_manager.get_alert_history session_id limit;; mret []
  end.

(** A run of calls: the log of the answers and the state it leaves.  A call
    that raises is logged as such and the run goes on, as it does behind
    the [try] of the handler. *)
Fixpoint run (cs : list call) (ws : World * alert_manager.AlertManager F)
  : list (call * Result (list alert_manager.Alert))
    * (World * alert_manager.AlertManager F) :=
  match cs with
  | [] => ([], ws)
  | c :: cs =>
      let r := perform c ws in
      let rest := run cs r.2 in
      ((c, r.1) :: rest.1, rest.2)
  end.

(** The alerts a logged call raised for the session [sid]. *)
Definition alerts_for (sid : string) (entry : call * Result (list alert_manager.Alert))
  : list alert_manager.Alert :=
  match entry with
  | (CheckAlerts session_id _ _, Ok alerts) =>
      if bool_decide (session_id = sid) then alerts else []
  | _ => []
  end.

(** The alerts of key [key] a run raised for the session [sid]. *)
Definition fired_in (sid key : string)
  (log : list (call * Result (list alert_manager.Alert))) : list alert_manager.Alert :=
  filter (fun a => key_of a = key) (log ≫= alerts_for sid).

(** No call of the run clears the session [sid]. *)
Definition no_clear (sid : string) (cs : list call) : bool :=
  forallb (fun c => match c with
                    | ClearSession session_id => negb (bool_decide (session_id = sid))
                    | _ => true
                    end) cs.

(** The key [key] is recorded as fired for the session [sid]. *)
Definition fired (sid key : string) (self : alert_manager.AlertManager F) : bool :=
  match alert_manager.active_alerts self !! sid with
  | Some alerts => alert_manager.contains alerts key
  | None => false
  end.

(** The states the code keeps an alert manager in: a session has a window
    exactly when it has a dict of fired keys, and every window is a deque
    of maximal length 1000. *)
Definition well_formed (self : alert_manager.AlertManager F) : Prop :=
  (forall sid, is_Some (alert_manager.session_history self !! sid) <->
               is_Some (alert_manager.active_alerts self !! sid)) /\
  (forall sid history, alert_manager.session_history self !! sid = Some history ->
               deque.maxlen history = 1000%nat).

(** The alerts a run raised for the session [sid], in order. *)
Definition raised (sid : string)
  (log : list (call * Result (list alert_manager.Alert))) : list alert_manager.Alert :=
  log ≫= alerts_for sid.

(** The window of a session once a sample was appended to it. *)
Definition window_with (self : alert_manager.AlertManager F) (sid : string)
  (stress_score : F) (timestamp : Q) : list (alert_manager.HistoryEntry F) :=
  deque.items (deque.append
    (default (deque.new 1000) (alert_manager.session_history self !! sid))
    {| alert_manager.score := stress_score; alert_manager.timestamp := timestamp |}).
End AlertVocabulary.
Arguments call F : clear implicits.

(** The weights of the dual fusion for two confidences. *)
Definition weights_of (audio_conf video_conf : Q) : Q * Q :=
  if Qlt_bool 0 (audio_conf + video_conf)
  then ((audio_conf / (audio_conf + video_conf))%Q, (video_conf / (audio_conf + video_conf))%Q)
  else (0.5%Q, 0.5%Q).

(** The score the fusion works with: the field, or 0.5 without it. *)
Definition score_of (r : fusion.ModalityResult Q) : Q :=
  default 0.5%Q (fusion.mr_stress_score r).

(** The fused score of two results. *)
Definition fused_score_of (a v : fusion.ModalityResult Q) : Q :=
  ((weights_of (conf_of a) (conf_of v)).1 * score_of a +
   (weights_of (conf_of a) (conf_of v)).2 * score_of v)%Q.

(** The agreement of two scores. *)
Definition agreement_of (audio_stress video_stress : Q) : string :=
  if Qlt_bool (Qabs (audio_stress - video_stress)) 0.1 then "high"
  else if Qlt_bool (Qabs (audio_stress - video_stress)) 0.3 then "medium"
  else "low".

(** The modalities of the inputs that are present. *)
Definition present {A} (audio video : option A) : list string :=
  ((if audio is Some _ then ["audio"] else []) ++
   (if video is Some _ then ["video"] else []))%list.

(** The calls a client makes to a session manager. *)
Inductive store_call :=
| CreateSession (worker_id : option string)
| UpdateSession (session_id : string) (fused_result : fusion.FusedResult Q)
| GetSessionInfo (session_id : string)
| GetStressTimeline (session_id : string) (limit : Z)
| EndSession (session_id : string)
| DeleteSession (session_id : string).

(** A call, its answer dropped. *)
Definition store_perform (c : store_call) : M session_manager.SessionManager unit :=
  match c with
  | CreateSession worker_id => session_manager.create_session worker_id;; mret tt
  | UpdateSession session_id fused_result =>
      session_manager.update_session session_id fused_result;; mret tt
  | GetSessionInfo session_id => session_manager.get_session_info session_id;; mret tt
  | GetStressTimeline session_id limit =>
      session_manager.get_stress_timeline session_id limit;; mret tt
  | EndSession session_id => session_manager.end_session session_id
  | DeleteSession session_id => session_manager.delete_session session_id
  end.

(** A run of calls: whether each one returned or raised, and the state it
    leaves; the run goes on after a call that raises. *)
Fixpoint store_run (cs : list store_call) (ws : World * session_manager.SessionManager)
  : list (Result unit) * (World * session_manager.SessionManager) :=
  match cs with
  | [] => ([], ws)
  | c :: cs =>
      let r := store_perform c ws in
      let rest := store_run cs r.2 in
      (r.1 :: rest.1, rest.2)
  end.

(** What the code keeps true of the session stored under [key] in a
    manager whose histories hold [n] entries. *)
Definition session_ok (n : nat) (key : string) (s : session_manager.Session) : Prop :=
  session_manager.session_id s = key /\
  deque.maxlen (session_manager.stress_history s) = n /\
  length (deque.items (session_manager.stress_history s))
    = (session_manager.total_updates s `min` n)%nat /\
  session_manager.total_emotions (session_manager.emotion_counts s)
    = session_manager.total_updates s /\
  (session_manager.total_updates s = 0%nat -> session_manager.emotion_counts s = ∅).

Definition store_ok (self : session_manager.SessionManager) : Prop :=
  session_manager.max_history self = 1000%nat /\
  forall key s, session_manager.sessions self !! key = Some s -> session_ok 1000 key s.

(** The timeline point of a history entry. *)
Definition point_of (entry : session_manager.HistoryEntry) : session_manager.TimelinePoint := {|
  session_manager.tp_timestamp := session_manager.timestamp entry;
  session_manager.tp_stress_score := session_manager.stress_score entry;
  session_manager.tp_stress_level := session_manager.stress_level entry;
  session_manager.tp_emotion := session_manager.emotion entry |}.

(** The analytics of a session without history. *)
Definition default_analytics : session_manager.Analytics := {|
  session_manager.average_stress := 0.5%Q;
  session_manager.peak_stress := 0.5%Q;
  session_manager.min_stress := 0.5%Q;
  session_manager.stress_variance := 0.0%Q;
  session_manager.emotion_distribution := ∅;
  session_manager.high_stress_percentage := 0.0%Q;
  session_manager.data_points := None |}.

Section TrendVocabulary.
Context `{PyFloat F} `{PyBuiltins F}.

(** The samples a trend looks at: [stress_history[-min(window, len):]]. *)
Definition recent_of (stress_history : list F) (window : Z) : list F :=
  session_manager.last_slice (window `min` Z.of_nat (length stress_history))%Z stress_history.

(** The mean of a non-empty list, as the float model computes it. *)
Definition mean (l : list F) : F := fquot (py_sum l) (lit (Z.of_nat (length l)) 1).
End TrendVocabulary.

Section AlertVocabularyMore.
Context `{PyFloat F}.

(** The keys recorded as fired for a session, in the order they fired. *)
Definition fired_keys (sid : string) (self : alert_manager.AlertManager F) : list string :=
  (default [] (alert_manager.active_alerts self !! sid)).*1.

(** Every window holds at most 1000 samples. *)
Definition windows_bounded (self : alert_manager.AlertManager F) : Prop :=
  forall sid history, alert_manager.session_history self !! sid = Some history ->
    (length (deque.items history) <= 1000)%nat.

(** The parameters of an alert manager are those of the configuration. *)
Definition configured (self : alert_manager.AlertManager F) : Prop :=
  alert_manager.high_stress_threshold self = config.ALERT_HIGH_STRESS_THRESHOLD /\
  alert_manager.high_stress_duration self = config.ALERT_HIGH_STRESS_DURATION /\
  alert_manager.spike_threshold self = config.ALERT_SPIKE_THRESHOLD /\
  alert_manager.spike_window self = config.ALERT_SPIKE_WINDOW.
End AlertVocabularyMore.

(** The calls a client makes to the handler. *)
Inductive handler_call :=
| Connect
| Disconnect (session_id : option string)
| Fusion (data : websocket_handler.FusionRequest)
| GetInfo (session_id : string)
| GetTimeline (session_id : string) (limit : Z).

(** A call, its answer dropped. *)
Definition handler_perform (c : handler_call)
  : M websocket_handler.WebSocketHandler unit :=
  match c with
  | Connect => websocket_handler.handle_connect;; mret tt
  | Disconnect session_id => websocket_handler.handle_disconnect session_id
  | Fusion data => websocket_handler.handle_fusion_request data
  | GetInfo session_id => websocket_handler.handle_get_session_info session_id
  | GetTimeline session_id limit => websocket_handler.handle_get_timeline session_id limit
  end.

(** A run of calls: whether each one returned or raised, and the state it
    leaves. *)
Fixpoint handler_run (cs : list handler_call)
  (ws : World * websocket_handler.WebSocketHandler)
  : list (Result unit) * (World * websocket_handler.WebSocketHandler) :=
  match cs with
  | [] => ([], ws)
  | c :: cs =>
      let r := handler_perform c ws in
      let rest := handler_run cs r.2 in
      (r.1 :: rest.1, rest.2)
  end.

(** The states the handler keeps its two managers in. *)
Definition handler_ok (self : websocket_handler.WebSocketHandler) : Prop :=
  store_ok (websocket_handler.session_manager self) /\
  well_formed (websocket_handler.alert_manager self).

(** An event that reports an exception caught. *)
Definition is_exception (event : websocket_handler.Event) : bool :=
  match event with
  | websocket_handler.error _ (Some _) => true
  | _ => false
  end.

(** ** Comparisons on [Q] *)

Lemma Qlt_bool_iff (x y : Q) : Qlt_bool x y = true <-> (x < y)%Q.
Proof. unfold Qlt_bool, Qlt. apply Z.ltb_lt. Qed.

Lemma Qlt_bool_false_iff (x y : Q) : Qlt_bool x y = false <-> (y <= x)%Q.
Proof. unfold Qlt_bool, Qle. rewrite Z.ltb_ge. reflexivity. Qed.

Lemma Qeq_bool_false_iff (x y : Q) : Qeq_bool x y = false <-> ~ (x == y)%Q.
Proof.
  split.
  - intros Hb He. apply Qeq_bool_iff in He. congruence.
  - intros Hn. destruct (Qeq_bool x y) eqn:E; [|reflexivity].
    apply Qeq_bool_iff in E. contradiction.
Qed.

(** ** The classifier *)

Section ClassifierQ.
Import classifier.
Local Open Scope Q_scope.

Lemma classify_level_cases (s : Q) :
  (s < 0.33 /\ level_of s = "Low") \/
  (0.33 <= s /\ s < 0.66 /\ level_of s = "Medium") \/
  (0.66 <= s /\ level_of s = "High").
Proof.
  unfold level_of, classify, __init__, low_threshold, high_threshold.
  change (config.STRESS_LOW_THRESHOLD (F:=Q)) with 0.33.
  change (config.STRESS_HIGH_THRESHOLD (F:=Q)) with 0.66.
  change (@flt Q Q_float) with Qlt_bool.
  destruct (Qlt_bool s 0.33) eqn:E1.
  - left. apply Qlt_bool_iff in E1. split; [exact E1|reflexivity].
  - apply Qlt_bool_false_iff in E1.
    destruct (Qlt_bool s 0.66) eqn:E2.
    + right; left. apply Qlt_bool_iff in E2. repeat split; assumption.
    + right; right. apply Qlt_bool_false_iff in E2. split; [exact E2|reflexivity].
Qed.

(** C2. For every score in [0,1], [classify] answers Low exactly when
    score < 0.33, Medium exactly when 0.33 <= score < 0.66 and High
    exactly when score >= 0.66; so the level is one of the three, and it
    never decreases in severity when the score increases. *)
Theorem classify_bands_monotone (s : Q) :
  0 <= s <= 1 ->
  (level_of s = "Low" <-> s < 0.33) /\
  (level_of s = "Medium" <-> 0.33 <= s /\ s < 0.66) /\
  (level_of s = "High" <-> 0.66 <= s) /\
  level_of s ∈ ["Low"; "Medium"; "High"] /\
  (forall s' : Q, 0 <= s' <= 1 -> s <= s' ->
     (severity (level_of s) <= severity (level_of s'))%nat).
Proof.
  intros _.
  assert (H33 : 0.33 <= 0.66) by (apply Qlt_le_weak; reflexivity).
  destruct (classify_level_cases s) as [[Hlt Hl]|[[Hge [Hlt Hl]]|[Hge Hl]]];
    rewrite Hl.
  - repeat split; try discriminate; try (intros; assumption).
    + intros [Hge _]. exfalso. apply (Qlt_not_le _ _ Hlt Hge).
    + intros Hge. exfalso. apply (Qlt_not_le s 0.33 Hlt).
      apply Qle_trans with 0.66; assumption.
    + set_solver.
    + intros s' _ _. change (severity "Low") with 0%nat. lia.
  - repeat split; try discriminate; try (intros; assumption).
    + intros Hlt'. exfalso. apply (Qlt_not_le _ _ Hlt' Hge).
    + intros Hge'. exfalso. apply (Qlt_not_le _ _ Hlt Hge').
    + set_solver.
    + intros s' _ Hle.
      destruct (classify_level_cases s') as [[Hlt' Hl']|[[_ [_ Hl']]|[_ Hl']]];
        rewrite Hl'; try (vm_compute; lia).
      exfalso. apply (Qlt_not_le _ _ Hlt'). apply Qle_trans with s; assumption.
  - repeat split; try discriminate; try (intros; assumption).
    + intros Hlt'. exfalso. apply (Qlt_not_le s 0.33 Hlt').
      apply Qle_trans with 0.66; assumption.
    + intros [_ Hlt']. exfalso. apply (Qlt_not_le _ _ Hlt' Hge).
    + set_solver.
    + intros s' _ Hle.
      destruct (classify_level_cases s') as [[Hlt' Hl']|[[_ [Hlt' Hl']]|[_ Hl']]];
        rewrite Hl'; try (vm_compute; lia); exfalso.
      * apply (Qlt_not_le s' 0.33 Hlt').
        apply Qle_trans with s; [|exact Hle].
        apply Qle_trans with 0.66; assumption.
      * apply (Qlt_not_le _ _ Hlt'). apply Qle_trans with s; assumption.
Qed.

Lemma classify_bands_monotone_witness :
  0 <= 0.5 <= 1 /\ level_of 0.5 = "Medium" /\
  (severity (level_of 0.5) <= severity (level_of 0.9))%nat.
Proof.
  assert (H : 0 <= 0.5 <= 1) by (split; discriminate).
  assert (H' : 0 <= 0.9 <= 1) by (split; discriminate).
  destruct (classify_bands_monotone 0.5 H) as (_ & HM & _ & _ & Hmono).
  split; [exact H|]. split.
  - apply HM. split; [discriminate|reflexivity].
  - apply (Hmono 0.9 H'). discriminate.
Defined.
End ClassifierQ.

(** ** The fusion engine *)

Section FusionQ.
Import fusion.
Local Open Scope Q_scope.

Lemma truediv_Q_nonzero (a b : Q) : ~ b == 0 -> truediv a b = Ok (a / b).
Proof.
  intros Hb. unfold truediv.
  change (@feq Q Q_float b (lit 0 1)) with (Qeq_bool b 0).
  apply Qeq_bool_false_iff in Hb. rewrite Hb. reflexivity.
Qed.

(** The dual fusion never raises, and its weights are those of lines 67-73. *)
Lemma dual_fusion_weights (a v : ModalityResult Q) :
  exists r, _dual_modality_fusion a v = Ok r /\
    weights r = Some (if Qlt_bool 0 (conf_of a + conf_of v)
                      then (conf_of a / (conf_of a + conf_of v),
                            conf_of v / (conf_of a + conf_of v))
                      else (0.5, 0.5)).
Proof.
  unfold _dual_modality_fusion, conf_of.
  set (ac := default (lit 5 10) (mr_confidence a)).
  set (vc := default (lit 5 10) (mr_confidence v)).
  change (@fadd Q Q_float ac vc) with (ac + vc).
  change (@flt Q Q_float (lit 0 1) (ac + vc)) with (Qlt_bool 0 (ac + vc)).
  assert (H2 : truediv (ac + vc) (lit 2 1) = Ok ((ac + vc) / 2)).
  { apply truediv_Q_nonzero. discriminate. }
  destruct (Qlt_bool 0 (ac + vc)) eqn:E.
  - apply Qlt_bool_iff in E.
    assert (Hnz : ~ ac + vc == 0).
    { intros Hz. rewrite Hz in E. discriminate. }
    rewrite !(truediv_Q_nonzero _ _ Hnz), H2.
    eexists. split; reflexivity.
  - rewrite H2. eexists. split; reflexivity.
Qed.

(** C4. With both modalities present the fusion never divides by zero; two
    confidences that are exactly zero get the weights 0.5 and 0.5, and in
    every other case each weight is the modality's confidence divided by
    the sum of the two confidences. *)
Theorem dual_weights_by_confidence (a v : ModalityResult Q) :
  exists r, fuse_stress_scores (Some a) (Some v) = Ok r /\
    (conf_of a == 0 -> conf_of v == 0 -> weights r = Some (0.5, 0.5)) /\
    (0 <= conf_of a -> 0 <= conf_of v -> ~ (conf_of a == 0 /\ conf_of v == 0) ->
       ~ conf_of a + conf_of v == 0 /\
       weights r = Some (conf_of a / (conf_of a + conf_of v),
                         conf_of v / (conf_of a + conf_of v))).
Proof.
  destruct (dual_fusion_weights a v) as (r & Hr & Hw).
  exists r. split; [exact Hr|]. split.
  - intros Ha Hv. rewrite Hw.
    assert (E : Qlt_bool 0 (conf_of a + conf_of v) = false).
    { apply Qlt_bool_false_iff. rewrite Ha, Hv. discriminate. }
    rewrite E. reflexivity.
  - intros Ha Hv Hnz.
    assert (Hpos : 0 < conf_of a + conf_of v).
    { destruct (Qle_lt_or_eq _ _ Ha) as [Ha'|Ha'].
      - apply Qlt_le_trans with (conf_of a + 0).
        + rewrite Qplus_0_r. exact Ha'.
        + apply Qplus_le_r. exact Hv.
      - destruct (Qle_lt_or_eq _ _ Hv) as [Hv'|Hv'].
        + apply Qlt_le_trans with (0 + conf_of v).
          * rewrite Qplus_0_l. exact Hv'.
          * apply Qplus_le_l. exact Ha.
        + exfalso. apply Hnz. split; symmetry; assumption. }
    split.
    + intros Hz. rewrite Hz in Hpos. discriminate.
    + rewrite Hw. apply Qlt_bool_iff in Hpos. rewrite Hpos. reflexivity.
Qed.

Lemma dual_weights_by_confidence_witness :
  (exists r, fuse_stress_scores (Some zero_confidence) (Some zero_confidence) = Ok r /\
     weights r = Some (0.5, 0.5)) /\
  (exists r, fuse_stress_scores (Some audio2) (Some video2) = Ok r /\
     weights r = Some (0.8 / (0.8 + 0.2), 0.2 / (0.8 + 0.2))).
Proof.
  split.
  - destruct (dual_weights_by_confidence zero_confidence zero_confidence)
      as (r & Hr & H0 & _).
    exists r. split; [exact Hr|]. apply H0; reflexivity.
  - destruct (dual_weights_by_confidence audio2 video2) as (r & Hr & _ & H1).
    exists r. split; [exact Hr|].
    apply H1; [discriminate|discriminate|]. intros [H _]. discriminate.
Defined.

(** C3, as the code computes it. Audio (score 0.2, confidence 0.8) with
    video (score 0.8, confidence 0.2) gets the weights 0.8 and 0.2, the
    score 0.2*0.8 + 0.8*0.2 (0.32 in exact arithmetic, the double
    0.32000000000000006 in binary64), which is below 0.33, so the level is
    Low; the agreement is low since |0.2 - 0.8| >= 0.3. *)
Theorem scenario2_fusion :
  (exists r wa wv s,
     fuse_stress_scores (F:=Q) (Some audio2) (Some video2) = Ok r /\
     weights r = Some (wa, wv) /\ wa == 0.8 /\ wv == 0.2 /\
     stress_score r = Some s /\ s == 0.2 * 0.8 + 0.8 * 0.2 /\ s == 0.32 /\
     s < 0.33 /\
     stress_level r = Some "Low" /\
     modality_agreement r = Some "low" /\ 0.3 <= Qabs (0.2 - 0.8)) /\
  (exists r,
     fuse_stress_scores (F:=spec_float) (Some audio2) (Some video2) = Ok r /\
     weights r = Some (lit 8 10, lit 2 10) /\
     stress_score r = Some double_0_32000000000000006 /\
     double_0_32000000000000006 <> lit 32 100 /\
     flt double_0_32000000000000006 (lit 33 100) = true /\
     stress_level r = Some "Low" /\
     modality_agreement r = Some "low").
Proof.
  split.
  - eexists _, _, _, _. split; [vm_compute; reflexivity|].
    repeat split; try reflexivity; discriminate.
  - eexists. split; [vm_compute; reflexivity|].
    repeat split; try reflexivity. vm_compute. discriminate.
Qed.

(** C3, as stated, fails: the fused level of the scenario is not Medium,
    neither in exact arithmetic nor in binary64. *)
Lemma scenario2_level_not_medium :
  ~ (exists r, fuse_stress_scores (F:=Q) (Some audio2) (Some video2) = Ok r /\
       stress_level r = Some "Medium") /\
  ~ (exists r, fuse_stress_scores (F:=spec_float) (Some audio2) (Some video2) = Ok r /\
       stress_level r = Some "Medium").
Proof.
  split; intros (r & Hr & Hl); vm_compute in Hr; injection Hr as <-; discriminate.
Qed.
End FusionQ.

Section FusionAny.
Import fusion.
Context `{PyFloat F}.

(** C9. With exactly one modality present the fusion returns a
    single-modality result: the score, the level and the confidence are
    the input's own (0.5, Medium and 0.5 for a field the input lacks), and
    the modalities used are that modality alone. *)
Theorem single_modality_passthrough (result : ModalityResult F) :
  (exists r, fuse_stress_scores (Some result) None = Ok r /\
     fusion_method r = Some "single_modality" /\
     stress_score r = Some (default (lit 5 10) (mr_stress_score result)) /\
     stress_level r = Some (default "Medium" (mr_stress_level result)) /\
     confidence r = Some (default (lit 5 10) (mr_confidence result)) /\
     modalities_used r = Some ["audio"]) /\
  (exists r, fuse_stress_scores None (Some result) = Ok r /\
     fusion_method r = Some "single_modality" /\
     stress_score r = Some (default (lit 5 10) (mr_stress_score result)) /\
     stress_level r = Some (default "Medium" (mr_stress_level result)) /\
     confidence r = Some (default (lit 5 10) (mr_confidence result)) /\
     modalities_used r = Some ["video"]).
Proof.
  split; (eexists; split; [reflexivity|]); repeat split.
Qed.
End FusionAny.

(** ** The session manager *)

(** Runs the monad of methods one layer down. *)
Ltac run_M :=
  unfold mbind, M_bind, mret, M_ret, get_self, put_self, lift, time_time, uuid4_str;
  cbn [fst snd].

Section SessionManager.
Import session_manager.

Lemma get_session_info_unknown w sm sid :
  sessions sm !! sid = None -> get_session_info sid (w, sm) = (Ok None, (w, sm)).
Proof. intros Hs. unfold get_session_info. run_M. rewrite Hs. reflexivity. Qed.

Lemma get_session_info_known w sm sid s :
  sessions sm !! sid = Some s ->
  get_session_info sid (w, sm) =
    (match _calculate_analytics s with
     | Ok analytics => Ok (Some (info_of s (clock w (ticks w)) analytics))
     | Raise e => Raise e
     end, (tick w, sm)).
Proof.
  intros Hs. unfold get_session_info. run_M. rewrite Hs. run_M.
  destruct (_calculate_analytics s); reflexivity.
Qed.

Lemma update_session_known w sm sid s fused :
  sessions sm !! sid = Some s ->
  update_session sid fused (w, sm) =
    get_session_info sid
      (tick w, set_sessions sm (<[sid := updated s fused (clock w (ticks w))]> (sessions sm))).
Proof.
  intros Hs. unfold update_session. run_M.
  destruct (decide (is_Some (sessions sm !! sid))) as [_|Hn].
  2:{ exfalso. apply Hn. eauto. }
  run_M. unfold getitem. rewrite Hs. run_M.
  f_equal. f_equal. f_equal. f_equal. unfold updated. f_equal.
  unfold count_emotion, primary_emotion_of.
  destruct (emotion_counts s !! _); reflexivity.
Qed.

Lemma create_session_None w sm :
  create_session None (w, sm) =
    (Ok (entropy w (draws w)),
     (tick (draw w),
      set_sessions sm (<[entropy w (draws w) :=
        fresh_session (entropy w (draws w)) (clock w (ticks w)) (max_history sm)]>
        (sessions sm)))).
Proof. reflexivity. Qed.

Lemma update_session_unknown w sm sid fused :
  sessions sm !! sid = None ->
  update_session sid fused (w, sm) =
    get_session_info (entropy w (draws w))
      (tick (tick (draw w)),
       set_sessions sm (<[entropy w (draws w) :=
         updated (fresh_session (entropy w (draws w)) (clock w (ticks w)) (max_history sm))
                 fused (clock w (S (ticks w)))]> (sessions sm))).
Proof.
  intros Hs. unfold update_session. run_M.
  destruct (decide (is_Some (sessions sm !! sid))) as [Hy|_].
  { exfalso. rewrite Hs in Hy. destruct Hy; discriminate. }
  rewrite create_session_None. run_M. unfold getitem. cbn [set_sessions sessions].
  rewrite lookup_insert_eq. run_M.
  cbn [set_sessions sessions max_history]. rewrite insert_insert_eq.
  reflexivity.
Qed.

(** *** The bounded history *)

Lemma last_n_app_l {A} (n : nat) (l k : list A) :
  last_n n (last_n n l ++ k) = last_n n (l ++ k).
Proof.
  unfold last_n. rewrite !length_app, length_drop.
  destruct (decide (length l <= n)%nat) as [Hle|Hgt].
  - replace (length l - n)%nat with 0%nat by lia. rewrite drop_0.
    f_equal. lia.
  - replace (length l - (length l - n) + length k - n)%nat with (length k) by lia.
    replace (length l + length k - n)%nat with ((length l - n) + length k)%nat by lia.
    rewrite <- drop_drop. f_equal. rewrite drop_app_le by lia. reflexivity.
Qed.

Lemma length_last_n {A} (n : nat) (l : list A) :
  length (last_n n l) = (length l `min` n)%nat.
Proof. unfold last_n. rewrite length_drop. lia. Qed.

Lemma deque_append_items {A} (d : deque.t A) (x : A) :
  (length (deque.items d) <= deque.maxlen d)%nat ->
  deque.items (deque.append d x) = last_n (deque.maxlen d) (deque.items d ++ [x]).
Proof.
  intros Hwf. unfold deque.append, last_n. cbn [deque.items].
  rewrite length_app. cbn [length].
  destruct (decide (deque.maxlen d < length (deque.items d) + 1)%nat) as [Hfull|Hroom].
  - replace (length (deque.items d) + 1 - deque.maxlen d)%nat with 1%nat by lia.
    reflexivity.
  - replace (length (deque.items d) + 1 - deque.maxlen d)%nat with 0%nat by lia.
    reflexivity.
Qed.

Lemma deque_append_maxlen {A} (d : deque.t A) (x : A) :
  deque.maxlen (deque.append d x) = deque.maxlen d.
Proof. reflexivity. Qed.

Lemma update_many_history fs : forall w sm sid s,
  sessions sm !! sid = Some s ->
  (length (deque.items (stress_history s)) <= deque.maxlen (stress_history s))%nat ->
  exists s', sessions (update_many sid fs (w, sm)).2 !! sid = Some s' /\
    deque.maxlen (stress_history s') = deque.maxlen (stress_history s) /\
    deque.items (stress_history s') =
      last_n (deque.maxlen (stress_history s))
             (deque.items (stress_history s) ++ entries_of w fs).
Proof.
  induction fs as [|fused fs IH]; intros w sm sid s Hs Hwf.
  - exists s. cbn [update_many entries_of snd]. rewrite app_nil_r.
    repeat split; [exact Hs|].
    unfold last_n. replace (_ - _)%nat with 0%nat by lia. reflexivity.
  - cbn [update_many entries_of].
    rewrite (update_session_known _ _ _ _ _ Hs).
    set (s1 := updated s fused (clock w (ticks w))).
    assert (Hs1 : sessions (set_sessions sm (<[sid := s1]> (sessions sm))) !! sid = Some s1)
      by apply lookup_insert_eq.
    rewrite (get_session_info_known _ _ _ _ Hs1). cbn [snd].
    assert (Hitems : deque.items (stress_history s1) =
              last_n (deque.maxlen (stress_history s))
                (deque.items (stress_history s) ++ [entry_of fused (clock w (ticks w))]))
      by (apply deque_append_items; exact Hwf).
    assert (Hwf1 : (length (deque.items (stress_history s1))
                    <= deque.maxlen (stress_history s1))%nat).
    { rewrite Hitems, length_last_n. cbn. lia. }
    destruct (IH (tick (tick w)) _ sid s1 Hs1 Hwf1) as (s' & Hs' & Hmax & Hit).
    exists s'. split; [exact Hs'|]. split; [exact Hmax|].
    rewrite Hit, Hitems. change (deque.maxlen (stress_history s1))
      with (deque.maxlen (stress_history s)).
    rewrite last_n_app_l, <- app_assoc. reflexivity.
Qed.

Lemma create_session_history worker w sm :
  exists s0,
    sessions (create_session worker (w, sm)).2.2 !! entropy w (draws w) = Some s0 /\
    (create_session worker (w, sm)).1 = Ok (entropy w (draws w)) /\
    stress_history s0 = deque.new (max_history sm).
Proof.
  unfold create_session. run_M. cbn [set_sessions sessions].
  rewrite lookup_insert_eq. eexists. repeat split.
Qed.

(** C1. The stress history of a session never holds more than its
    capacity [N], which is 1000 for the manager of [config.py], and it
    loses its oldest entries first: after any run of updates it is the
    last [N] of all the entries ever appended, in the order of insertion;
    so once [N + k] entries were appended the oldest [k] are gone and the
    newest [N] are there. *)
Theorem history_bounded_fifo (w : World) (sm : SessionManager) (sid : string)
  (s : Session) (fs : list (fusion.FusedResult Q)) :
  sessions sm !! sid = Some s ->
  (length (deque.items (stress_history s)) <= deque.maxlen (stress_history s))%nat ->
  let N := deque.maxlen (stress_history s) in
  let appended := (deque.items (stress_history s) ++ entries_of w fs)%list in
  (exists s', sessions (update_many sid fs (w, sm)).2 !! sid = Some s' /\
     (length (deque.items (stress_history s')) <= N)%nat /\
     deque.items (stress_history s') = last_n N appended /\
     (forall k, length appended = (N + k)%nat ->
        deque.items (stress_history s') = drop k appended /\
        length (deque.items (stress_history s')) = N)) /\
  (forall worker w0 sm0, exists s0,
     sessions (create_session worker (w0, sm0)).2.2 !! entropy w0 (draws w0) = Some s0 /\
     stress_history s0 = deque.new (max_history sm0)) /\
  max_history __init__ = 1000%nat.
Proof.
  intros Hs Hwf N appended. split; [|split].
  - destruct (update_many_history fs w sm sid s Hs Hwf) as (s' & Hs' & _ & Hit).
    exists s'. split; [exact Hs'|]. fold N appended in Hit. rewrite Hit.
    split; [rewrite length_last_n; lia|]. split; [reflexivity|].
    intros k Hk. split.
    + unfold last_n. rewrite Hk. f_equal. lia.
    + rewrite length_last_n. lia.
  - intros worker w0 sm0.
    destruct (create_session_history worker w0 sm0) as (s0 & H0 & _ & Hh).
    exists s0. split; assumption.
  - reflexivity.
Qed.

Lemma history_bounded_fifo_witness :
  exists s',
    sessions (update_many "a" [angry_audio 0.1; angry_audio 0.2; angry_audio 0.3]
                (sample_world, small_manager)).2 !! "a" = Some s' /\
    stress_score <$> deque.items (stress_history s') = [0.2; 0.3]%Q.
Proof.
  destruct (history_bounded_fifo sample_world small_manager "a"
              (fresh_session "a" 0%Q 2)
              [angry_audio 0.1; angry_audio 0.2; angry_audio 0.3]
              eq_refl (Nat.le_0_l 2))
    as [(s' & Hs' & _ & _ & Hk) _].
  exists s'. split; [exact Hs'|].
  destruct (Hk 1%nat eq_refl) as [Hit _]. rewrite Hit. reflexivity.
Defined.

(** *** Updates of an unknown session *)

Lemma inject_nat_succ_nonzero (n : nat) : ~ (inject_Z (Z.of_nat (S n)) == 0)%Q.
Proof. unfold Qeq, inject_Z. cbn [Qnum Qden]. lia. Qed.

(** The analytics raise only when emotions were counted that sum to zero. *)
Lemma calculate_analytics_Ok (s : Session) :
  emotion_counts s = ∅ \/ total_emotions (emotion_counts s) <> 0%nat ->
  exists analytics, _calculate_analytics s = Ok analytics.
Proof.
  intros Hcounts. unfold _calculate_analytics.
  destruct (stress_score <$> deque.items (stress_history s)) as [|first rest].
  - eexists. reflexivity.
  - cbn [length].
    destruct (decide (emotion_counts s = ∅)) as [_|Hne];
      [|destruct (decide (total_emotions (emotion_counts s) = 0%nat)) as [Hz|_];
        [exfalso; destruct Hcounts; contradiction|]];
      eexists;
      rewrite (truediv_Q_nonzero _ _ (inject_nat_succ_nonzero _));
      cbn [mbind Result_bind];
      rewrite (truediv_Q_nonzero _ _ (inject_nat_succ_nonzero _));
      cbn [mbind Result_bind];
      rewrite (truediv_Q_nonzero _ _ (inject_nat_succ_nonzero _));
      reflexivity.
Qed.

Lemma total_emotions_first (emotion : string) :
  total_emotions (count_emotion emotion ∅) = 1%nat.
Proof.
  unfold count_emotion, total_emotions. rewrite lookup_empty. cbn [fmap option_fmap option_map default].
  rewrite insert_empty, map_fold_singleton. reflexivity.
Qed.

(** What an update for an unknown identifier does. *)
Lemma update_session_unknown_result (w : World) (sm : SessionManager) (sid : string)
  (fused : fusion.FusedResult Q) :
  sessions sm !! sid = None ->
  let u := entropy w (draws w) in
  let s1 := updated (fresh_session u (clock w (ticks w)) (max_history sm)) fused
              (clock w (S (ticks w))) in
  exists analytics,
    update_session sid fused (w, sm) =
      (Ok (Some (info_of s1 (clock w (S (S (ticks w)))) analytics)),
       (tick (tick (tick (draw w))), set_sessions sm (<[u := s1]> (sessions sm)))).
Proof.
  intros Hs u s1. rewrite (update_session_unknown _ _ _ _ Hs).
  assert (Hs1 : sessions (set_sessions sm (<[u := s1]> (sessions sm))) !! u = Some s1)
    by apply lookup_insert_eq.
  fold u s1. rewrite (get_session_info_known _ _ _ _ Hs1).
  destruct (calculate_analytics_Ok s1) as [analytics Ha].
  { right. cbn [s1 updated emotion_counts fresh_session].
    rewrite total_emotions_first. discriminate. }
  rewrite Ha. exists analytics. reflexivity.
Qed.

(** C7. An update for an identifier the store does not know never
    raises: it answers with the information of a session created for the
    occasion, to which the score, the level and the emotion of the update
    were applied. *)
Theorem update_unknown_creates (w : World) (sm : SessionManager) (sid : string)
  (fused : fusion.FusedResult Q) :
  sessions sm !! sid = None ->
  exists info ws' s',
    update_session sid fused (w, sm) = (Ok (Some info), ws') /\
    info_session_id info = entropy w (draws w) /\
    info_current_stress info = default 0.5%Q (fusion.stress_score fused) /\
    info_current_emotion info = primary_emotion_of fused /\
    info_status info = status_of fused /\
    info_total_updates info = 1%nat /\
    sessions ws'.2 !! entropy w (draws w) = Some s' /\
    session_id s' = entropy w (draws w) /\
    stress_history s' =
      deque.append (deque.new (max_history sm)) (entry_of fused (clock w (S (ticks w)))) /\
    ((0 < max_history sm)%nat ->
     stress_score <$> deque.items (stress_history s')
       = [default 0.5%Q (fusion.stress_score fused)] /\
     stress_level <$> deque.items (stress_history s')
       = [default "Medium" (fusion.stress_level fused)] /\
     emotion <$> deque.items (stress_history s') = [primary_emotion_of fused]) /\
    emotion_counts s' = {[primary_emotion_of fused := 1%nat]}.
Proof.
  intros Hs.
  destruct (update_session_unknown_result w sm sid fused Hs) as [analytics Hrun].
  rewrite Hrun. eexists _, _, _. split; [reflexivity|].
  repeat (split; [reflexivity|]). split; [apply lookup_insert_eq|].
  repeat (split; [reflexivity|]). split.
  - intros Hpos. cbn [updated stress_history fresh_session].
    unfold deque.append, deque.new. cbn [deque.items deque.maxlen app length].
    destruct (decide (max_history sm < 1)%nat); [lia|]. repeat split.
  - cbn [updated emotion_counts fresh_session]. unfold count_emotion.
    rewrite lookup_empty. cbn. apply insert_empty.
Qed.

Lemma update_unknown_creates_witness :
  exists info ws',
    update_session "nobody" (angry_audio 0.9) (sample_world, __init__)
      = (Ok (Some info), ws') /\
    info_session_id info = "session-0" /\
    info_current_stress info = 0.9%Q /\
    info_current_emotion info = "angry" /\
    info_status info = "at_risk".
Proof.
  destruct (update_unknown_creates sample_world __init__ "nobody" (angry_audio 0.9) eq_refl)
    as (info & ws' & s' & Hrun & Hid & Hstress & Hemo & Hstat & _).
  exists info, ws'. split; [exact Hrun|].
  rewrite Hid, Hstress, Hemo, Hstat. repeat split.
Defined.

(** C10, as the code has it. The session an update creates for an unknown
    identifier is stored under the identifier drawn from uuid4, which the
    code neither derives from the passed identifier nor compares with it:
    the answer carries the drawn identifier, the store holds the new
    session under it and is otherwise unchanged, the outcome is the same
    whatever unknown identifier was passed, and the passed identifier stays
    unknown, its information being None, exactly when the drawn identifier
    differs from it. *)
Theorem update_unknown_fresh_id (w : World) (sm : SessionManager) (sid : string)
  (fused : fusion.FusedResult Q) :
  sessions sm !! sid = None ->
  let drawn := entropy w (draws w) in
  exists info ws' s',
    update_session sid fused (w, sm) = (Ok (Some info), ws') /\
    info_session_id info = drawn /\
    sessions ws'.2 !! drawn = Some s' /\
    session_id s' = drawn /\
    total_updates s' = 1%nat /\
    current_stress s' = default 0.5%Q (fusion.stress_score fused) /\
    (forall other, other <> drawn -> sessions ws'.2 !! other = sessions sm !! other) /\
    (exists info', (get_session_info drawn ws').1 = Ok (Some info') /\
       info_session_id info' = drawn /\ info_total_updates info' = 1%nat) /\
    (forall sid', sessions sm !! sid' = None ->
       update_session sid' fused (w, sm) = (Ok (Some info), ws')) /\
    (info_session_id info <> sid <-> drawn <> sid) /\
    (sessions ws'.2 !! sid = None <-> drawn <> sid) /\
    ((get_session_info sid ws').1 = Ok None <-> drawn <> sid).
Proof.
  intros Hs drawn. subst drawn.
  destruct (update_session_unknown_result w sm sid fused Hs) as [analytics Hrun].
  pose proof (update_session_unknown w sm sid fused Hs) as Hupd.
  set (s1 := updated (fresh_session (entropy w (draws w)) (clock w (ticks w))
               (max_history sm)) fused (clock w (S (ticks w)))) in *.
  set (sm1 := set_sessions sm (<[entropy w (draws w) := s1]> (sessions sm))) in *.
  assert (Hs1 : sessions sm1 !! entropy w (draws w) = Some s1) by apply lookup_insert_eq.
  assert (Hother : forall other, other <> entropy w (draws w) ->
            sessions sm1 !! other = sessions sm !! other).
  { intros other Hne. cbn [sm1 set_sessions sessions].
    apply lookup_insert_ne. intros Heq. apply Hne. symmetry. exact Heq. }
  assert (Ha : _calculate_analytics s1 = Ok analytics).
  { rewrite Hupd in Hrun.
    rewrite (get_session_info_known _ _ _ _ Hs1) in Hrun.
    destruct (_calculate_analytics s1) as [analytics'|e]; [|discriminate Hrun].
    injection Hrun as Hinfo. f_equal. exact Hinfo. }
  rewrite Hrun. eexists _, _, s1. split; [reflexivity|]. split; [reflexivity|].
  cbn [snd]. split; [exact Hs1|]. split; [reflexivity|]. split; [reflexivity|].
  split; [reflexivity|]. split; [exact Hother|]. split.
  { rewrite (get_session_info_known _ _ _ _ Hs1), Ha. cbn [fst].
    eexists. split; [reflexivity|]. split; reflexivity. }
  split.
  { intros sid' Hs'.
    rewrite (update_session_unknown w sm sid' fused Hs'). fold s1. fold sm1.
    rewrite (get_session_info_known _ _ _ _ Hs1), Ha. reflexivity. }
  split; [reflexivity|]. split.
  - split.
    + intros Hnone Heq. rewrite <- Heq, Hs1 in Hnone. discriminate.
    + intros Hne. rewrite Hother; [exact Hs|]. intros Heq. apply Hne. symmetry. exact Heq.
  - split.
    + intros Hnone Heq. rewrite <- Heq in Hnone.
      rewrite (get_session_info_known _ _ _ _ Hs1), Ha in Hnone. discriminate.
    + intros Hne. rewrite get_session_info_unknown; [reflexivity|].
      rewrite Hother; [exact Hs|]. intros Heq. apply Hne. symmetry. exact Heq.
Qed.

Lemma update_unknown_fresh_id_witness :
  exists info ws',
    update_session "nobody" (angry_audio 0.9) (sample_world, __init__)
      = (Ok (Some info), ws') /\
    info_session_id info = "session-0" /\
    is_Some (sessions ws'.2 !! "session-0") /\
    (get_session_info "nobody" ws').1 = Ok None.
Proof.
  destruct (update_unknown_fresh_id sample_world __init__ "nobody" (angry_audio 0.9)
              eq_refl)
    as (info & ws' & s' & Hrun & Hid & Hs' & _ & _ & _ & _ & _ & _ & _ & _ & Hinfo).
  exists info, ws'. split; [exact Hrun|]. split; [exact Hid|].
  split; [exists s'; exact Hs'|]. apply Hinfo. discriminate.
Defined.

(** C10, as stated, fails: nothing in the code keeps the identifier drawn
    from differing from the one passed.  When uuid4 draws the very
    identifier the caller passed, the answer carries the passed identifier
    and the passed identifier is known afterwards. *)
Lemma update_unknown_id_collides :
  let sid := "9b2e6c1a-4f0d-4c3b-8a7e-5d1f2a3b4c5d" in
  sessions __init__ !! sid = None /\
  exists info ws' info',
    update_session sid (angry_audio 0.9) (colliding_world, __init__)
      = (Ok (Some info), ws') /\
    info_session_id info = sid /\
    (get_session_info sid ws').1 = Ok (Some info') /\
    info_session_id info' = sid.
Proof.
  split; [reflexivity|]. eexists _, _, _.
  split; [vm_compute; reflexivity|]. split; [reflexivity|].
  split; [vm_compute; reflexivity|]. reflexivity.
Qed.

(** *** Ended sessions *)

Lemma end_session_known w sm sid s :
  sessions sm !! sid = Some s ->
  end_session sid (w, sm) =
    (Ok tt, (tick w, set_sessions sm (<[sid := ended s (clock w (ticks w))]> (sessions sm)))).
Proof. intros Hs. unfold end_session. run_M. rewrite Hs. reflexivity. Qed.

Lemma delete_session_known w sm sid s :
  sessions sm !! sid = Some s ->
  delete_session sid (w, sm) = (Ok tt, (w, set_sessions sm (delete sid (sessions sm)))).
Proof. intros Hs. unfold delete_session. run_M. rewrite Hs. reflexivity. Qed.

Lemma get_stress_timeline_unknown w sm sid limit :
  sessions sm !! sid = None -> get_stress_timeline sid limit (w, sm) = (Ok [], (w, sm)).
Proof. intros Hs. unfold get_stress_timeline. run_M. rewrite Hs. reflexivity. Qed.

(** The timeline reads the history of the session and nothing else. *)
Lemma get_stress_timeline_history w1 sm1 w2 sm2 sid s1 s2 limit :
  sessions sm1 !! sid = Some s1 ->
  sessions sm2 !! sid = Some s2 ->
  stress_history s1 = stress_history s2 ->
  (get_stress_timeline sid limit (w1, sm1)).1 = (get_stress_timeline sid limit (w2, sm2)).1.
Proof.
  intros H1 H2 Hh. unfold get_stress_timeline. run_M. rewrite H1, H2, Hh. reflexivity.
Qed.

(** C8, as the code has it. Ending a session sets its status to ended and
    records the end time, and touches neither the history nor the emotion
    counts; the timeline and the information of the ended session stay
    available until the session is deleted; and an update does not look at
    the status: it still appends to the history, counts the emotion and
    replaces the status by at_risk or normal. *)
Theorem ended_session_reads_and_updates (w : World) (sm : SessionManager)
  (sid : string) (s : Session) :
  sessions sm !! sid = Some s ->
  let now := clock w (ticks w) in
  let ws1 := (end_session sid (w, sm)).2 in
  (exists s1, sessions ws1.2 !! sid = Some s1 /\
     status s1 = "ended" /\ end_time s1 = Some now /\
     stress_history s1 = stress_history s /\
     emotion_counts s1 = emotion_counts s) /\
  (forall limit,
     (get_stress_timeline sid limit ws1).1 = (get_stress_timeline sid limit (w, sm)).1) /\
  (get_session_info sid ws1).1 =
     match _calculate_analytics s with
     | Ok analytics => Ok (Some (info_of (ended s now) (clock w (S (ticks w))) analytics))
     | Raise e => Raise e
     end /\
  (get_session_info sid (delete_session sid ws1).2).1 = Ok None /\
  (forall limit, (get_stress_timeline sid limit (delete_session sid ws1).2).1 = Ok []) /\
  (forall fused, exists s2,
     sessions (update_session sid fused ws1).2.2 !! sid = Some s2 /\
     stress_history s2 =
       deque.append (stress_history s) (entry_of fused (clock w (S (ticks w)))) /\
     emotion_counts s2 = count_emotion (primary_emotion_of fused) (emotion_counts s) /\
     status s2 = status_of fused /\
     end_time s2 = Some now).
Proof.
  intros Hs now ws1. unfold ws1. rewrite (end_session_known _ _ _ _ Hs). cbn [snd].
  set (sm1 := set_sessions sm (<[sid := ended s now]> (sessions sm))).
  assert (Hs1 : sessions sm1 !! sid = Some (ended s now)) by apply lookup_insert_eq.
  split; [|split; [|split; [|split; [|split]]]].
  - exists (ended s now). split; [exact Hs1|]. repeat split.
  - intros limit. apply (get_stress_timeline_history _ _ _ _ _ _ _ _ Hs1 Hs). reflexivity.
  - rewrite (get_session_info_known _ _ _ _ Hs1). reflexivity.
  - rewrite (delete_session_known _ _ _ _ Hs1). cbn [snd].
    rewrite get_session_info_unknown; [reflexivity|]. apply lookup_delete_eq.
  - intros limit. rewrite (delete_session_known _ _ _ _ Hs1). cbn [snd].
    rewrite get_stress_timeline_unknown; [reflexivity|]. apply lookup_delete_eq.
  - intros fused. rewrite (update_session_known _ _ _ _ _ Hs1).
    erewrite get_session_info_known by apply lookup_insert_eq. cbn [snd].
    eexists. split; [apply lookup_insert_eq|]. repeat split.
Qed.

Lemma ended_session_reads_and_updates_witness :
  let ws0 := (create_session None (sample_world, __init__)).2 in
  let ws1 := (end_session "session-0" ws0).2 in
  exists s1 s2,
    sessions ws1.2 !! "session-0" = Some s1 /\ status s1 = "ended" /\
    sessions (update_session "session-0" (angry_audio 0.9) ws1).2.2 !! "session-0"
      = Some s2 /\
    stress_score <$> deque.items (stress_history s2) = [0.9%Q] /\
    status s2 = "at_risk".
Proof.
  intros ws0 ws1.
  destruct (ended_session_reads_and_updates (create_session None (sample_world, __init__)).2.1
              (create_session None (sample_world, __init__)).2.2 "session-0"
              (fresh_session "session-0" 0%Q 1000) eq_refl)
    as ((s1 & Hs1 & Hst & _) & _ & _ & _ & _ & Hupd).
  destruct (Hupd (angry_audio 0.9)) as (s2 & Hs2 & Hh & _ & Hstat & _).
  exists s1, s2. split; [exact Hs1|]. split; [exact Hst|]. split; [exact Hs2|].
  rewrite Hh, Hstat. split; reflexivity.
Defined.

(** C8, as stated, fails: an update after the end changes the stored
    history, the emotion counts and the status of the ended session. *)
Lemma update_after_end_mutates :
  let ws0 := (create_session None (sample_world, __init__)).2 in
  let ws1 := (end_session "session-0" ws0).2 in
  let ws2 := (update_session "session-0" (angry_audio 0.9) ws1).2 in
  exists s1 s2,
    sessions ws1.2 !! "session-0" = Some s1 /\
    sessions ws2.2 !! "session-0" = Some s2 /\
    status s1 = "ended" /\ end_time s1 = Some 1%Q /\
    stress_history s2 <> stress_history s1 /\
    emotion_counts s2 <> emotion_counts s1 /\
    status s2 <> status s1.
Proof.
  eexists _, _. split; [vm_compute; reflexivity|]. split; [vm_compute; reflexivity|].
  split; [reflexivity|]. split; [reflexivity|]. split; [|split].
  - intros H. apply (f_equal (fun d => length (deque.items d))) in H.
    vm_compute in H. discriminate.
  - intros H. apply (f_equal (fun m => m !! "angry")) in H.
    vm_compute in H. discriminate.
  - discriminate.
Qed.
End SessionManager.

(** ** The alert manager *)

Section AlertManager.
Import alert_manager.
Context `{PyFloat F} `{PyBuiltins F}.

Lemma inject_nat_pos_nonzero (n : nat) : (0 < n)%nat -> ~ (inject_Z (Z.of_nat n) == 0)%Q.
Proof. intros Hn. unfold Qeq, inject_Z. cbn [Qnum Qden]. lia. Qed.

Lemma int_truediv_nonzero (a b : Z) :
  b <> 0%Z -> int_truediv (F:=F) a b = Ok (fquot (lit a 1) (lit b 1)).
Proof. intros Hb. unfold int_truediv. rewrite decide_False by exact Hb. reflexivity. Qed.

Lemma truediv_int_nonzero (a : F) (b : Z) :
  b <> 0%Z -> truediv_int a b = Ok (fquot a (lit b 1)).
Proof. intros Hb. unfold truediv_int. rewrite decide_False by exact Hb. reflexivity. Qed.

Lemma set_active_alerts_id (am : AlertManager F) :
  set_active_alerts am (active_alerts am) = am.
Proof. destruct am; reflexivity. Qed.

Lemma setitem_alert_spec w (am : AlertManager F) sid key value alerts :
  active_alerts am !! sid = Some alerts ->
  setitem_alert sid key value (w, am) =
    (Ok tt, (w, set_active_alerts am
                  (<[sid := (alerts ++ [(key, value)])%list]> (active_alerts am)))).
Proof.
  intros Ha. unfold setitem_alert. run_M. unfold getitem. rewrite Ha. reflexivity.
Qed.

Lemma sustained_spec w (am : AlertManager F) sid current_time history alerts :
  session_history am !! sid = Some history ->
  active_alerts am !! sid = Some alerts ->
  _check_sustained_high_stress sid current_time (w, am) =
    (Ok (sustained_step am (deque.items history) current_time alerts).1,
     (w, set_active_alerts am
           (<[sid := (sustained_step am (deque.items history) current_time alerts).2]>
              (active_alerts am)))).
Proof.
  intros Hh Ha.
  assert (Hid : set_active_alerts am (<[sid := alerts]> (active_alerts am)) = am).
  { rewrite (insert_id _ _ _ Ha). apply set_active_alerts_id. }
  unfold _check_sustained_high_stress, sustained_step, sustained_due. run_M.
  unfold getitem at 1. rewrite Hh. run_M.
  destruct (decide (0 < length (filter _ (deque.items history)))%nat) as [Hpos|Hnone].
  - rewrite (bool_decide_eq_true_2 _ Hpos). cbn [andb].
    rewrite int_truediv_nonzero by lia.
    destruct (fle (lit 8 10) _); cbn [andb fst snd]; [|rewrite Hid; reflexivity].
    unfold getitem. rewrite Ha.
    destruct (contains alerts "sustained_high_stress") eqn:Hc.
    + change (contains alerts SUSTAINED) with (contains alerts "sustained_high_stress").
      rewrite Hc. cbn [negb fst snd]. rewrite Hid. reflexivity.
    + change (contains alerts SUSTAINED) with (contains alerts "sustained_high_stress").
      rewrite Hc. cbn [negb fst snd].
      rewrite (setitem_alert_spec _ _ _ _ _ _ Ha). reflexivity.
  - rewrite (bool_decide_eq_false_2 _ Hnone). cbn [andb fst snd]. rewrite Hid. reflexivity.
Qed.

Lemma spike_spec w (am : AlertManager F) sid history alerts :
  session_history am !! sid = Some history ->
  active_alerts am !! sid = Some alerts ->
  _check_stress_spike sid (w, am) =
    (Ok (spike_step am (deque.items history) alerts).1,
     (w, set_active_alerts am
           (<[sid := (spike_step am (deque.items history) alerts).2]> (active_alerts am)))).
Proof.
  intros Hh Ha.
  assert (Hid : set_active_alerts am (<[sid := alerts]> (active_alerts am)) = am).
  { rewrite (insert_id _ _ _ Ha). apply set_active_alerts_id. }
  unfold _check_stress_spike, spike_step, spike_of. run_M.
  unfold getitem at 1. rewrite Hh. run_M.
  destruct (decide (length (deque.items history) < 2)%nat) as [Hshort|Hlong].
  { cbn [fst snd]. rewrite Hid. reflexivity. }
  destruct (last (deque.items history)) as [newest|] eqn:Hlast.
  2:{ apply last_None in Hlast. rewrite Hlast in Hlong. cbn in Hlong. lia. }
  rewrite truediv_int_nonzero.
  2:{ rewrite length_fmap, length_take, length_drop. lia. }
  destruct (fle (spike_threshold am) _); cbn [andb fst snd];
    [|rewrite Hid; reflexivity].
  unfold getitem. rewrite Ha.
  destruct (contains alerts (spike_key (timestamp newest))); cbn [negb fst snd].
  - rewrite Hid. reflexivity.
  - rewrite (setitem_alert_spec _ _ _ _ _ _ Ha). reflexivity.
Qed.

(** The window and the fired keys [check_alerts] starts from. *)
Lemma check_alerts_spec w (am : AlertManager F) sid stress_score t :
  (is_Some (session_history am !! sid) -> is_Some (active_alerts am !! sid)) ->
  let history := default (deque.new 1000) (session_history am !! sid) in
  let alerts := if session_history am !! sid is Some _
                then default [] (active_alerts am !! sid) else [] in
  let step := check_step am history alerts stress_score t in
  check_alerts sid stress_score (Some t) (w, am) =
    (Ok step.1.1,
     (w, set_active_alerts
           (set_session_history am (<[sid := step.1.2]> (session_history am)))
           (<[sid := step.2]> (active_alerts am)))).
Proof.
  intros Hwf history alerts step. unfold check_alerts. run_M.
  destruct (decide (is_Some (session_history am !! sid))) as [Hin|Hout].
  - destruct Hin as [h Hh]. destruct (Hwf (ex_intro _ h Hh)) as [d Hd].
    run_M. unfold getitem at 1. rewrite Hh. run_M.
    subst step history alerts. rewrite Hh, Hd. cbn [default].
    set (h1 := deque.append h _).
    set (am1 := set_session_history am (<[sid := h1]> (session_history am))).
    assert (Hh1 : session_history am1 !! sid = Some h1) by apply lookup_insert_eq.
    rewrite (sustained_spec w am1 sid t h1 d Hh1 Hd).
    set (st1 := sustained_step am1 (deque.items h1) t d).
    set (am2 := set_active_alerts am1 (<[sid := st1.2]> (active_alerts am1))).
    assert (Hd2 : active_alerts am2 !! sid = Some st1.2) by apply lookup_insert_eq.
    rewrite (spike_spec w am2 sid h1 st1.2 Hh1 Hd2).
    unfold check_step. fold h1. cbn [fst snd].
    change (sustained_step am (deque.items h1) t d) with st1.
    change (spike_step am (deque.items h1) st1.2) with (spike_step am2 (deque.items h1) st1.2).
    f_equal. f_equal. unfold am2. unfold set_active_alerts at 1. cbn [active_alerts set_active_alerts].
    rewrite insert_insert_eq. reflexivity.
  - assert (Hh : session_history am !! sid = None).
    { destruct (session_history am !! sid) eqn:E; [|reflexivity].
      exfalso. apply Hout. eauto. }
    run_M. unfold getitem at 1. cbn [session_history set_active_alerts set_session_history].
    rewrite lookup_insert_eq. run_M.
    subst step history alerts. rewrite Hh. cbn [default].
    set (h1 := deque.append (deque.new 1000) _).
    match goal with |- context [_check_sustained_high_stress sid t (w, ?a)] => set (am1 := a) end.
    assert (Hh1 : session_history am1 !! sid = Some h1) by apply lookup_insert_eq.
    assert (Hd : active_alerts am1 !! sid = Some []) by apply lookup_insert_eq.
    rewrite (sustained_spec w am1 sid t h1 [] Hh1 Hd).
    set (st1 := sustained_step am1 (deque.items h1) t []).
    set (am2 := set_active_alerts am1 (<[sid := st1.2]> (active_alerts am1))).
    assert (Hd2 : active_alerts am2 !! sid = Some st1.2) by apply lookup_insert_eq.
    rewrite (spike_spec w am2 sid h1 st1.2 Hh1 Hd2).
    unfold check_step. fold h1. cbn [fst snd].
    change (sustained_step am (deque.items h1) t []) with st1.
    change (spike_step am (deque.items h1) st1.2) with (spike_step am2 (deque.items h1) st1.2).
    f_equal. f_equal. unfold am2, am1, set_active_alerts, set_session_history.
    cbn [active_alerts session_history high_stress_threshold high_stress_duration
         spike_threshold spike_window].
    rewrite !insert_insert_eq. reflexivity.
Qed.

Lemma check_alerts_now w (am : AlertManager F) sid stress_score :
  check_alerts sid stress_score None (w, am) =
  check_alerts sid stress_score (Some (clock w (ticks w))) (tick w, am).
Proof. reflexivity. Qed.

(** *** One call *)

Lemma spike_key_not_sustained (t : Q) : spike_key t <> SUSTAINED.
Proof. unfold spike_key, SUSTAINED. cbn. discriminate. Qed.

Lemma contains_true alerts key : contains alerts key = true <-> key ∈ alerts.*1.
Proof. unfold contains. apply bool_decide_eq_true. Qed.

Lemma contains_app alerts key key' value :
  contains (alerts ++ [(key', value)]) key = contains alerts key || bool_decide (key = key').
Proof.
  unfold contains. apply eq_true_iff_eq.
  rewrite orb_true_iff, !bool_decide_eq_true, fmap_app, elem_of_app.
  cbn. rewrite list_elem_of_singleton. reflexivity.
Qed.

Lemma key_of_sustained (am : AlertManager F) t : key_of (sustained_alert am t) = SUSTAINED.
Proof. reflexivity. Qed.

Lemma key_of_spike (spike : F) t : key_of (spike_alert spike t) = spike_key t.
Proof. reflexivity. Qed.

(** What one check does to the fired keys of its session: none is lost,
    and an alert is raised only for a key that was not fired, which then
    is. *)
Lemma sustained_step_keys (am : AlertManager F) history t alerts :
  let st := sustained_step am history t alerts in
  (forall key, contains alerts key = true -> contains st.2 key = true) /\
  (forall a, st.1 = Some a ->
     a = sustained_alert am t /\ contains alerts SUSTAINED = false /\
     contains st.2 SUSTAINED = true /\ sustained_due am history t = true) /\
  (st.1 = None -> st.2 = alerts).
Proof.
  unfold sustained_step.
  destruct (sustained_due am history t); cbn [andb];
    [destruct (contains alerts SUSTAINED) eqn:Hc; cbn [negb]|]; cbn [fst snd].
  - repeat split; auto; discriminate.
  - split; [|split].
    + intros key Hk. rewrite contains_app, Hk. reflexivity.
    + intros a [= <-]. repeat split.
      rewrite contains_app, bool_decide_eq_true_2 by reflexivity. apply orb_true_r.
    + discriminate.
  - repeat split; auto; discriminate.
Qed.

Lemma spike_step_keys (am : AlertManager F) history alerts :
  let st := spike_step am history alerts in
  (forall key, contains alerts key = true -> contains st.2 key = true) /\
  (forall a, st.1 = Some a ->
     exists spike newest, last history = Some newest /\ spike_of history = Some spike /\
       a = spike_alert spike (timestamp newest) /\
       contains alerts (spike_key (timestamp newest)) = false /\
       contains st.2 (spike_key (timestamp newest)) = true /\
       spike_due am history = true) /\
  (st.1 = None -> st.2 = alerts).
Proof.
  unfold spike_step, spike_due.
  destruct (spike_of history) as [spike|]; [|repeat split; auto; discriminate].
  destruct (last history) as [newest|]; [|repeat split; auto; discriminate].
  destruct (fle (spike_threshold am) spike); cbn [andb];
    [destruct (contains alerts (spike_key (timestamp newest))) eqn:Hc; cbn [negb]|];
    cbn [fst snd].
  - repeat split; auto; discriminate.
  - split; [|split].
    + intros key Hk. rewrite contains_app, Hk. reflexivity.
    + intros a [= <-]. exists spike, newest. repeat split; [exact Hc|].
      rewrite contains_app, bool_decide_eq_true_2 by reflexivity. apply orb_true_r.
    + discriminate.
  - repeat split; auto; discriminate.
Qed.

(** A key is fired by a check only together with an alert of that key. *)
Lemma sustained_step_origin (am : AlertManager F) history t alerts key :
  let st := sustained_step am history t alerts in
  contains st.2 key = true ->
  contains alerts key = true \/ exists a, st.1 = Some a /\ key_of a = key.
Proof.
  unfold sustained_step.
  destruct (sustained_due am history t && negb (contains alerts SUSTAINED));
    cbn [fst snd]; [|auto].
  rewrite contains_app. intros Hc. apply orb_true_iff in Hc as [Hc|Hc]; [auto|].
  apply bool_decide_eq_true in Hc. right. eexists. split; [reflexivity|].
  rewrite key_of_sustained. symmetry. exact Hc.
Qed.

Lemma spike_step_origin (am : AlertManager F) history alerts key :
  let st := spike_step am history alerts in
  contains st.2 key = true ->
  contains alerts key = true \/ exists a, st.1 = Some a /\ key_of a = key.
Proof.
  unfold spike_step.
  destruct (spike_of history) as [spike|]; [|auto].
  destruct (last history) as [newest|]; [|auto].
  destruct (fle (spike_threshold am) spike &&
            negb (contains alerts (spike_key (timestamp newest)))); cbn [fst snd]; [|auto].
  rewrite contains_app. intros Hc. apply orb_true_iff in Hc as [Hc|Hc]; [auto|].
  apply bool_decide_eq_true in Hc. right. eexists. split; [reflexivity|].
  rewrite key_of_spike. symmetry. exact Hc.
Qed.

Lemma check_step_keys (am : AlertManager F) history alerts x t :
  let step := check_step am history alerts x t in
  (forall key, contains alerts key = true -> contains step.2 key = true) /\
  (forall a, a ∈ step.1.1 ->
     contains alerts (key_of a) = false /\ contains step.2 (key_of a) = true) /\
  (forall key, (length (filter (fun a => key_of a = key) step.1.1) <= 1)%nat).
Proof.
  unfold check_step. cbn [fst snd].
  set (h1 := deque.items (deque.append history _)).
  destruct (sustained_step_keys am h1 t alerts) as (Hmono1 & Hfire1 & Hnone1).
  set (st1 := sustained_step am h1 t alerts) in *.
  destruct (spike_step_keys am h1 st1.2) as (Hmono2 & Hfire2 & Hnone2).
  set (st2 := spike_step am h1 st1.2) in *.
  split; [|split].
  - intros key Hk. apply Hmono2, Hmono1, Hk.
  - intros a Ha. apply elem_of_app in Ha as [Ha|Ha].
    + destruct st1.1 as [a1|] eqn:E1; [|inversion Ha].
      apply list_elem_of_singleton in Ha as ->.
      destruct (Hfire1 a1 eq_refl) as (-> & Hfresh & Hin & _).
      rewrite key_of_sustained. split; [exact Hfresh|]. apply Hmono2, Hin.
    + destruct st2.1 as [a2|] eqn:E2; [|inversion Ha].
      apply list_elem_of_singleton in Ha as ->.
      destruct (Hfire2 a2 eq_refl) as (spike & newest & _ & _ & -> & Hfresh & Hin & _).
      rewrite key_of_spike. split; [|exact Hin].
      destruct (contains alerts (spike_key (timestamp newest))) eqn:Hc; [|reflexivity].
      rewrite (Hmono1 _ Hc) in Hfresh. discriminate.
  - intros key.
    destruct st1.1 as [a1|] eqn:E1; destruct st2.1 as [a2|] eqn:E2;
      unfold option_list; cbn [option_rect app].
    + destruct (Hfire1 a1 eq_refl) as (-> & _ & _ & _).
      destruct (Hfire2 a2 eq_refl) as (spike & newest & _ & _ & -> & _ & _ & _).
      rewrite !filter_cons, filter_nil, key_of_sustained, key_of_spike.
      destruct (decide (SUSTAINED = key)) as [<-|]; [|destruct (decide _); cbn; lia].
      destruct (decide (spike_key (timestamp newest) = SUSTAINED)) as [Hbad|]; [|cbn; lia].
      exfalso. exact (spike_key_not_sustained _ Hbad).
    + rewrite filter_cons, filter_nil. destruct (decide _); cbn; lia.
    + rewrite filter_cons, filter_nil. destruct (decide _); cbn; lia.
    + rewrite filter_nil. cbn. lia.
Qed.

(** The alerts of a check are the sustained alert and a spike alert, and
    a key that is fired after the check was fired before it or is the key
    of one of its alerts. *)
Lemma check_step_origin (am : AlertManager F) history alerts x t :
  let step := check_step am history alerts x t in
  (forall a, a ∈ step.1.1 ->
     type a = "sustained_high_stress" \/ type a = "sudden_stress_spike") /\
  (forall key, contains step.2 key = true ->
     contains alerts key = true \/ exists a, a ∈ step.1.1 /\ key_of a = key).
Proof.
  unfold check_step. cbn [fst snd].
  set (h1 := deque.items (deque.append history _)).
  destruct (sustained_step_keys am h1 t alerts) as (_ & Hfire1 & _).
  pose proof (sustained_step_origin am h1 t alerts) as Horigin1.
  set (st1 := sustained_step am h1 t alerts) in *.
  destruct (spike_step_keys am h1 st1.2) as (_ & Hfire2 & _).
  pose proof (spike_step_origin am h1 st1.2) as Horigin2.
  set (st2 := spike_step am h1 st1.2) in *.
  split.
  - intros a Ha. apply elem_of_app in Ha as [Ha|Ha].
    + destruct st1.1 as [a1|] eqn:E1; [|inversion Ha].
      apply list_elem_of_singleton in Ha as ->.
      destruct (Hfire1 a1 eq_refl) as (-> & _). left. reflexivity.
    + destruct st2.1 as [a2|] eqn:E2; [|inversion Ha].
      apply list_elem_of_singleton in Ha as ->.
      destruct (Hfire2 a2 eq_refl) as (spike & newest & _ & _ & -> & _).
      right. reflexivity.
  - intros key Hc. destruct (Horigin2 key Hc) as [Hc1|(a & Ha & Hk)].
    + destruct (Horigin1 key Hc1) as [Hc0|(a & Ha & Hk)]; [auto|].
      right. exists a. split; [|exact Hk]. apply elem_of_app. left.
      rewrite Ha. left.
    + right. exists a. split; [|exact Hk]. apply elem_of_app. right.
      rewrite Ha. left.
Qed.

Lemma well_formed_init : well_formed (__init__ (F:=F)).
Proof.
  split.
  - intros sid. cbn. rewrite !lookup_empty. split; intros [? ?]; discriminate.
  - intros sid history. cbn. rewrite lookup_empty. discriminate.
Qed.

Lemma filter_none {A} (P : A -> Prop) `{forall x, Decision (P x)} (l : list A) :
  (forall x, x ∈ l -> ~ P x) -> filter P l = [].
Proof.
  induction l as [|x l IH]; intros Hl; [reflexivity|].
  rewrite filter_cons. destruct (decide (P x)) as [HP|_].
  - exfalso. apply (Hl x); [left|exact HP].
  - apply IH. intros y Hy. apply Hl. right. exact Hy.
Qed.

Lemma fired_contains (am : AlertManager F) sid key :
  well_formed am ->
  contains (if session_history am !! sid is Some _
            then default [] (active_alerts am !! sid) else []) key = fired sid key am.
Proof.
  intros [Hdom _]. unfold fired.
  destruct (session_history am !! sid) as [h|] eqn:Hh.
  - destruct (proj1 (Hdom sid) (ex_intro _ h Hh)) as [d Hd]. rewrite Hd. reflexivity.
  - destruct (active_alerts am !! sid) as [d|] eqn:Hd; [|reflexivity].
    destruct (proj2 (Hdom sid) (ex_intro _ d Hd)) as [h Hh']. congruence.
Qed.

(** What a call does, from a state the code keeps the manager in: it does
    not raise and keeps the state well formed; it hands back at most one
    alert per key, none for a key that was fired, and every alert it hands
    back has its key fired afterwards; and unless it clears the session it
    loses none of its fired keys. *)
Lemma perform_step (w : World) (am : AlertManager F) (c : call F) (sid key : string) :
  well_formed am ->
  let r := perform c (w, am) in
  well_formed r.2.2 /\
  (exists alerts, r.1 = Ok alerts) /\
  (no_clear sid [c] = true -> fired sid key am = true ->
     fired sid key r.2.2 = true /\
     filter (fun a => key_of a = key) (alerts_for sid (c, r.1)) = []) /\
  (forall a, a ∈ alerts_for sid (c, r.1) -> fired sid (key_of a) r.2.2 = true) /\
  (length (filter (fun a => key_of a = key) (alerts_for sid (c, r.1))) <= 1)%nat.
Proof.
  intros [Hdom Hmax]. destruct c as [sid' x ts|sid'|sid' limit]; cbn [perform].
  - (* check_alerts *)
    assert (Hspec : exists w' t, check_alerts sid' x ts (w, am) =
                      check_alerts sid' x (Some t) (w', am)).
    { destruct ts as [t|]; [exists w, t; reflexivity|].
      eexists _, _. apply check_alerts_now. }
    destruct Hspec as (w' & t & ->).
    rewrite check_alerts_spec by (apply Hdom).
    set (history := default (deque.new 1000) (session_history am !! sid')).
    set (alerts := if session_history am !! sid' is Some _
                   then default [] (active_alerts am !! sid') else []).
    destruct (check_step_keys am history alerts x t) as (Hmono & Hfire & Hone).
    set (step := check_step am history alerts x t) in *.
    cbn [fst snd].
    assert (Hlook : forall k, fired sid' k am = true -> contains alerts k = true).
    { intros k. unfold fired. intros Hf.
      destruct (active_alerts am !! sid') as [d|] eqn:Hd; [|discriminate].
      destruct (proj2 (Hdom sid') (ex_intro _ d Hd)) as [h Hh].
      unfold alerts. rewrite Hh. exact Hf. }
    split; [|split; [|split; [|split]]].
    + split.
      * intros s0. cbn [session_history active_alerts set_active_alerts set_session_history].
        destruct (decide (sid' = s0)) as [->|Hne].
        -- rewrite !lookup_insert_eq. split; eauto.
        -- rewrite !lookup_insert_ne by exact Hne. apply Hdom.
      * intros s0 h0.
        cbn [session_history active_alerts set_active_alerts set_session_history].
        destruct (decide (sid' = s0)) as [->|Hne].
        -- rewrite lookup_insert_eq. intros [= <-].
           unfold step, check_step. cbn [fst snd]. rewrite deque_append_maxlen.
           unfold history. destruct (session_history am !! s0) as [h|] eqn:Hh; cbn.
           ++ apply (Hmax s0 h Hh).
           ++ reflexivity.
        -- rewrite lookup_insert_ne by exact Hne. apply Hmax.
    + eexists. reflexivity.
    + intros _ Hfired. unfold fired, alerts_for.
      cbn [session_history active_alerts set_active_alerts set_session_history].
      destruct (decide (sid' = sid)) as [->|Hne].
      * rewrite lookup_insert_eq, bool_decide_eq_true_2 by reflexivity.
        split; [apply Hmono, Hlook, Hfired|].
        apply filter_none. intros a Ha Hk.
        destruct (Hfire a Ha) as [Hfresh _]. rewrite Hk, (Hlook _ Hfired) in Hfresh.
        discriminate.
      * rewrite lookup_insert_ne, bool_decide_eq_false_2 by exact Hne.
        split; [exact Hfired|reflexivity].
    + intros a. unfold fired, alerts_for.
      cbn [session_history active_alerts set_active_alerts set_session_history].
      destruct (decide (sid' = sid)) as [->|Hne].
      * rewrite lookup_insert_eq, bool_decide_eq_true_2 by reflexivity.
        intros Ha. apply (Hfire a Ha).
      * rewrite bool_decide_eq_false_2 by exact Hne. intros Ha. inversion Ha.
    + unfold alerts_for. destruct (bool_decide (sid' = sid)); [apply Hone|cbn; lia].
  - (* clear_session *)
    unfold clear_session. run_M.
    cbn [session_history active_alerts set_active_alerts set_session_history].
    split; [|split; [|split; [|split]]].
    + split.
      * intros s0. cbn [session_history active_alerts set_active_alerts set_session_history].
        destruct (decide (sid' = s0)) as [->|Hne].
        -- rewrite !lookup_delete_eq. split; intros [? ?]; discriminate.
        -- rewrite !lookup_delete_ne by exact Hne. apply Hdom.
      * intros s0 h0.
        cbn [session_history active_alerts set_active_alerts set_session_history].
        destruct (decide (sid' = s0)) as [->|Hne].
        -- rewrite lookup_delete_eq. discriminate.
        -- rewrite lookup_delete_ne by exact Hne. apply Hmax.
    + eexists. reflexivity.
    + cbn [no_clear forallb]. rewrite andb_true_r. intros Hnc Hfired.
      apply negb_true_iff, bool_decide_eq_false in Hnc.
      split; [|reflexivity]. unfold fired.
      cbn [session_history active_alerts set_active_alerts set_session_history].
      rewrite lookup_delete_ne by exact Hnc. exact Hfired.
    + intros a Ha. inversion Ha.
    + cbn. lia.
  - (* get_alert_history *)
    unfold get_alert_history. run_M.
    destruct (active_alerts am !! sid'); run_M; cbn [fst snd];
      (split; [split; assumption|]); (split; [eexists; reflexivity|]);
      (split; [intros _ Hfired; split; [exact Hfired|reflexivity]|]);
      (split; [intros a Ha; inversion Ha|cbn; lia]).
Qed.

(** Where a fired key comes from: a key that is fired after a call was
    fired before it, or is the key of an alert the call handed back; and
    the alerts handed back are sustained alerts and spike alerts. *)
Lemma perform_origin (w : World) (am : AlertManager F) (c : call F) (sid : string) :
  well_formed am ->
  let r := perform c (w, am) in
  (forall key, fired sid key r.2.2 = true ->
     fired sid key am = true \/ exists a, a ∈ alerts_for sid (c, r.1) /\ key_of a = key) /\
  (forall a, a ∈ alerts_for sid (c, r.1) ->
     type a = "sustained_high_stress" \/ type a = "sudden_stress_spike").
Proof.
  intros Hwf. pose proof Hwf as [Hdom Hmax].
  destruct c as [sid' x ts|sid'|sid' limit]; cbn [perform].
  - assert (Hspec : exists w' t, check_alerts sid' x ts (w, am) =
                      check_alerts sid' x (Some t) (w', am)).
    { destruct ts as [t|]; [exists w, t; reflexivity|].
      eexists _, _. apply check_alerts_now. }
    destruct Hspec as (w' & t & ->).
    rewrite check_alerts_spec by (apply Hdom).
    pose proof (fired_contains am sid') as Hfired.
    set (history := default (deque.new 1000) (session_history am !! sid')) in *.
    set (alerts := if session_history am !! sid' is Some _
                   then default [] (active_alerts am !! sid') else []) in *.
    destruct (check_step_origin am history alerts x t) as (Htypes & Horigin).
    set (step := check_step am history alerts x t) in *.
    cbn [fst snd]. unfold fired, alerts_for.
    cbn [session_history active_alerts set_active_alerts set_session_history].
    destruct (decide (sid' = sid)) as [->|Hne].
    + rewrite lookup_insert_eq, bool_decide_eq_true_2 by reflexivity. split.
      * intros key Hc. destruct (Horigin key Hc) as [Hc0|Hraised]; [|auto].
        left. rewrite (Hfired key Hwf) in Hc0. exact Hc0.
      * exact Htypes.
    + rewrite lookup_insert_ne, bool_decide_eq_false_2 by exact Hne. split.
      * intros key Hc. left. exact Hc.
      * intros a Ha. inversion Ha.
  - unfold clear_session, fired. run_M.
    cbn [session_history active_alerts set_active_alerts set_session_history].
    split; [|intros a Ha; inversion Ha].
    intros key. destruct (decide (sid' = sid)) as [->|Hne].
    + rewrite lookup_delete_eq. discriminate.
    + rewrite lookup_delete_ne by exact Hne. auto.
  - unfold get_alert_history. run_M.
    destruct (active_alerts am !! sid'); run_M; cbn [fst snd];
      (split; [intros key Hc; left; exact Hc|intros a Ha; inversion Ha]).
Qed.

(** *** Runs of calls *)

Lemma no_clear_cons sid (c : call F) cs :
  no_clear sid (c :: cs) = no_clear sid [c] && no_clear sid cs.
Proof. cbn [no_clear forallb]. rewrite andb_true_r. reflexivity. Qed.

Lemma fired_in_cons sid key (c : call F) r log :
  fired_in sid key ((c, r) :: log) =
    (filter (fun a => key_of a = key) (alerts_for sid (c, r)) ++ fired_in sid key log)%list.
Proof. unfold fired_in. cbn [mbind list_bind]. apply filter_app. Qed.

Lemma run_well_formed (cs : list (call F)) : forall w am,
  well_formed am -> well_formed (run cs (w, am)).2.2.
Proof.
  induction cs as [|c cs IH]; intros w am Hwf; [exact Hwf|].
  cbn [run snd]. destruct (perform_step w am c "" "" Hwf) as (Hwf' & _).
  destruct (perform c (w, am)) as [r [w' am']]. apply IH, Hwf'.
Qed.

(** A fired key stays fired, and silent, until the session is cleared. *)
Lemma run_fired_silent sid key (cs : list (call F)) : forall w am,
  well_formed am -> no_clear sid cs = true -> fired sid key am = true ->
  fired_in sid key (run cs (w, am)).1 = [] /\ fired sid key (run cs (w, am)).2.2 = true.
Proof.
  induction cs as [|c cs IH]; intros w am Hwf Hnc Hfired; [split; [reflexivity|exact Hfired]|].
  rewrite no_clear_cons in Hnc. apply andb_true_iff in Hnc as [Hc Hcs].
  cbn [run fst snd]. rewrite fired_in_cons.
  destruct (perform_step w am c sid key Hwf) as (Hwf' & _ & Hkeep & _).
  destruct (Hkeep Hc Hfired) as [Hfired' Hsilent].
  destruct (perform c (w, am)) as [r [w' am']]. cbn [fst snd] in *.
  rewrite Hsilent. cbn [app]. apply IH; assumption.
Qed.

(** Between two clears of a session every key fires at most once. *)
Lemma run_fires_once sid key (cs : list (call F)) : forall w am,
  well_formed am -> no_clear sid cs = true ->
  (length (fired_in sid key (run cs (w, am)).1) <= 1)%nat.
Proof.
  induction cs as [|c cs IH]; intros w am Hwf Hnc; [cbn; lia|].
  rewrite no_clear_cons in Hnc. apply andb_true_iff in Hnc as [Hc Hcs].
  cbn [run fst snd]. rewrite fired_in_cons, length_app.
  destruct (perform_step w am c sid key Hwf) as (Hwf' & _ & _ & Hmark & Hone).
  destruct (perform c (w, am)) as [r [w' am']]. cbn [fst snd] in *.
  destruct (filter (fun a => key_of a = key) (alerts_for sid (c, r))) as [|a rest] eqn:Hf.
  - cbn [length]. apply IH; assumption.
  - assert (Ha : a ∈ filter (fun a => key_of a = key) (alerts_for sid (c, r)))
      by (rewrite Hf; left).
    apply list_elem_of_filter in Ha as [Hkey Ha].
    pose proof (Hmark a Ha) as Hfired. rewrite Hkey in Hfired.
    destruct (run_fired_silent sid key cs w' am' Hwf' Hcs Hfired) as [-> _].
    cbn [length] in *. lia.
Qed.

(** The key of every alert a run raised is fired when the run ends. *)
Lemma run_raised_fired sid (cs : list (call F)) : forall w am a,
  well_formed am -> no_clear sid cs = true ->
  a ∈ raised sid (run cs (w, am)).1 -> fired sid (key_of a) (run cs (w, am)).2.2 = true.
Proof.
  induction cs as [|c cs IH]; intros w am a Hwf Hnc Ha; [inversion Ha|].
  rewrite no_clear_cons in Hnc. apply andb_true_iff in Hnc as [Hc Hcs].
  cbn [run fst snd] in *. unfold raised in Ha. cbn [mbind list_bind] in Ha.
  destruct (perform_step w am c sid (key_of a) Hwf) as (Hwf' & _ & _ & Hmark & _).
  destruct (perform c (w, am)) as [r [w' am']]. cbn [fst snd] in *.
  apply elem_of_app in Ha as [Ha|Ha].
  - apply (run_fired_silent sid (key_of a) cs w' am' Hwf' Hcs (Hmark a Ha)).
  - apply IH; assumption.
Qed.

Lemma filter_length_mono {A} (P Q : A -> Prop)
  `{forall x, Decision (P x)} `{forall x, Decision (Q x)} (l : list A) :
  (forall x, P x -> Q x) -> (length (filter P l) <= length (filter Q l))%nat.
Proof.
  intros HPQ. induction l as [|x l IH]; [reflexivity|].
  rewrite !filter_cons.
  destruct (decide (P x)) as [HP|_]; destruct (decide (Q x)) as [_|HQ]; cbn [length]; try lia.
  exfalso. apply HQ, HPQ, HP.
Qed.

Lemma sustained_among_fired_in sid (log : list (call F * Result (list Alert))) :
  (length (sustained_among (raised sid log)) <= length (fired_in sid SUSTAINED log))%nat.
Proof.
  apply filter_length_mono. intros a Ha. unfold key_of.
  rewrite bool_decide_eq_true_2 by exact Ha. reflexivity.
Qed.

Lemma spike_key_int (t : Q) : spike_key t = "spike_" +:+ pretty (py_int t).
Proof. reflexivity. Qed.

Lemma spikes_among_fired_in sid k (log : list (call F * Result (list Alert))) :
  (length (spikes_among k (raised sid log))
   <= length (fired_in sid ("spike_" +:+ pretty k) log))%nat.
Proof.
  apply filter_length_mono. intros a [Ha Hk]. unfold key_of.
  rewrite bool_decide_eq_false_2 by (rewrite Ha; discriminate).
  rewrite spike_key_int, Hk. reflexivity.
Qed.

Lemma fired_after_clear w (am : AlertManager F) sid key :
  fired sid key (perform (ClearSession sid) (w, am)).2.2 = false.
Proof.
  cbn [perform]. unfold clear_session, fired. run_M.
  cbn [session_history active_alerts set_active_alerts set_session_history].
  rewrite lookup_delete_eq. reflexivity.
Qed.

(** A key that is fired when a run ends was fired when it began, or is
    the key of an alert the run raised; and a run raises sustained alerts
    and spike alerts only. *)
Lemma run_fired_origin sid key (cs : list (call F)) : forall w am,
  well_formed am -> fired sid key (run cs (w, am)).2.2 = true ->
  fired sid key am = true \/
  exists a, a ∈ raised sid (run cs (w, am)).1 /\ key_of a = key.
Proof.
  induction cs as [|c cs IH]; intros w am Hwf Hfired; [left; exact Hfired|].
  cbn [run fst snd] in *.
  pose proof (run_well_formed [c] w am Hwf) as Hwf'. cbn [run fst snd] in Hwf'.
  destruct (perform_origin w am c sid Hwf) as [Horigin _].
  destruct (perform c (w, am)) as [r [w' am']]. cbn [fst snd] in *.
  unfold raised. cbn [mbind list_bind].
  destruct (IH w' am' Hwf' Hfired) as [Hbefore|(a & Ha & Hk)].
  - destruct (Horigin key Hbefore) as [Hstart|(a & Ha & Hk)]; [auto|].
    right. exists a. split; [|exact Hk]. apply elem_of_app. left. exact Ha.
  - right. exists a. split; [|exact Hk]. apply elem_of_app. right. exact Ha.
Qed.

Lemma run_raised_types sid (cs : list (call F)) : forall w am a,
  well_formed am -> a ∈ raised sid (run cs (w, am)).1 ->
  type a = "sustained_high_stress" \/ type a = "sudden_stress_spike".
Proof.
  induction cs as [|c cs IH]; intros w am a Hwf Ha; [inversion Ha|].
  cbn [run fst snd] in *. unfold raised in Ha. cbn [mbind list_bind] in Ha.
  pose proof (run_well_formed [c] w am Hwf) as Hwf'. cbn [run fst snd] in Hwf'.
  destruct (perform_origin w am c sid Hwf) as [_ Htypes].
  destruct (perform c (w, am)) as [r [w' am']]. cbn [fst snd] in *.
  apply elem_of_app in Ha as [Ha|Ha]; [apply Htypes, Ha|apply (IH w' am' a Hwf' Ha)].
Qed.

(** The alerts a run raised under the key of the whole second [k] are its
    spike alerts of that second. *)
Lemma spikes_among_key sid k (cs : list (call F)) w am :
  well_formed am ->
  (spikes_among k (raised sid (run cs (w, am)).1) <> [] <->
   exists a, a ∈ raised sid (run cs (w, am)).1 /\ key_of a = "spike_" +:+ pretty k).
Proof.
  intros Hwf. split.
  - intros Hne. destruct (spikes_among k (raised sid (run cs (w, am)).1)) as [|a l] eqn:E;
      [contradiction|].
    assert (Ha : a ∈ spikes_among k (raised sid (run cs (w, am)).1)) by (rewrite E; left).
    apply list_elem_of_filter in Ha as [[Htype Hk] Ha].
    exists a. split; [exact Ha|]. unfold key_of.
    rewrite bool_decide_eq_false_2 by (rewrite Htype; discriminate).
    rewrite spike_key_int, Hk. reflexivity.
  - intros (a & Ha & Hkey) Hnil.
    assert (Hin : a ∈ spikes_among k (raised sid (run cs (w, am)).1)).
    { apply list_elem_of_filter. split; [|exact Ha].
      destruct (run_raised_types sid cs w am a Hwf Ha) as [Htype|Htype].
      - unfold key_of in Hkey. rewrite bool_decide_eq_true_2 in Hkey by exact Htype.
        discriminate Hkey.
      - split; [exact Htype|]. unfold key_of in Hkey.
        rewrite bool_decide_eq_false_2 in Hkey by (rewrite Htype; discriminate).
        rewrite spike_key_int in Hkey. apply (inj (String.app "spike_")) in Hkey.
        apply (inj pretty) in Hkey. exact Hkey. }
    rewrite Hnil in Hin. inversion Hin.
Qed.

(** Between two clears of a session, the key of a whole second is fired
    exactly when it was fired at the start or a spike alert of that second
    was raised since. *)
Lemma run_spike_fired_iff sid k (cs : list (call F)) w am :
  well_formed am -> no_clear sid cs = true ->
  (fired sid ("spike_" +:+ pretty k) (run cs (w, am)).2.2 = true <->
   fired sid ("spike_" +:+ pretty k) am = true \/
   spikes_among k (raised sid (run cs (w, am)).1) <> []).
Proof.
  intros Hwf Hnc. rewrite (spikes_among_key sid k cs w am Hwf). split.
  - apply run_fired_origin, Hwf.
  - intros [Hstart|(a & Ha & Hkey)].
    + apply (run_fired_silent sid _ cs w am Hwf Hnc Hstart).
    + rewrite <- Hkey. apply run_raised_fired; assumption.
Qed.

(** C5. Between a clear of a session and the next one its sustained
    alert fires at most once, whatever the samples are, so also when every
    sample of a long run meets the 80% condition; once fired, the key stays
    fired, and the alert silent, until [clear_session] removes it. *)
Theorem sustained_alert_fires_once (w0 : World) (before cs : list (call F)) (sid : string) :
  no_clear sid cs = true ->
  let st := (run before (w0, __init__)).2 in
  let out := run cs st in
  (length (sustained_among (raised sid out.1)) <= 1)%nat /\
  (fired sid SUSTAINED st.2 = true ->
     sustained_among (raised sid out.1) = [] /\ fired sid SUSTAINED out.2.2 = true) /\
  (forall a, a ∈ sustained_among (raised sid out.1) ->
     fired sid SUSTAINED out.2.2 = true) /\
  fired sid SUSTAINED (perform (ClearSession sid) out.2).2.2 = false.
Proof.
  intros Hnc st out.
  assert (Hwf : well_formed st.2) by (apply run_well_formed, well_formed_init).
  unfold out. destruct st as [w am]. cbn [snd] in *.
  split; [|split; [|split]].
  - etransitivity; [apply sustained_among_fired_in|].
    apply run_fires_once; assumption.
  - intros Hfired.
    destruct (run_fired_silent sid SUSTAINED cs w am Hwf Hnc Hfired) as [Hsilent Hkeep].
    split; [|exact Hkeep]. apply length_zero_iff_nil.
    pose proof (sustained_among_fired_in sid (run cs (w, am)).1) as Hle.
    rewrite Hsilent in Hle. cbn [length] in Hle. lia.
  - intros a Ha. apply list_elem_of_filter in Ha as [Htype Ha].
    pose proof (run_raised_fired sid cs w am a Hwf Hnc Ha) as Hfired.
    unfold key_of in Hfired. rewrite bool_decide_eq_true_2 in Hfired by exact Htype.
    exact Hfired.
  - destruct (run cs (w, am)).2 as [w' am']. apply fired_after_clear.
Qed.

(** *** Spikes *)

Lemma spike_key_inj (t1 t2 : Q) : spike_key t1 = spike_key t2 <-> py_int t1 = py_int t2.
Proof.
  split.
  - unfold spike_key. intros Heq. apply (inj (String.app "spike_")) in Heq.
    apply (inj pretty) in Heq. exact Heq.
  - intros Heq. unfold spike_key. rewrite Heq. reflexivity.
Qed.

Lemma last_deque_append {A} (d : deque.t A) (x : A) :
  (0 < deque.maxlen d)%nat -> last (deque.items (deque.append d x)) = Some x.
Proof.
  intros Hpos. unfold deque.append. cbn [deque.items].
  destruct (decide (deque.maxlen d < length (deque.items d ++ [x]))%nat) as [Hfull|_].
  - destruct (deque.items d) as [|y l].
    + cbn in Hfull. lia.
    + cbn [app drop]. apply last_snoc.
  - apply last_snoc.
Qed.

Lemma spike_step_fires (am : AlertManager F) history alerts newest :
  last history = Some newest ->
  (is_Some (spike_step am history alerts).1 <->
   spike_due am history = true /\ contains alerts (spike_key (timestamp newest)) = false) /\
  (forall a, (spike_step am history alerts).1 = Some a ->
     type a = "sudden_stress_spike" /\ alert_timestamp a = timestamp newest).
Proof.
  intros Hlast. unfold spike_step, spike_due. rewrite Hlast.
  destruct (spike_of history) as [spike|].
  2:{ split; [split; [intros [? ?]|intros [? _]]; discriminate|discriminate]. }
  destruct (fle (spike_threshold am) spike);
    destruct (contains alerts (spike_key (timestamp newest))); cbn [andb negb fst snd].
  - split; [split; [intros [? ?]|intros [_ ?]]; discriminate|discriminate].
  - split; [split; [auto|eauto]|]. intros a [= <-]. split; reflexivity.
  - split; [split; [intros [? ?]|intros [? _]]; discriminate|discriminate].
  - split; [split; [intros [? ?]|intros [? _]]; discriminate|discriminate].
Qed.

(** One check raises a spike alert exactly when the window with the new
    sample has a spike and the key of the sample is not fired yet. *)
Lemma check_spike_iff (w : World) (am : AlertManager F) (sid : string) (x : F) (t : Q) :
  well_formed am ->
  exists alerts, (check_alerts sid x (Some t) (w, am)).1 = Ok alerts /\
    ((exists a, a ∈ alerts /\ type a = "sudden_stress_spike") <->
     spike_due am (window_with am sid x t) = true /\ fired sid (spike_key t) am = false) /\
    (forall a, a ∈ alerts -> type a = "sudden_stress_spike" -> alert_timestamp a = t).
Proof.
  intros Hwf. pose proof Hwf as [Hdom Hmax].
  rewrite check_alerts_spec by (apply Hdom). cbn [fst snd].
  eexists. split; [reflexivity|].
  unfold check_step. cbn [fst snd]. fold (window_with am sid x t).
  assert (Hlast : last (window_with am sid x t) = Some {| score := x; timestamp := t |}).
  { unfold window_with. apply last_deque_append.
    destruct (session_history am !! sid) as [h|] eqn:Hh; cbn.
    - rewrite (Hmax sid h Hh). lia.
    - lia. }
  set (d := if session_history am !! sid is Some _
            then default [] (active_alerts am !! sid) else []).
  pose proof (fired_contains am sid (spike_key t) Hwf) as Hfired. fold d in Hfired.
  destruct (sustained_step_keys am (window_with am sid x t) t d) as (Hmono1 & Hfire1 & Hnone1).
  set (st1 := sustained_step am (window_with am sid x t) t d) in *.
  assert (Hsame : contains st1.2 (spike_key t) = contains d (spike_key t)).
  { destruct st1.1 as [a1|] eqn:E1.
    - destruct (Hfire1 a1 eq_refl) as (_ & Hfresh & _ & Hdue).
      unfold st1, sustained_step. rewrite Hdue, Hfresh. cbn [andb negb fst snd].
      rewrite contains_app, bool_decide_eq_false_2 by apply spike_key_not_sustained.
      apply orb_false_r.
    - rewrite (Hnone1 eq_refl). reflexivity. }
  destruct (spike_step_fires am (window_with am sid x t) st1.2 _ Hlast) as [Hiff Hshape].
  cbn [timestamp] in Hiff, Hshape. rewrite Hsame, Hfired in Hiff.
  set (st2 := spike_step am (window_with am sid x t) st1.2) in *.
  assert (Hsust : forall a, a ∈ option_list st1.1 -> type a = "sustained_high_stress").
  { intros a Ha. destruct st1.1 as [a1|] eqn:E1; [|inversion Ha].
    apply list_elem_of_singleton in Ha as ->.
    destruct (Hfire1 a1 eq_refl) as (-> & _). reflexivity. }
  split.
  - rewrite <- Hiff. split.
    + intros (a & Ha & Htype). apply elem_of_app in Ha as [Ha|Ha].
      { rewrite (Hsust a Ha) in Htype. discriminate. }
      destruct st2.1 as [a2|]; [eauto|inversion Ha].
    + intros [a2 Ha2]. exists a2. split; [|apply (Hshape a2 Ha2)].
      apply elem_of_app. right. rewrite Ha2. left.
  - intros a Ha Htype. apply elem_of_app in Ha as [Ha|Ha].
    { rewrite (Hsust a Ha) in Htype. discriminate. }
    destruct st2.1 as [a2|] eqn:E2; [|inversion Ha].
    apply list_elem_of_singleton in Ha as ->. apply (Hshape a2 eq_refl).
Qed.

(** C6, as the code has it, in every float model. A spike alert is
    recorded under the key spike_ followed by the integer part of the
    timestamp of the newest sample; between two clears of a session at
    most one spike alert fires per key, so a sample processed again with
    the same timestamp, or any spike within the same whole second as a
    fired one, raises no second alert; two timestamps have the same key
    exactly when they have the same integer part; a check raises a spike
    alert exactly when the window has a spike, as the float arithmetic of
    the code decides it, and the key of the sample is not fired yet; and
    the key of a whole second is fired only by a spike alert of that
    second: it is fired exactly when it was at the start or such an alert
    was raised since, and in a manager run from its creation only when
    such an alert was raised.  So a spike in a whole second of which no
    spike alert was raised does raise its alert, at its timestamp. *)
Theorem spike_alert_once_per_key (w0 : World) (before cs : list (call F)) (sid : string)
  (k : Z) :
  no_clear sid cs = true ->
  let start := run before (w0, __init__) in
  let st := start.2 in
  let out := run cs st in
  (length (spikes_among k (raised sid out.1)) <= 1)%nat /\
  (fired sid ("spike_" +:+ pretty k) st.2 = true ->
     spikes_among k (raised sid out.1) = []) /\
  (forall t1 t2, spike_key t1 = spike_key t2 <-> py_int t1 = py_int t2) /\
  (forall x t, exists alerts,
     (check_alerts sid x (Some t) out.2).1 = Ok alerts /\
     ((exists a, a ∈ alerts /\ type a = "sudden_stress_spike") <->
      spike_due out.2.2 (window_with out.2.2 sid x t) = true /\
      fired sid (spike_key t) out.2.2 = false) /\
     (forall a, a ∈ alerts -> type a = "sudden_stress_spike" -> alert_timestamp a = t)) /\
  (fired sid ("spike_" +:+ pretty k) out.2.2 = true <->
   fired sid ("spike_" +:+ pretty k) st.2 = true \/
   spikes_among k (raised sid out.1) <> []) /\
  (fired sid ("spike_" +:+ pretty k) st.2 = true ->
   spikes_among k (raised sid start.1) <> []) /\
  (forall x t, py_int t = k ->
     spike_due out.2.2 (window_with out.2.2 sid x t) = true ->
     fired sid ("spike_" +:+ pretty k) st.2 = false ->
     spikes_among k (raised sid out.1) = [] ->
     exists alerts a,
       (check_alerts sid x (Some t) out.2).1 = Ok alerts /\ a ∈ alerts /\
       type a = "sudden_stress_spike" /\ alert_timestamp a = t).
Proof.
  intros Hnc start st out.
  assert (Hwf : well_formed st.2) by (apply run_well_formed, well_formed_init).
  assert (Hwf' : well_formed out.2.2).
  { unfold out. destruct st as [w am]. apply run_well_formed, Hwf. }
  assert (Hiff : fired sid ("spike_" +:+ pretty k) out.2.2 = true <->
                 fired sid ("spike_" +:+ pretty k) st.2 = true \/
                 spikes_among k (raised sid out.1) <> []).
  { unfold out. destruct st as [w am]. apply run_spike_fired_iff; assumption. }
  assert (Hcheck : forall x t, exists alerts,
     (check_alerts sid x (Some t) out.2).1 = Ok alerts /\
     ((exists a, a ∈ alerts /\ type a = "sudden_stress_spike") <->
      spike_due out.2.2 (window_with out.2.2 sid x t) = true /\
      fired sid (spike_key t) out.2.2 = false) /\
     (forall a, a ∈ alerts -> type a = "sudden_stress_spike" -> alert_timestamp a = t)).
  { intros x t. destruct out.2 as [w' am']. apply check_spike_iff, Hwf'. }
  split; [|split; [|split; [|split; [|split; [|split]]]]].
  - unfold out. destruct st as [w am]. cbn [snd] in *.
    etransitivity; [apply spikes_among_fired_in|].
    apply run_fires_once; assumption.
  - intros Hfired. unfold out. destruct st as [w am]. cbn [snd] in *.
    destruct (run_fired_silent sid _ cs w am Hwf Hnc Hfired) as [Hsilent _].
    apply length_zero_iff_nil.
    pose proof (spikes_among_fired_in sid k (run cs (w, am)).1) as Hle.
    rewrite Hsilent in Hle. cbn [length] in Hle. lia.
  - apply spike_key_inj.
  - exact Hcheck.
  - exact Hiff.
  - intros Hfired. unfold st, start in *.
    apply (spikes_among_key sid k before w0 __init__ well_formed_init).
    destruct (run_fired_origin sid _ before w0 __init__ well_formed_init Hfired)
      as [Hinit|Hraised]; [|exact Hraised].
    unfold fired in Hinit. cbn in Hinit. rewrite lookup_empty in Hinit. discriminate.
  - intros x t Hk Hdue Hstart Hnone.
    destruct (Hcheck x t) as (alerts & Hrun & Hspike & Hat).
    assert (Hfresh : fired sid (spike_key t) out.2.2 = false).
    { rewrite spike_key_int, Hk.
      destruct (fired sid ("spike_" +:+ pretty k) out.2.2) eqn:Hf; [|reflexivity].
      destruct (proj1 Hiff eq_refl) as [Hs|Hr]; [congruence|contradiction]. }
    destruct (proj2 Hspike (conj Hdue Hfresh)) as (a & Ha & Htype).
    exists alerts, a. split; [exact Hrun|]. split; [exact Ha|].
    split; [exact Htype|]. apply (Hat a Ha Htype).
Qed.
End AlertManager.

Lemma sustained_alert_fires_once_witness :
  let cs := replicate 1000 (CheckAlerts "worker" (lit 8 10 : spec_float) None) in
  let out := run cs (sample_world, alert_manager.__init__) in
  (length (sustained_among (raised "worker" out.1)) <= 1)%nat /\
  length (sustained_among (raised "worker" out.1)) = 1%nat.
Proof.
  intros cs out.
  destruct (sustained_alert_fires_once sample_world [] cs "worker" eq_refl) as (Hle & _).
  split; [exact Hle|]. vm_compute. reflexivity.
Defined.

Lemma spike_alert_once_per_key_witness :
  let sample (n : Z) (t : Q) := CheckAlerts "worker" (lit n 10 : spec_float) (Some t) in
  let cs := [sample 2%Z 1%Q; sample 2%Z 2%Q; sample 2%Z 3%Q; sample 2%Z 4%Q;
             sample 9%Z 5%Q; sample 9%Z 5%Q] in
  let out := run cs (sample_world, alert_manager.__init__) in
  (length (spikes_among 5 (raised "worker" out.1)) <= 1)%nat /\
  length (spikes_among 5 (raised "worker" out.1)) = 1%nat.
Proof.
  intros sample cs out.
  destruct (spike_alert_once_per_key sample_world [] cs "worker" 5 eq_refl) as (Hle & _).
  split; [exact Hle|]. vm_compute. reflexivity.
Defined.

(** The spike test follows the float arithmetic of the code: after a
    sample of score 0.4, a sample of score 0.7 is a spike in exact
    arithmetic, where 0.7 - 0.4 is the threshold 0.3, and is none in
    binary64, where the difference 0.29999999999999993 is below the double
    of 0.3, so that the code raises no alert. *)
Lemma spike_threshold_rounding :
  let cs F `{PyFloat F} := [CheckAlerts "worker" (lit 4 10 : F) (Some 1%Q)] in
  let after F `{PyFloat F} `{PyBuiltins F} :=
    (run (cs F) (sample_world, alert_manager.__init__)).2 in
  spike_due (after Q).2 (window_with (after Q).2 "worker" (lit 7 10) 2) = true /\
  spike_due (after spec_float).2
            (window_with (after spec_float).2 "worker" (lit 7 10) 2) = false /\
  (alert_manager.check_alerts "worker" (lit 7 10) (Some 2%Q) (after spec_float)).1 = Ok [].
Proof. split; [|split]; vm_compute; reflexivity. Qed.

(** C6, as stated, fails, in exact arithmetic and in binary64 alike: of
    two spikes at the distinct moments 5 and 5.5 only the first raises an
    alert, since both have the key spike_5. *)
Lemma spikes_within_a_second_merge :
  let before F `{PyFloat F} :=
    [CheckAlerts "worker" (lit 2 10 : F) (Some 1%Q);
     CheckAlerts "worker" (lit 9 10 : F) (Some 5%Q)] in
  let st := run (before Q) (sample_world, alert_manager.__init__) in
  let st64 := run (before spec_float) (sample_world, alert_manager.__init__) in
  ~ (5 == 5.5)%Q /\
  length (spikes_among 5 (raised "worker" st.1)) = 1%nat /\
  (exists spike, spike_of (window_with st.2.2 "worker" 0.95%Q 5.5) = Some spike /\
     (spike == 0.4)%Q) /\
  spike_due st.2.2 (window_with st.2.2 "worker" 0.95%Q 5.5) = true /\
  (alert_manager.check_alerts "worker" 0.95%Q (Some 5.5%Q) st.2).1 = Ok [] /\
  length (spikes_among 5 (raised "worker" st64.1)) = 1%nat /\
  spike_due st64.2.2 (window_with st64.2.2 "worker" (lit 95 100) 5.5) = true /\
  (alert_manager.check_alerts "worker" (lit 95 100) (Some 5.5%Q) st64.2).1 = Ok [].
Proof.
  split; [discriminate|]. split; [vm_compute; reflexivity|].
  split; [eexists; split; [vm_compute; reflexivity|reflexivity]|].
  repeat split; vm_compute; reflexivity.
Qed.

(** ** More on the fusion engine *)

Section FusionMore.
Import fusion.
Local Open Scope Q_scope.

Lemma Qlt_bool_comp (x x' y y' : Q) : x == x' -> y == y' -> Qlt_bool x y = Qlt_bool x' y'.
Proof.
  intros Hx Hy. apply eq_true_iff_eq. rewrite !Qlt_bool_iff, Hx, Hy. reflexivity.
Qed.

Lemma classify_stress_level_comp (x y : Q) :
  x == y -> _classify_stress_level x = _classify_stress_level y.
Proof.
  intros Hxy. unfold _classify_stress_level.
  change (@flt Q Q_float) with Qlt_bool.
  rewrite (Qlt_bool_comp x y _ _ Hxy (Qeq_refl _)).
  rewrite (Qlt_bool_comp x y _ _ Hxy (Qeq_refl _)). reflexivity.
Qed.

(** All the fields of a dual fusion on the rationals. *)
Lemma dual_fusion_fields (a v : ModalityResult Q) :
  exists r, fuse_stress_scores (Some a) (Some v) = Ok r /\
    stress_score r = Some (fused_score_of a v) /\
    stress_level r = Some (_classify_stress_level (fused_score_of a v)) /\
    confidence r = Some ((conf_of a + conf_of v) / 2) /\
    weights r = Some (weights_of (conf_of a) (conf_of v)) /\
    modality_agreement r = Some (agreement_of (score_of a) (score_of v)) /\
    modalities_used r = Some ["audio"; "video"] /\
    fusion_method r = Some "confidence_weighted_average" /\
    is_Some (audio r) /\ is_Some (video r) /\ error r = None.
Proof.
  cbn [fuse_stress_scores]. unfold _dual_modality_fusion, fused_score_of, weights_of,
    conf_of, score_of, agreement_of.
  set (ac := default (lit 5 10) (mr_confidence a)).
  set (vc := default (lit 5 10) (mr_confidence v)).
  change (@fadd Q Q_float ac vc) with (ac + vc).
  change (@flt Q Q_float (lit 0 1) (ac + vc)) with (Qlt_bool 0 (ac + vc)).
  assert (H2 : truediv (ac + vc) (lit 2 1) = Ok ((ac + vc) / 2)).
  { apply truediv_Q_nonzero. discriminate. }
  destruct (Qlt_bool 0 (ac + vc)) eqn:E.
  - apply Qlt_bool_iff in E.
    assert (Hnz : ~ ac + vc == 0).
    { intros Hz. rewrite Hz in E. discriminate. }
    rewrite !(truediv_Q_nonzero _ _ Hnz), H2.
    eexists. split; [reflexivity|]. repeat split; eauto.
  - rewrite H2. eexists. split; [reflexivity|]. repeat split; eauto.
Qed.

(** X1. On any inputs the fusion returns a result and never raises; the
    modalities it says it used are exactly the inputs that are present,
    audio first, and it echoes exactly those. *)
Theorem fusion_total_modalities (a v : option (ModalityResult Q)) :
  exists r, fuse_stress_scores a v = Ok r /\
    modalities_used r = Some (present a v) /\
    (is_Some (audio r) <-> is_Some a) /\
    (is_Some (video r) <-> is_Some v) /\
    fusion_method r = Some (match a, v with
                            | Some _, Some _ => "confidence_weighted_average"
                            | None, None => "none"
                            | _, _ => "single_modality"
                            end) /\
    (error r = None <-> present a v <> []).
Proof.
  destruct a as [a|], v as [v|].
  - destruct (dual_fusion_fields a v)
      as (r & Hr & _ & _ & _ & _ & _ & Hm & Hf & Ha & Hv & He).
    exists r. split; [exact Hr|]. split; [exact Hm|].
    split; [split; eauto|]. split; [split; eauto|]. split; [exact Hf|].
    split; [discriminate|]. intros _. exact He.
  - eexists. split; [reflexivity|]. cbn.
    repeat split; eauto; try discriminate; intros [? ?]; discriminate.
  - eexists. split; [reflexivity|]. cbn.
    repeat split; eauto; try discriminate; intros [? ?]; discriminate.
  - eexists. split; [reflexivity|]. cbn.
    repeat split; try discriminate; try (intros [? ?]; discriminate); try congruence.
Qed.

(** X2. The fusion does not depend on which input is called audio and
    which video, up to the labels: swapping the two inputs swaps the two
    weights and leaves the fused score, the confidence, the level and the
    agreement as they were. *)
Theorem fusion_symmetric (a v : ModalityResult Q) :
  exists r r' s s' c c' w w',
    fuse_stress_scores (Some a) (Some v) = Ok r /\
    fuse_stress_scores (Some v) (Some a) = Ok r' /\
    stress_score r = Some s /\ stress_score r' = Some s' /\ s == s' /\
    confidence r = Some c /\ confidence r' = Some c' /\ c == c' /\
    weights r = Some w /\ weights r' = Some w' /\ w.1 == w'.2 /\ w.2 == w'.1 /\
    stress_level r = stress_level r' /\
    modality_agreement r = modality_agreement r'.
Proof.
  destruct (dual_fusion_fields a v) as (r & Hr & Hs & Hl & Hc & Hw & Hg & _).
  destruct (dual_fusion_fields v a) as (r' & Hr' & Hs' & Hl' & Hc' & Hw' & Hg' & _).
  assert (Hweights : (weights_of (conf_of a) (conf_of v)).1 == (weights_of (conf_of v) (conf_of a)).2 /\
                     (weights_of (conf_of a) (conf_of v)).2 == (weights_of (conf_of v) (conf_of a)).1).
  { unfold weights_of.
    rewrite (Qlt_bool_comp 0 0 (conf_of v + conf_of a) (conf_of a + conf_of v)
               (Qeq_refl 0) (Qplus_comm _ _)).
    destruct (Qlt_bool 0 (conf_of a + conf_of v)); cbn [fst snd].
    - split; rewrite (Qplus_comm (conf_of v) (conf_of a)); reflexivity.
    - split; reflexivity. }
  destruct Hweights as [Hw1 Hw2].
  assert (Hscore : fused_score_of a v == fused_score_of v a).
  { unfold fused_score_of. rewrite Hw1, Hw2. ring. }
  eexists r, r', _, _, _, _, _, _.
  split; [exact Hr|]. split; [exact Hr'|].
  split; [exact Hs|]. split; [exact Hs'|]. split; [exact Hscore|].
  split; [exact Hc|]. split; [exact Hc'|].
  split; [rewrite (Qplus_comm (conf_of a)); reflexivity|].
  split; [exact Hw|]. split; [exact Hw'|]. split; [exact Hw1|]. split; [exact Hw2|].
  split.
  - rewrite Hl, Hl'. f_equal. apply classify_stress_level_comp, Hscore.
  - rewrite Hg, Hg'. f_equal. unfold agreement_of.
    rewrite (Qabs_Qminus (score_of a) (score_of v)). reflexivity.
Qed.


End FusionMore.

Section FusionLevel.
Import fusion.
Context `{PyFloat F}.

Lemma classify_stress_level_classifier (s : F) :
  _classify_stress_level s = classifier.level (classifier.classify classifier.__init__ s).
Proof.
  unfold _classify_stress_level, classifier.classify, classifier.__init__.
  cbn [classifier.low_threshold classifier.high_threshold].
  destruct (flt s config.STRESS_LOW_THRESHOLD); [reflexivity|].
  destruct (flt s config.STRESS_HIGH_THRESHOLD); reflexivity.
Qed.

(** X4. In every float model the level of a dual fusion is the level the
    stress classifier gives the fused score: the two copies of the
    thresholds agree. *)
Theorem fused_level_is_classified (a v : ModalityResult F) (r : FusedResult F) :
  fuse_stress_scores (Some a) (Some v) = Ok r ->
  exists s, stress_score r = Some s /\
    stress_level r =
      Some (classifier.level (classifier.classify classifier.__init__ s)).
Proof.
  cbn [fuse_stress_scores]. unfold _dual_modality_fusion.
  set (ac := default (lit 5 10) (mr_confidence a)).
  set (vc := default (lit 5 10) (mr_confidence v)).
  destruct (flt (lit 0 1) (fadd ac vc)).
  - destruct (truediv ac (fadd ac vc)) as [wa|e]; [|discriminate].
    cbn [mbind Result_bind].
    destruct (truediv vc (fadd ac vc)) as [wv|e]; [|discriminate].
    cbn [mbind Result_bind mret Result_ret].
    destruct (truediv (fadd ac vc) (lit 2 1)) as [c|e]; [|discriminate].
    cbn [mbind Result_bind mret Result_ret]. intros [= <-].
    eexists. split; [reflexivity|]. cbn [stress_level].
    f_equal. apply classify_stress_level_classifier.
  - cbn [mbind Result_bind mret Result_ret].
    destruct (truediv (fadd ac vc) (lit 2 1)) as [c|e]; [|discriminate].
    cbn [mbind Result_bind mret Result_ret]. intros [= <-].
    eexists. split; [reflexivity|]. cbn [stress_level].
    f_equal. apply classify_stress_level_classifier.
Qed.
End FusionLevel.

Lemma scenario2_binary64_result :
  exists r, fusion.fuse_stress_scores (F:=spec_float) (Some audio2) (Some video2) = Ok r.
Proof. eexists. vm_compute. reflexivity. Defined.

Lemma fused_level_is_classified_witness :
  exists r s, fusion.fuse_stress_scores (F:=spec_float) (Some audio2) (Some video2) = Ok r /\
    fusion.stress_score r = Some s /\
    fusion.stress_level r =
      Some (classifier.level (classifier.classify classifier.__init__ s)).
Proof.
  destruct scenario2_binary64_result as [r Hr].
  destruct (fused_level_is_classified audio2 video2 r Hr) as (s & Hs & Hl).
  exists r, s. split; [exact Hr|]. split; assumption.
Defined.

(** ** The trend of a history *)

Section Trend.
Import stress_trend.
Context `{PyFloat F} `{PyBuiltins F}.

Lemma length_recent_of (h : list F) (window : Z) :
  length (recent_of h window) =
    if decide (0 < window)%Z then Z.to_nat (window `min` Z.of_nat (length h))
    else (length h - Z.to_nat (- window))%nat.
Proof.
  unfold recent_of, session_manager.last_slice.
  destruct (decide (0 < window)%Z) as [Hpos|Hneg].
  - destruct (decide (- (window `min` Z.of_nat (length h)) < 0)%Z) as [Hs|Hs].
    + rewrite length_drop. lia.
    + rewrite length_drop. lia.
  - destruct (decide (- (window `min` Z.of_nat (length h)) < 0)%Z) as [Hs|Hs].
    + lia.
    + rewrite length_drop. f_equal. f_equal. lia.
Qed.

(** What the trend computes from the samples it looks at. *)
Lemma get_stress_trend_recent (h : list F) (window : Z) :
  (2 <= length h)%nat ->
  let recent := recent_of h window in
  let first_half := take (length recent / 2) recent in
  let second_half := drop (length recent / 2) recent in
  get_stress_trend h window =
    if decide (length recent < 2)%nat then Raise ZeroDivisionError
    else
      let change := fsub (mean second_half) (mean first_half) in
      Ok (if flt (fabs change) (lit 5 100) then
            {| trend := "stable"; direction := "neutral"; change := change;
               recent_average := Some (mean second_half) |}
          else if flt (lit 0 1) change then
            {| trend := "increasing"; direction := "up"; change := change;
               recent_average := Some (mean second_half) |}
          else
            {| trend := "decreasing"; direction := "down"; change := change;
               recent_average := Some (mean second_half) |}).
Proof.
  intros Hlen recent first_half second_half. unfold get_stress_trend.
  destruct (decide (length h < 2)%nat) as [Hshort|_]; [lia|].
  fold (recent_of h window). fold recent. fold first_half. fold second_half.
  assert (Hfirst : length first_half = (length recent / 2)%nat).
  { unfold first_half. rewrite length_take.
    pose proof (Nat.Div0.div_le_upper_bound (length recent) 2 (length recent)). lia. }
  assert (Hsecond : length second_half = (length recent - length recent / 2)%nat).
  { unfold second_half. apply length_drop. }
  destruct (decide (length recent < 2)%nat) as [Hfew|Hmany].
  - assert (Hz : (length recent / 2 = 0)%nat) by (apply Nat.div_small; lia).
    rewrite Hfirst, Hz. reflexivity.
  - assert (H1 : (1 <= length recent / 2)%nat).
    { apply Nat.div_le_lower_bound; lia. }
    assert (H2 : (length recent / 2 < length recent)%nat).
    { apply Nat.div_lt; lia. }
    rewrite !truediv_int_nonzero by lia. reflexivity.
Qed.

End Trend.


(** ** More on the session manager *)

Section SessionManagerMore.
Import session_manager.

Lemma total_emotions_assoc (j1 j2 : string) (z1 z2 y : nat) :
  (z1 + (z2 + y) = z2 + (z1 + y))%nat.
Proof. lia. Qed.

Lemma total_emotions_count (emotion : string) (counts : gmap string nat) :
  total_emotions (count_emotion emotion counts) = S (total_emotions counts).
Proof.
  unfold count_emotion, total_emotions.
  destruct (counts !! emotion) as [count|] eqn:Hc; cbn.
  - rewrite <- (insert_delete_eq counts emotion (count + 1)%nat).
    rewrite map_fold_insert_L.
    + rewrite (map_fold_delete_L _ _ emotion count counts).
      * lia.
      * intros. lia.
      * exact Hc.
    + intros. lia.
    + apply lookup_delete_eq.
  - rewrite map_fold_insert_L.
    + lia.
    + intros. lia.
    + exact Hc.
Qed.

Lemma session_ok_fresh n id now : session_ok n id (fresh_session id now n).
Proof.
  unfold session_ok, fresh_session; cbn.
  repeat split; unfold total_emotions; try apply map_fold_empty.
Qed.

Lemma session_ok_updated n key s fused now :
  session_ok n key s -> session_ok n key (updated s fused now).
Proof.
  intros (Hid & Hmax & Hlen & Htotal & Hempty). unfold session_ok, updated; cbn -[deque.append].
  split; [exact Hid|]. split; [exact Hmax|]. split; [|split].
  - rewrite deque_append_items by lia. rewrite length_last_n, length_app. cbn [length].
    rewrite Hmax, Hlen. lia.
  - rewrite total_emotions_count, Htotal. lia.
  - lia.
Qed.

Lemma session_ok_ended n key s now : session_ok n key s -> session_ok n key (ended s now).
Proof. intros H. exact H. Qed.

Lemma session_ok_analytics n key s :
  session_ok n key s -> exists analytics, _calculate_analytics s = Ok analytics.
Proof.
  intros (_ & _ & _ & Htotal & Hempty). apply calculate_analytics_Ok.
  destruct (total_updates s) as [|k] eqn:E; [left; apply Hempty; reflexivity|].
  right. rewrite Htotal. discriminate.
Qed.

Lemma calculate_analytics_data_points (s : Session) (analytics : Analytics) :
  _calculate_analytics s = Ok analytics ->
  data_points analytics =
    match deque.items (stress_history s) with
    | [] => None
    | _ :: _ => Some (length (deque.items (stress_history s)))
    end.
Proof.
  unfold _calculate_analytics.
  destruct (deque.items (stress_history s)) as [|entry entries].
  - cbn. intros [= <-]. reflexivity.
  - cbn [fmap list_fmap]. 
    destruct (truediv _ _) as [avg|e]; [|discriminate]. cbn [mbind Result_bind].
    destruct (truediv _ _) as [variance|e]; [|discriminate]. cbn [mbind Result_bind].
    destruct (truediv _ _) as [ratio|e]; [|discriminate]. cbn [mbind Result_bind].
    destruct (if decide _ then _ else _) as [dist|e]; [|discriminate].
    cbn [mbind Result_bind mret Result_ret]. intros [= <-]. reflexivity.
Qed.

Lemma create_session_spec worker w sm :
  exists s0,
    create_session worker (w, sm) =
      (Ok (entropy w (draws w)),
       (tick (draw w), set_sessions sm (<[entropy w (draws w) := s0]> (sessions sm)))) /\
    session_ok (max_history sm) (entropy w (draws w)) s0 /\
    worker_id s0 = match worker with
                   | Some name => if decide (name = "") then
                       "worker_" +:+ String.substring 0 8 (entropy w (draws w)) else name
                   | None => "worker_" +:+ String.substring 0 8 (entropy w (draws w))
                   end /\
    status s0 = "active" /\ total_updates s0 = 0%nat /\
    current_stress s0 = 0.5%Q /\ current_emotion s0 = "neutral" /\
    start_time s0 = clock w (ticks w) /\ end_time s0 = None /\
    deque.items (stress_history s0) = [].
Proof.
  eexists. split; [reflexivity|]. split; [|repeat split].
  unfold session_ok; cbn. repeat split; unfold total_emotions; try apply map_fold_empty.
Qed.

Lemma end_session_unknown w sm sid :
  sessions sm !! sid = None -> end_session sid (w, sm) = (Ok tt, (w, sm)).
Proof. intros Hs. unfold end_session. run_M. rewrite Hs. reflexivity. Qed.

Lemma delete_session_unknown w sm sid :
  sessions sm !! sid = None -> delete_session sid (w, sm) = (Ok tt, (w, sm)).
Proof. intros Hs. unfold delete_session. run_M. rewrite Hs. reflexivity. Qed.

Lemma get_stress_timeline_known w sm sid s limit :
  sessions sm !! sid = Some s ->
  get_stress_timeline sid limit (w, sm) =
    (Ok (point_of <$>
           (if decide (limit < Z.of_nat (length (deque.items (stress_history s))))%Z
            then last_slice limit (deque.items (stress_history s))
            else deque.items (stress_history s))), (w, sm)).
Proof. intros Hs. unfold get_stress_timeline. run_M. rewrite Hs. reflexivity. Qed.

Lemma store_ok_insert sm key s :
  store_ok sm -> session_ok 1000 key s ->
  store_ok (set_sessions sm (<[key := s]> (sessions sm))).
Proof.
  intros [Hmax Hall] Hs. split; [exact Hmax|].
  intros k s'. cbn [set_sessions sessions].
  destruct (decide (key = k)) as [->|Hne].
  - rewrite lookup_insert_eq. intros [= <-]. exact Hs.
  - rewrite lookup_insert_ne by exact Hne. apply Hall.
Qed.

(** One call from a state the code keeps the store in. *)
Lemma store_perform_step (w : World) (sm : SessionManager) (c : store_call) :
  store_ok sm ->
  (store_perform c (w, sm)).1 = Ok tt /\ store_ok (store_perform c (w, sm)).2.2.
Proof.
  intros Hok. pose proof Hok as [Hmax Hall].
  destruct c as [worker|sid fused|sid|sid limit|sid|sid]; cbn [store_perform].
  - destruct (create_session_spec worker w sm) as (s0 & Hrun & Hs0 & _).
    unfold mbind, M_bind. rewrite Hrun. cbn [fst snd]. split; [reflexivity|].
    apply store_ok_insert; [exact Hok|]. rewrite <- Hmax. exact Hs0.
  - unfold mbind, M_bind.
    destruct (sessions sm !! sid) as [s|] eqn:Hs.
    + rewrite (update_session_known _ _ _ _ _ Hs).
      assert (Hs1 : session_ok 1000 sid (updated s fused (clock w (ticks w))))
        by (apply session_ok_updated, (Hall sid s Hs)).
      erewrite get_session_info_known by apply lookup_insert_eq.
      destruct (session_ok_analytics _ _ _ Hs1) as [analytics ->]. cbn [fst snd].
      split; [reflexivity|]. apply store_ok_insert; assumption.
    + rewrite (update_session_unknown _ _ _ _ Hs).
      assert (Hs1 : session_ok 1000 (entropy w (draws w))
                (updated (fresh_session (entropy w (draws w)) (clock w (ticks w))
                            (max_history sm)) fused (clock w (S (ticks w))))).
      { apply session_ok_updated. rewrite Hmax. apply session_ok_fresh. }
      erewrite get_session_info_known by apply lookup_insert_eq.
      destruct (session_ok_analytics _ _ _ Hs1) as [analytics ->]. cbn [fst snd].
      split; [reflexivity|]. apply store_ok_insert; assumption.
  - unfold mbind, M_bind.
    destruct (sessions sm !! sid) as [s|] eqn:Hs.
    + rewrite (get_session_info_known _ _ _ _ Hs).
      destruct (session_ok_analytics _ _ _ (Hall sid s Hs)) as [analytics ->].
      split; [reflexivity|exact Hok].
    + rewrite (get_session_info_unknown _ _ _ Hs). split; [reflexivity|exact Hok].
  - unfold mbind, M_bind.
    destruct (sessions sm !! sid) as [s|] eqn:Hs.
    + rewrite (get_stress_timeline_known _ _ _ _ _ Hs). split; [reflexivity|exact Hok].
    + rewrite (get_stress_timeline_unknown _ _ _ _ Hs). split; [reflexivity|exact Hok].
  - destruct (sessions sm !! sid) as [s|] eqn:Hs.
    + rewrite (end_session_known _ _ _ _ Hs). cbn [fst snd]. split; [reflexivity|].
      apply store_ok_insert; [exact Hok|]. apply session_ok_ended, (Hall sid s Hs).
    + rewrite (end_session_unknown _ _ _ Hs). split; [reflexivity|exact Hok].
  - destruct (sessions sm !! sid) as [s|] eqn:Hs.
    + rewrite (delete_session_known _ _ _ _ Hs). cbn [fst snd]. split; [reflexivity|].
      split; [exact Hmax|]. intros k s'. cbn [set_sessions sessions].
      destruct (decide (sid = k)) as [->|Hne].
      * rewrite lookup_delete_eq. discriminate.
      * rewrite lookup_delete_ne by exact Hne. apply Hall.
    + rewrite (delete_session_unknown _ _ _ Hs). split; [reflexivity|exact Hok].
Qed.

Lemma store_ok_init : store_ok __init__.
Proof. split; [reflexivity|]. intros key s. cbn. rewrite lookup_empty. discriminate. Qed.


(** X7. For an identifier the store does not know, a query finds
    nothing and ending or deleting does nothing: the information is None,
    the timeline is empty, and neither the store nor the clock is touched. *)
Theorem unknown_session_calls (w : World) (sm : SessionManager) (sid : string) :
  sessions sm !! sid = None ->
  get_session_info sid (w, sm) = (Ok None, (w, sm)) /\
  (forall limit, get_stress_timeline sid limit (w, sm) = (Ok [], (w, sm))) /\
  end_session sid (w, sm) = (Ok tt, (w, sm)) /\
  delete_session sid (w, sm) = (Ok tt, (w, sm)).
Proof.
  intros Hs. split; [apply get_session_info_unknown, Hs|].
  split; [intros limit; apply get_stress_timeline_unknown, Hs|].
  split; [apply end_session_unknown, Hs|apply delete_session_unknown, Hs].
Qed.

Lemma unknown_session_calls_witness :
  get_session_info "nobody" (sample_world, __init__) = (Ok None, (sample_world, __init__)) /\
  end_session "nobody" (sample_world, __init__) = (Ok tt, (sample_world, __init__)).
Proof.
  destruct (unknown_session_calls sample_world __init__ "nobody" eq_refl)
    as (Hinfo & _ & Hend & _).
  split; assumption.
Defined.



(** X9. The timeline of a stored session is its history, oldest entry
    first: the newest [limit] entries for a positive limit, the whole
    history for the limit 0, and the history without its first [-limit]
    entries for a negative limit; asking for it changes nothing. *)
Theorem timeline_is_history_suffix (w : World) (sm : SessionManager) (sid : string)
  (s : Session) (limit : Z) :
  sessions sm !! sid = Some s ->
  let history := deque.items (stress_history s) in
  exists points, get_stress_timeline sid limit (w, sm) = (Ok points, (w, sm)) /\
    ((0 < limit)%Z ->
       points = point_of <$> last_n (Z.to_nat limit) history /\
       length points = (Z.to_nat limit `min` length history)%nat) /\
    (limit = 0%Z -> points = point_of <$> history) /\
    ((limit < 0)%Z -> points = point_of <$> drop (Z.to_nat (- limit)) history).
Proof.
  intros Hs history. rewrite (get_stress_timeline_known _ _ _ _ _ Hs). fold history.
  eexists. split; [reflexivity|]. unfold last_slice, last_n.
  destruct (decide (limit < Z.of_nat (length history))%Z) as [Hlt|Hge].
  - destruct (decide (- limit < 0)%Z) as [Hpos|Hneg].
    + split; [|split; intros; lia]. intros _. split.
      * do 2 f_equal. lia.
      * rewrite length_fmap, length_drop. lia.
    + split; [intros; lia|]. split.
      * intros ->. reflexivity.
      * intros _. reflexivity.
  - split; [|split; [reflexivity|intros; lia]]. intros Hpos. split.
    + replace (length history - Z.to_nat limit)%nat with 0%nat by lia. reflexivity.
    + rewrite length_fmap. lia.
Qed.

Lemma timeline_is_history_suffix_witness :
  let ws := update_many "a" [angry_audio 0.1; angry_audio 0.2; angry_audio 0.3]
              (sample_world, {| sessions := {["a" := fresh_session "a" 0%Q 1000]};
                                max_history := 1000 |}) in
  exists points, (get_stress_timeline "a" 2 ws).1 = Ok points /\ length points = 2%nat.
Proof.
  intros ws.
  assert (Hs : exists s, sessions ws.2 !! "a" = Some s /\
            length (deque.items (stress_history s)) = 3%nat).
  { eexists. split; vm_compute; reflexivity. }
  destruct Hs as (s & Hs & Hlen).
  destruct (timeline_is_history_suffix ws.1 ws.2 "a" s 2 Hs) as (points & Hrun & Hpos & _).
  exists points. destruct ws as [w' sm']. cbn [fst snd] in *. rewrite Hrun.
  split; [reflexivity|]. destruct (Hpos ltac:(lia)) as [_ ->].
  rewrite Hlen. reflexivity.
Defined.

(** X10. A session just created is reported as active, with the neutral
    defaults and no data points; its worker name is the one given, or
    worker_ followed by the first eight characters of its identifier when
    none, or an empty one, is given. *)
Theorem created_session_defaults (w : World) (sm : SessionManager)
  (worker : option string) :
  let new_id := entropy w (draws w) in
  exists ws' info,
    create_session worker (w, sm) = (Ok new_id, ws') /\
    get_session_info new_id ws' = (Ok (Some info), (tick ws'.1, ws'.2)) /\
    info_session_id info = new_id /\
    info_worker_id info =
      (if decide (default "" worker = "")
       then "worker_" +:+ String.substring 0 8 new_id else default "" worker) /\
    info_status info = "active" /\ info_total_updates info = 0%nat /\
    info_current_stress info = 0.5%Q /\ info_current_emotion info = "neutral" /\
    info_duration info = (clock w (S (ticks w)) - clock w (ticks w))%Q /\
    info_analytics info = default_analytics /\
    (forall other, other <> new_id -> sessions ws'.2 !! other = sessions sm !! other).
Proof.
  intros new_id.
  destruct (create_session_spec worker w sm)
    as (s0 & Hrun & Hok & Hworker & Hstatus & Hn & Hstress & Hemo & Hstart & _ & Hitems).
  rewrite Hrun. eexists _, _. split; [reflexivity|].
  erewrite get_session_info_known by apply lookup_insert_eq.
  assert (Ha : _calculate_analytics s0 = Ok default_analytics).
  { unfold _calculate_analytics. rewrite Hitems. reflexivity. }
  rewrite Ha. split; [reflexivity|].
  cbn [info_of info_session_id info_worker_id info_status info_total_updates
       info_current_stress info_current_emotion info_duration info_analytics].
  destruct Hok as (Hid & _).
  split; [exact Hid|]. split.
  { rewrite Hworker. destruct worker as [name|]; reflexivity. }
  split; [exact Hstatus|]. split; [exact Hn|]. split; [exact Hstress|].
  split; [exact Hemo|]. split; [rewrite Hstart; reflexivity|]. split; [reflexivity|].
  intros other Hne. cbn [snd set_sessions sessions].
  apply lookup_insert_ne. intros Heq. apply Hne. symmetry. exact Heq.
Qed.

(** X11. Deleting a stored session forgets it and nothing else: the
    session is unknown afterwards, so that its information is None and its
    timeline empty, the other sessions are left as they were, and deleting
    it again does nothing. *)
Theorem delete_forgets (w : World) (sm : SessionManager) (sid : string) (s : Session) :
  sessions sm !! sid = Some s ->
  exists sm',
    delete_session sid (w, sm) = (Ok tt, (w, sm')) /\
    sessions sm' !! sid = None /\
    (forall other, other <> sid -> sessions sm' !! other = sessions sm !! other) /\
    max_history sm' = max_history sm /\
    delete_session sid (w, sm') = (Ok tt, (w, sm')) /\
    get_session_info sid (w, sm') = (Ok None, (w, sm')) /\
    (forall limit, get_stress_timeline sid limit (w, sm') = (Ok [], (w, sm'))).
Proof.
  intros Hs. rewrite (delete_session_known _ _ _ _ Hs). eexists. split; [reflexivity|].
  assert (Hnone : sessions (set_sessions sm (delete sid (sessions sm))) !! sid = None)
    by apply lookup_delete_eq.
  split; [exact Hnone|]. split.
  { intros other Hne. cbn [set_sessions sessions]. apply lookup_delete_ne. congruence. }
  split; [reflexivity|].
  split; [apply delete_session_unknown, Hnone|].
  split; [apply get_session_info_unknown, Hnone|].
  intros limit. apply get_stress_timeline_unknown, Hnone.
Qed.

Lemma delete_forgets_witness :
  exists sm', delete_session "a" (sample_world, small_manager) = (Ok tt, (sample_world, sm')) /\
    get_session_info "a" (sample_world, sm') = (Ok None, (sample_world, sm')).
Proof.
  destruct (delete_forgets sample_world small_manager "a" (fresh_session "a" 0%Q 2) eq_refl)
    as (sm' & Hrun & _ & _ & _ & _ & Hinfo & _).
  exists sm'. split; assumption.
Defined.
End SessionManagerMore.

(** ** More on the alert manager *)

Section AlertManagerMore.
Import alert_manager.
Context `{PyFloat F} `{PyBuiltins F}.

Lemma check_step_length (am : AlertManager F) history alerts x t :
  (length (check_step am history alerts x t).1.1 <= 2)%nat.
Proof.
  unfold check_step. cbn [fst snd]. rewrite length_app.
  destruct (sustained_step _ _ _ _).1, (spike_step _ _ _).1; cbn; lia.
Qed.

Lemma deque_append_bounded {A} (d : deque.t A) (x : A) (n : nat) :
  deque.maxlen d = n -> (length (deque.items d) <= n)%nat ->
  (length (deque.items (deque.append d x)) <= n)%nat.
Proof.
  intros Hmax Hlen. unfold deque.append. cbn [deque.items].
  destruct (decide _) as [Hfull|Hroom].
  - rewrite length_drop, length_app. cbn [length]. lia.
  - rewrite length_app in *. cbn [length] in *. lia.
Qed.

Lemma perform_bounded (w : World) (am : AlertManager F) (c : call F) :
  well_formed am -> windows_bounded am -> configured am ->
  let r := perform c (w, am) in
  windows_bounded r.2.2 /\ configured r.2.2 /\
  exists alerts, r.1 = Ok alerts /\ (length alerts <= 2)%nat.
Proof.
  intros [Hwf Hmax] Hb Hc. destruct c as [sid x ts|sid|sid limit]; cbn [perform].
  - assert (Hspec : forall w t,
      let r := check_alerts sid x (Some t) (w, am) in
      windows_bounded r.2.2 /\ configured r.2.2 /\
      exists alerts, r.1 = Ok alerts /\ (length alerts <= 2)%nat).
    { intros w' t. cbv zeta.
      rewrite (check_alerts_spec w' am sid x t (proj1 (Hwf sid))). cbn [fst snd].
      split; [|split; [exact Hc|]].
      - intros sid' history'. cbn [set_active_alerts set_session_history session_history].
        destruct (decide (sid = sid')) as [<-|Hne].
        + rewrite lookup_insert_eq. intros [= <-]. unfold check_step. cbn [fst snd].
          destruct (session_history am !! sid) as [history|] eqn:Hh; cbn [default].
          * apply deque_append_bounded; [apply (Hmax sid), Hh|apply (Hb sid), Hh].
          * apply deque_append_bounded; [reflexivity|cbn [deque.new deque.items length]; lia].
        + rewrite lookup_insert_ne by exact Hne. apply Hb.
      - eexists. split; [reflexivity|]. apply check_step_length. }
    destruct ts as [t|]; [apply Hspec|]. rewrite check_alerts_now. apply Hspec.
  - unfold clear_session. run_M.
    cbn [session_history active_alerts set_active_alerts set_session_history].
    split; [|split; [exact Hc|eexists; split; [reflexivity|cbn; lia]]].
    intros sid' history'.
    cbn [session_history active_alerts set_active_alerts set_session_history].
    destruct (decide (sid = sid')) as [<-|Hne].
    + rewrite lookup_delete_eq. discriminate.
    + rewrite lookup_delete_ne by exact Hne. apply Hb.
  - unfold get_alert_history. run_M.
    destruct (active_alerts am !! sid); run_M; cbn [fst snd];
      (split; [exact Hb|split; [exact Hc|eexists; split; [reflexivity|cbn; lia]]]).
Qed.

Lemma configured_init : configured (__init__ (F:=F)).
Proof. repeat split. Qed.

Lemma windows_bounded_init : windows_bounded (__init__ (F:=F)).
Proof. intros sid history. cbn. rewrite lookup_empty. discriminate. Qed.

Lemma run_never_raises (cs : list (call F)) : forall w am,
  well_formed am -> windows_bounded am -> configured am ->
  let out := run cs (w, am) in
  Forall (fun entry => exists alerts, entry.2 = Ok alerts /\ (length alerts <= 2)%nat) out.1 /\
  well_formed out.2.2 /\ windows_bounded out.2.2 /\ configured out.2.2.
Proof.
  induction cs as [|c cs IH]; intros w am Hwf Hb Hc.
  - cbn. split; [constructor|]. split; [exact Hwf|]. split; [exact Hb|exact Hc].
  - cbn [run]. cbv zeta.
    destruct (perform_bounded w am c Hwf Hb Hc) as (Hb' & Hc' & Hok).
    pose proof (run_well_formed [c] w am Hwf) as Hwf'. cbn [run fst snd] in Hwf'.
    destruct (perform c (w, am)) as [r [w' am']]. cbn [fst snd] in *.
    destruct (IH w' am' Hwf' Hb' Hc') as (Hall & Hrest).
    split; [constructor; [exact Hok|exact Hall]|exact Hrest].
Qed.

(** X12. Whatever calls are made to an alert manager, with whatever
    scores and timestamps and in every float model, none of them raises
    and a check never hands back more than two alerts; every window stays
    within 1000 samples, a session has a window exactly when it has a
    record of fired alerts, and the thresholds stay those of the
    configuration. *)
Theorem alert_manager_never_raises (w : World) (cs : list (call F)) :
  let out := run cs (w, __init__) in
  Forall (fun entry => exists alerts, entry.2 = Ok alerts /\ (length alerts <= 2)%nat) out.1 /\
  (forall sid, is_Some (session_history out.2.2 !! sid) <->
               is_Some (active_alerts out.2.2 !! sid)) /\
  (forall sid history, session_history out.2.2 !! sid = Some history ->
     deque.maxlen history = 1000%nat /\ (length (deque.items history) <= 1000)%nat) /\
  high_stress_threshold out.2.2 = lit 7 10 /\ high_stress_duration out.2.2 = 180%Z /\
  spike_threshold out.2.2 = lit 3 10 /\ spike_window out.2.2 = 30%Z.
Proof.
  destruct (run_never_raises cs w __init__ well_formed_init windows_bounded_init
              configured_init) as (Hall & [Hwf Hmax] & Hb & Hc).
  split; [exact Hall|]. split; [exact Hwf|]. split; [|exact Hc].
  intros sid history Hh. split; [apply (Hmax sid), Hh|apply (Hb sid), Hh].
Qed.

(** *** The record of fired alerts *)

Lemma sustained_step_fired_keys (am : AlertManager F) history t alerts :
  (sustained_step am history t alerts).2.*1 =
    (alerts.*1 ++ (key_of <$> option_list (sustained_step am history t alerts).1))%list.
Proof.
  unfold sustained_step.
  destruct (sustained_due am history t && negb (contains alerts SUSTAINED)); cbn [fst snd].
  - rewrite fmap_app. reflexivity.
  - cbn. rewrite app_nil_r. reflexivity.
Qed.

Lemma spike_step_fired_keys (am : AlertManager F) history alerts :
  (spike_step am history alerts).2.*1 =
    (alerts.*1 ++ (key_of <$> option_list (spike_step am history alerts).1))%list.
Proof.
  unfold spike_step.
  destruct (spike_of history) as [spike|]; [|cbn; rewrite app_nil_r; reflexivity].
  destruct (last history) as [newest|]; [|cbn; rewrite app_nil_r; reflexivity].
  destruct (fle (spike_threshold am) spike &&
            negb (contains alerts (spike_key (timestamp newest)))); cbn [fst snd].
  - rewrite fmap_app. reflexivity.
  - cbn. rewrite app_nil_r. reflexivity.
Qed.

Lemma check_step_fired_keys (am : AlertManager F) history alerts x t :
  (check_step am history alerts x t).2.*1 =
    (alerts.*1 ++ (key_of <$> (check_step am history alerts x t).1.1))%list.
Proof.
  unfold check_step. cbn [fst snd].
  rewrite spike_step_fired_keys, sustained_step_fired_keys, fmap_app, app_assoc.
  reflexivity.
Qed.

Lemma perform_fired_keys (w : World) (am : AlertManager F) (c : call F) (sid : string) :
  well_formed am -> no_clear sid [c] = true ->
  let r := perform c (w, am) in
  fired_keys sid r.2.2 = (fired_keys sid am ++ (key_of <$> alerts_for sid (c, r.1)))%list.
Proof.
  intros Hwf Hnc. pose proof Hwf as [Hdom Hmax].
  destruct c as [sid' x ts|sid'|sid' limit]; cbn [perform].
  - assert (Hspec : exists w' t, check_alerts sid' x ts (w, am) =
                      check_alerts sid' x (Some t) (w', am)).
    { destruct ts as [t|]; [exists w, t; reflexivity|].
      eexists _, _. apply check_alerts_now. }
    destruct Hspec as (w' & t & ->).
    rewrite check_alerts_spec by (apply Hdom). cbn [fst snd].
    unfold fired_keys, alerts_for.
    cbn [session_history active_alerts set_active_alerts set_session_history].
    destruct (decide (sid' = sid)) as [->|Hne].
    + rewrite lookup_insert_eq, bool_decide_eq_true_2 by reflexivity.
      unfold from_option at 1, id. rewrite check_step_fired_keys. f_equal.
      destruct (session_history am !! sid) as [h|] eqn:Hh; [reflexivity|].
      destruct (active_alerts am !! sid) as [d|] eqn:Hd; [|reflexivity].
      destruct (proj2 (Hdom sid) (ex_intro _ d Hd)) as [h Hh']. congruence.
    + rewrite lookup_insert_ne, bool_decide_eq_false_2 by exact Hne.
      cbn [fmap list_fmap]. rewrite app_nil_r. reflexivity.
  - cbn [no_clear forallb] in Hnc. rewrite andb_true_r in Hnc.
    apply negb_true_iff, bool_decide_eq_false in Hnc.
    unfold clear_session, fired_keys. run_M.
    cbn [session_history active_alerts set_active_alerts set_session_history alerts_for
         fmap list_fmap].
    rewrite lookup_delete_ne by exact Hnc. rewrite app_nil_r. reflexivity.
  - unfold get_alert_history, fired_keys. run_M.
    destruct (active_alerts am !! sid') eqn:Hd'; run_M; cbn [fst snd alerts_for fmap list_fmap];
      rewrite app_nil_r; reflexivity.
Qed.

Lemma run_fired_keys sid (cs : list (call F)) : forall w am,
  well_formed am -> no_clear sid cs = true ->
  fired_keys sid (run cs (w, am)).2.2 =
    (fired_keys sid am ++ (key_of <$> raised sid (run cs (w, am)).1))%list.
Proof.
  induction cs as [|c cs IH]; intros w am Hwf Hnc.
  - cbn. rewrite app_nil_r. reflexivity.
  - rewrite no_clear_cons in Hnc. apply andb_true_iff in Hnc as [Hc Hcs].
    cbn [run fst snd]. unfold raised. cbn [mbind list_bind].
    pose proof (perform_fired_keys w am c sid Hwf Hc) as Hstep. cbv zeta in Hstep.
    pose proof (run_well_formed [c] w am Hwf) as Hwf'. cbn [run fst snd] in Hwf'.
    destruct (perform c (w, am)) as [r [w' am']]. cbn [fst snd] in *.
    rewrite (IH w' am' Hwf' Hcs), Hstep, fmap_app, app_assoc. reflexivity.
Qed.

(** X13. As long as a session is not cleared, its alert history is the
    list of the keys of the alerts raised for it since the manager was
    created, oldest first, cut to its first [limit] keys: the oldest ones,
    not the most recent; asking for it changes nothing.  For a session the
    manager has not seen, it is empty. *)
Theorem alert_history_is_raised_keys (w0 : World) (cs : list (call F)) (sid : string)
  (limit : Z) :
  no_clear sid cs = true ->
  let out := run cs (w0, __init__) in
  let keys := key_of <$> raised sid out.1 in
  get_alert_history sid limit out.2 = (Ok (first_slice limit keys), out.2) /\
  ((0 <= limit)%Z -> first_slice limit keys = take (Z.to_nat limit) keys) /\
  (forall other, session_history out.2.2 !! other = None ->
     get_alert_history other limit out.2 = (Ok [], out.2)).
Proof.
  intros Hnc out keys.
  assert (Hwf : well_formed out.2.2) by (apply run_well_formed, well_formed_init).
  pose proof (run_fired_keys sid cs w0 __init__ well_formed_init Hnc) as Hkeys.
  fold out in Hkeys. fold keys in Hkeys.
  change (fired_keys sid __init__) with (@nil string) in Hkeys. cbn [app] in Hkeys.
  destruct out.2 as [w am] eqn:Hout. cbn [snd] in *.
  split; [|split].
  - unfold get_alert_history. run_M. unfold fired_keys in Hkeys.
    destruct (active_alerts am !! sid) as [d|].
    + change (d.*1 = keys) in Hkeys. rewrite Hkeys. reflexivity.
    + change ([] = keys) in Hkeys. rewrite <- Hkeys. unfold first_slice.
      destruct (decide (limit < 0)%Z); rewrite take_nil; reflexivity.
  - intros Hpos. unfold first_slice. rewrite decide_False by lia. reflexivity.
  - intros other Hnone. unfold get_alert_history. run_M.
    destruct (active_alerts am !! other) as [d|] eqn:Hd; [|reflexivity].
    destruct Hwf as [Hdom _].
    destruct (proj2 (Hdom other) (ex_intro _ d Hd)) as [h Hh]. congruence.
Qed.
End AlertManagerMore.

Lemma alert_history_is_raised_keys_witness :
  let sample (n : Z) (t : Q) := CheckAlerts "worker" (lit n 10 : spec_float) (Some t) in
  let out := run [sample 2%Z 1%Q; sample 9%Z 5%Q; sample 9%Z 6%Q]
                 (sample_world, alert_manager.__init__) in
  (alert_manager.get_alert_history "worker" 1 out.2).1 = Ok ["spike_5"] /\
  (alert_manager.get_alert_history "worker" 10 out.2).1
    = Ok ["spike_5"; "spike_6"].
Proof.
  intros sample out.
  destruct (alert_history_is_raised_keys sample_world
              [sample 2%Z 1%Q; sample 9%Z 5%Q; sample 9%Z 6%Q] "worker" 1 eq_refl)
    as (Hone & _).
  destruct (alert_history_is_raised_keys sample_world
              [sample 2%Z 1%Q; sample 9%Z 5%Q; sample 9%Z 6%Q] "worker" 10 eq_refl)
    as (Hten & _).
  fold out in Hone, Hten. rewrite Hone, Hten. split; vm_compute; reflexivity.
Defined.

(** ** The first sample of a session *)

Section FirstSample.
Import alert_manager.
Context `{PyFloat F} `{PyBuiltins F}.

Lemma first_check_step (am : AlertManager F) (x : F) (t : Q) :
  fle (lit 8 10) (fquot (lit 1 1) (lit 1 1)) = true ->
  fle (lit 8 10) (fquot (lit 0 1) (lit 1 1)) = false ->
  (0 <= high_stress_duration am)%Z ->
  (check_step am (deque.new 1000) [] x t).1.1 =
    if fle (high_stress_threshold am) x then [sustained_alert am t] else [].
Proof.
  intros Hone Hzero Hd.
  assert (Hcut : Qle_bool (t - inject_Z (high_stress_duration am)) t = true).
  { apply Qle_bool_iff. assert (0 <= inject_Z (high_stress_duration am))%Q.
    { change 0%Q with (inject_Z 0). rewrite <- Zle_Qle. exact Hd. }
    lra. }
  unfold check_step. cbn [fst snd].
  change (deque.items (deque.append (deque.new 1000) {| score := x; timestamp := t |}))
    with [{| score := x; timestamp := t |}].
  unfold sustained_step, sustained_due.
  rewrite !filter_cons, !filter_nil. cbn [score timestamp]. rewrite Hcut. cbn [andb].
  rewrite !(decide_True (P := true = true)) by reflexivity.
  destruct (fle (high_stress_threshold am) x) eqn:Hx.
  - rewrite !(decide_True (P := true = true)) by reflexivity.
    cbn [length]. change (Z.of_nat 1) with 1%Z. rewrite Hone. reflexivity.
  - rewrite !(decide_False (P := false = true)) by discriminate.
    cbn [length]. change (Z.of_nat 1) with 1%Z. change (Z.of_nat 0) with 0%Z.
    rewrite Hzero. reflexivity.
Qed.

(** X14. In a float model in which 1/1 reaches 0.8 and 0/1 does not, the
    first sample of a session, and the first one after the session was
    cleared, raises the sustained-high-stress alert at once when its score
    reaches the threshold, however short the time the worker was observed,
    and raises no alert otherwise; it never raises a spike alert. *)
Theorem first_sample_alert (w : World) (am : AlertManager F) (sid : string) (x : F) (t : Q) :
  fle (lit 8 10) (fquot (lit 1 1) (lit 1 1)) = true ->
  fle (lit 8 10) (fquot (lit 0 1) (lit 1 1)) = false ->
  well_formed am -> (0 <= high_stress_duration am)%Z ->
  let first := if fle (high_stress_threshold am) x
               then [sustained_alert am t] else [] in
  (session_history am !! sid = None ->
     (check_alerts sid x (Some t) (w, am)).1 = Ok first) /\
  (check_alerts sid x (Some t) (clear_session sid (w, am)).2).1 = Ok first.
Proof.
  intros Hone Hzero Hwf Hd first.
  assert (Hfirst : forall w' am', well_formed am' ->
            high_stress_threshold am' = high_stress_threshold am ->
            high_stress_duration am' = high_stress_duration am ->
            session_history am' !! sid = None ->
            (check_alerts sid x (Some t) (w', am')).1 = Ok first).
  { intros w' am' [Hdom Hmax] Hthr Hdur Hnone.
    rewrite (check_alerts_spec w' am' sid x t (proj1 (Hdom sid))). cbn [fst].
    rewrite Hnone. cbn [default].
    rewrite (first_check_step am' x t Hone Hzero) by (rewrite Hdur; exact Hd).
    unfold first, sustained_alert. rewrite Hthr, Hdur. reflexivity. }
  split; [intros Hnone; apply Hfirst; [exact Hwf|reflexivity|reflexivity|exact Hnone]|].
  pose proof (run_well_formed [ClearSession sid] w am Hwf) as Hwf'.
  cbn [run perform fst snd] in Hwf'.
  unfold clear_session in *. revert Hwf'. run_M. intros Hwf'.
  apply Hfirst; [exact Hwf'|reflexivity|reflexivity|].
  cbn [session_history active_alerts set_active_alerts set_session_history].
  apply lookup_delete_eq.
Qed.

(** X15. The alert manager keeps the sessions apart: a check or a clear
    of one session leaves the window and the fired keys of every other
    session as they were, and so does not change what a later check of
    another session hands back. *)
Theorem alert_sessions_isolated (w : World) (am : AlertManager F) (c : call F)
  (sid other : string) (y : F) (t : Q) :
  well_formed am ->
  c = ClearSession sid \/ (exists x ts, c = CheckAlerts sid x ts) ->
  other <> sid ->
  let after := (perform c (w, am)).2 in
  session_history after.2 !! other = session_history am !! other /\
  active_alerts after.2 !! other = active_alerts am !! other /\
  (check_alerts other y (Some t) after).1 = (check_alerts other y (Some t) (w, am)).1.
Proof.
  intros Hwf Hc Hne after.
  assert (Hwf' : well_formed after.2).
  { pose proof (run_well_formed [c] w am Hwf) as Hrun. exact Hrun. }
  assert (Hframe : session_history after.2 !! other = session_history am !! other /\
                   active_alerts after.2 !! other = active_alerts am !! other /\
                   high_stress_threshold after.2 = high_stress_threshold am /\
                   high_stress_duration after.2 = high_stress_duration am /\
                   spike_threshold after.2 = spike_threshold am).
  { unfold after. destruct Hc as [->|(x & ts & ->)]; cbn [perform].
    - unfold clear_session. run_M.
      cbn [session_history active_alerts set_active_alerts set_session_history
           high_stress_threshold high_stress_duration spike_threshold].
      rewrite !lookup_delete_ne by (intros Heq; apply Hne; symmetry; exact Heq).
      repeat split.
    - assert (Hspec : exists w' t', check_alerts sid x ts (w, am) =
                        check_alerts sid x (Some t') (w', am)).
      { destruct ts as [t'|]; [exists w, t'; reflexivity|].
        eexists _, _. apply check_alerts_now. }
      destruct Hspec as (w' & t' & ->).
      rewrite check_alerts_spec by (apply (proj1 Hwf)). cbn [fst snd].
      cbn [session_history active_alerts set_active_alerts set_session_history
           high_stress_threshold high_stress_duration spike_threshold].
      rewrite !lookup_insert_ne by (intros Heq; apply Hne; symmetry; exact Heq).
      repeat split. }
  destruct Hframe as (Hh & Ha & Hthr & Hdur & Hspk).
  split; [exact Hh|]. split; [exact Ha|].
  destruct after as [w1 am1]. cbn [snd] in *.
  rewrite (check_alerts_spec w1 am1 other y t (proj1 (proj1 Hwf' other))).
  rewrite (check_alerts_spec w am other y t (proj1 (proj1 Hwf other))).
  cbn [fst]. rewrite Hh, Ha. f_equal.
  unfold check_step, sustained_step, sustained_due, sustained_alert, spike_step.
  rewrite Hthr, Hdur, Hspk. reflexivity.
Qed.
End FirstSample.

Lemma first_sample_alert_witness :
  exists a,
    (alert_manager.check_alerts "worker" (lit 9 10 : spec_float) (Some 0%Q)
       (sample_world, alert_manager.__init__)).1 = Ok [a] /\
    alert_manager.type a = "sustained_high_stress".
Proof.
  assert (Hone : fle (lit 8 10) (fquot (lit 1 1) (lit 1 1) : spec_float) = true)
    by (vm_compute; reflexivity).
  assert (Hzero : fle (lit 8 10) (fquot (lit 0 1) (lit 1 1) : spec_float) = false)
    by (vm_compute; reflexivity).
  destruct (first_sample_alert sample_world alert_manager.__init__ "worker"
              (lit 9 10 : spec_float) 0%Q Hone Hzero well_formed_init
              ltac:(discriminate)) as [Hfirst _].
  eexists. split; [apply Hfirst; reflexivity|reflexivity].
Defined.

Lemma alert_sessions_isolated_witness :
  let c := CheckAlerts "a" (lit 9 10 : spec_float) (Some 1%Q) in
  (alert_manager.check_alerts "b" (lit 2 10) (Some 2%Q)
     (perform c (sample_world, alert_manager.__init__)).2).1
  = (alert_manager.check_alerts "b" (lit 2 10) (Some 2%Q)
       (sample_world, alert_manager.__init__)).1.
Proof.
  intros c.
  destruct (alert_sessions_isolated sample_world alert_manager.__init__ c "a" "b"
              (lit 2 10) 2%Q well_formed_init
              (or_intror (ex_intro _ _ (ex_intro _ _ eq_refl))) ltac:(discriminate))
    as (_ & _ & Hsame).
  exact Hsame.
Defined.

(** ** The handler *)

Section Handler.
Import websocket_handler.

Lemma fuse_stress_scores_Ok (a v : option (fusion.ModalityResult Q)) :
  exists r, fusion.fuse_stress_scores a v = Ok r.
Proof.
  destruct a as [a|], v as [v|]; try (eexists; reflexivity).
  destruct (dual_fusion_fields a v) as (r & Hr & _). exists r. exact Hr.
Qed.

Lemma update_session_Ok (w : World) (sm : session_manager.SessionManager) (sid : string)
  (fused : fusion.FusedResult Q) :
  store_ok sm ->
  exists info w' sm',
    session_manager.update_session sid fused (w, sm) = (Ok (Some info), (w', sm')) /\
    store_ok sm' /\
    session_manager.info_session_id info =
      (if session_manager.sessions sm !! sid is Some _ then sid else entropy w (draws w)) /\
    is_Some (session_manager.sessions sm' !! session_manager.info_session_id info) /\
    (forall other, other <> session_manager.info_session_id info ->
       session_manager.sessions sm' !! other = session_manager.sessions sm !! other).
Proof.
  intros Hok. pose proof Hok as [Hmax Hall].
  destruct (session_manager.sessions sm !! sid) as [s|] eqn:Hs.
  - rewrite (update_session_known _ _ _ _ _ Hs).
    assert (Hs1 : session_ok 1000 sid (updated s fused (clock w (ticks w))))
      by (apply session_ok_updated, (Hall sid s Hs)).
    erewrite get_session_info_known by apply lookup_insert_eq.
    destruct (session_ok_analytics _ _ _ Hs1) as [analytics ->].
    eexists _, _, _. split; [reflexivity|]. split; [apply store_ok_insert; assumption|].
    destruct (Hall sid s Hs) as (Hid & _).
    cbn [info_of session_manager.info_session_id updated session_manager.session_id].
    split; [exact Hid|]. rewrite Hid.
    cbn [session_manager.set_sessions session_manager.sessions].
    split; [rewrite lookup_insert_eq; eauto|].
    intros other Hne. apply lookup_insert_ne. congruence.
  - destruct (update_session_unknown_result w sm sid fused Hs) as [analytics Hrun].
    rewrite Hrun. eexists _, _, _. split; [reflexivity|]. split.
    { apply store_ok_insert; [exact Hok|]. apply session_ok_updated.
      rewrite Hmax. apply session_ok_fresh. }
    cbn [info_of session_manager.info_session_id updated fresh_session
         session_manager.session_id].
    split; [reflexivity|].
    cbn [session_manager.set_sessions session_manager.sessions].
    split; [rewrite lookup_insert_eq; eauto|].
    intros other Hne. apply lookup_insert_ne. congruence.
Qed.

Lemma check_alerts_Ok (w : World) (am : alert_manager.AlertManager Q) (sid : string)
  (x : Q) (ts : option Q) :
  well_formed am ->
  exists alerts w' am',
    alert_manager.check_alerts sid x ts (w, am) = (Ok alerts, (w', am')) /\
    well_formed am' /\ is_Some (alert_manager.session_history am' !! sid) /\
    (forall other, other <> sid ->
       alert_manager.session_history am' !! other = alert_manager.session_history am !! other).
Proof.
  intros Hwf.
  pose proof (run_well_formed [CheckAlerts sid x ts] w am Hwf) as Hwf'.
  cbn [run perform fst snd] in Hwf'.
  assert (Hspec : exists w' t, alert_manager.check_alerts sid x ts (w, am) =
                    alert_manager.check_alerts sid x (Some t) (w', am)).
  { destruct ts as [t|]; [exists w, t; reflexivity|].
    eexists _, _. apply check_alerts_now. }
  destruct Hspec as (w' & t & Heq). rewrite Heq in *.
  rewrite check_alerts_spec in * by (apply (proj1 Hwf)).
  eexists _, _, _. split; [reflexivity|]. split; [exact Hwf'|].
  cbn [alert_manager.session_history alert_manager.set_active_alerts
       alert_manager.set_session_history].
  split; [rewrite lookup_insert_eq; eauto|].
  intros other Hne. apply lookup_insert_ne. congruence.
Qed.

Lemma emit_alerts_spec (alerts : list alert_manager.Alert) : forall w h,
  emit_alerts alerts (w, h) =
    (Ok tt, (w, {| session_manager := session_manager h;
                   alert_manager := alert_manager h;
                   emitted := (emitted h ++ (alert <$> alerts))%list |})).
Proof.
  induction alerts as [|a alerts IH]; intros w h.
  - cbn. rewrite app_nil_r. destruct h; reflexivity.
  - cbn [emit_alerts]. unfold emit. run_M. rewrite IH.
    cbn [session_manager alert_manager emitted fmap list_fmap].
    rewrite <- app_assoc. reflexivity.
Qed.

(** What a fusion request does when its three steps return. *)
Lemma handle_fusion_request_spec w h data fused info w1 sm1 alerts w2 am2 :
  fusion.fuse_stress_scores (audio_result data) (video_result data) = Ok fused ->
  session_manager.update_session (session_id data) fused (w, session_manager h)
    = (Ok info, (w1, sm1)) ->
  alert_manager.check_alerts (session_id data)
    (default 0.5%Q (fusion.stress_score fused)) None (w1, alert_manager h)
    = (Ok alerts, (w2, am2)) ->
  handle_fusion_request data (w, h) =
    (Ok tt, (w2, {| session_manager := sm1; alert_manager := am2;
                    emitted := (emitted h ++ [stress_update fused; session_update info]
                                ++ (alert <$> alerts))%list |})).
Proof.
  intros Hfuse Hupd Hchk.
  unfold handle_fusion_request, try_except, on_session_manager, on_alert_manager, emit.
  run_M. rewrite Hfuse. cbn [fst snd]. rewrite Hupd. cbn [fst snd session_manager
    alert_manager emitted]. rewrite Hchk. cbn [fst snd session_manager alert_manager emitted].
  rewrite emit_alerts_spec. cbn [session_manager alert_manager emitted].
  rewrite <- !app_assoc. reflexivity.
Qed.

(** What a call does from a state the handler keeps: it returns, keeps
    the state, and reports no exception. *)
Lemma handler_perform_step (w : World) (h : WebSocketHandler) (c : handler_call) :
  handler_ok h ->
  let r := handler_perform c (w, h) in
  r.1 = Ok tt /\ handler_ok r.2.2 /\
  exists events, emitted r.2.2 = (emitted h ++ events)%list /\
    Forall (fun event => is_exception event = false) events.
Proof.
  intros [Hok Hwf]. destruct c as [|sid|data|sid|sid limit]; cbn [handler_perform].
  - unfold handle_connect, on_session_manager, emit. run_M.
    destruct (create_session_spec None w (session_manager h)) as (s0 & Hrun & Hs0 & _).
    rewrite Hrun. cbn [fst snd session_manager alert_manager emitted].
    split; [reflexivity|]. split.
    + split; [|exact Hwf]. apply store_ok_insert; [exact Hok|].
      destruct Hok as [Hmax _]. rewrite <- Hmax. exact Hs0.
    + eexists. split; [reflexivity|]. repeat constructor.
  - unfold handle_disconnect.
    assert (Hnothing : (mret tt : M WebSocketHandler unit) (w, h) = (Ok tt, (w, h)))
      by reflexivity.
    destruct sid as [sid|].
    2:{ rewrite Hnothing. cbn [fst snd]. split; [reflexivity|]. split; [split; assumption|].
        exists []. rewrite app_nil_r. split; [reflexivity|constructor]. }
    destruct (decide (sid = "")).
    { rewrite Hnothing. cbn [fst snd]. split; [reflexivity|]. split; [split; assumption|].
      exists []. rewrite app_nil_r. split; [reflexivity|constructor]. }
    unfold on_session_manager. cbn [fst snd].
    pose proof (store_perform_step w (session_manager h) (EndSession sid) Hok) as [Hr Hok'].
    cbn [store_perform] in Hr, Hok'.
    destruct (session_manager.end_session sid (w, session_manager h)) as [r [w' sm']].
    cbn [fst snd session_manager alert_manager emitted] in *.
    split; [exact Hr|]. split; [split; assumption|].
    exists []. rewrite app_nil_r. split; [reflexivity|constructor].
  - destruct (fuse_stress_scores_Ok (audio_result data) (video_result data)) as [fused Hfuse].
    destruct (update_session_Ok w (session_manager h) (session_id data) fused Hok)
      as (info & w1 & sm1 & Hupd & Hok1 & _).
    destruct (check_alerts_Ok w1 (alert_manager h) (session_id data)
                (default 0.5%Q (fusion.stress_score fused)) None Hwf)
      as (alerts & w2 & am2 & Hchk & Hwf2 & _).
    rewrite (handle_fusion_request_spec _ _ _ _ _ _ _ _ _ _ Hfuse Hupd Hchk).
    cbn [fst snd session_manager alert_manager emitted].
    split; [reflexivity|]. split; [split; assumption|].
    eexists. split; [reflexivity|].
    repeat (constructor; [reflexivity|]).
    apply Forall_fmap, Forall_forall. intros a _. reflexivity.
  - unfold handle_get_session_info, on_session_manager, emit. run_M.
    destruct (session_manager.sessions (session_manager h) !! sid) as [s|] eqn:Hs.
    + rewrite (get_session_info_known _ _ _ _ Hs).
      destruct Hok as [Hmax Hall].
      destruct (session_ok_analytics _ _ _ (Hall sid s Hs)) as [analytics ->].
      cbn [fst snd session_manager alert_manager emitted].
      split; [reflexivity|]. split; [split; [split|]; assumption|].
      eexists. split; [reflexivity|]. repeat constructor.
    + rewrite (get_session_info_unknown _ _ _ Hs).
      cbn [fst snd session_manager alert_manager emitted].
      split; [reflexivity|]. split; [split; assumption|].
      eexists. split; [reflexivity|]. repeat constructor.
  - unfold handle_get_timeline, on_session_manager, emit. run_M.
    destruct (session_manager.sessions (session_manager h) !! sid) as [s|] eqn:Hs.
    + rewrite (get_stress_timeline_known _ _ _ _ _ Hs).
      cbn [fst snd session_manager alert_manager emitted].
      split; [reflexivity|]. split; [split; assumption|].
      eexists. split; [reflexivity|]. repeat constructor.
    + rewrite (get_stress_timeline_unknown _ _ _ _ Hs).
      cbn [fst snd session_manager alert_manager emitted].
      split; [reflexivity|]. split; [split; assumption|].
      eexists. split; [reflexivity|]. repeat constructor.
Qed.

Lemma handler_ok_init : handler_ok __init__.
Proof. split; [apply store_ok_init|apply well_formed_init]. Qed.

Lemma handler_run_ok (cs : list handler_call) : forall w h,
  handler_ok h -> Forall (fun event => is_exception event = false) (emitted h) ->
  let out := handler_run cs (w, h) in
  Forall (fun r => r = Ok tt) out.1 /\ handler_ok out.2.2 /\
  Forall (fun event => is_exception event = false) (emitted out.2.2).
Proof.
  induction cs as [|c cs IH]; intros w h Hok Hev.
  - cbn. split; [constructor|]. split; assumption.
  - cbn [handler_run]. cbv zeta.
    destruct (handler_perform_step w h c Hok) as (Hr & Hok' & events & Hemitted & Hnew).
    destruct (handler_perform c (w, h)) as [r [w' h']]. cbn [fst snd] in *.
    assert (Hev' : Forall (fun event => is_exception event = false) (emitted h')).
    { rewrite Hemitted. apply Forall_app. split; assumption. }
    destruct (IH w' h' Hok' Hev') as (Hall & Hrest).
    split; [constructor; assumption|exact Hrest].
Qed.



End Handler.
